(** * Life-science-talks calendar export: the date and time parser

    A shallow embedding of [Date_to_calendar-local-html.py]: the month/year
    tracker, the date parser, the time-range parser, the duration formatter
    and the row loop of [main], together with the parts of the Python
    library they call ([re], [str] methods, [datetime]).

    Text is a list of Unicode code points.  The Unicode tables of the
    interpreter (what counts as a space, a digit, a word character, how a
    string is lowercased, which characters an IGNORECASE literal accepts)
    and the availability of the time-zone database are fields of the class
    [Runtime]; every general theorem holds for all runtimes, a few of them
    under the hypothesis, stated with them, that the runtime counts the
    space as white space and the percent sign not, and the worked examples
    are evaluated on [basic_latin], which agrees with CPython on Basic
    Latin text.  [datetime.strptime] is taken in the C locale. *)

From Stdlib Require Import ZArith NArith List String Ascii Bool Lia.
From Stdlib Require Import DecimalPos.
Import ListNotations.
Local Open Scope Z_scope.

(* ================================================================== *)
(** ** Text *)

Definition char := N.
Definition str := list char.

(** A Basic Latin literal of the source, as code points. *)
Definition py (s : string) : str := map N_of_ascii (list_ascii_of_string s).

Definition ch (a : ascii) : char := N_of_ascii a.

Definition EN_DASH : char := 8211%N.      (* – *)
Definition EM_DASH : char := 8212%N.      (* — *)
Definition NBSP : char := 160%N.          (* no-break space *)
Definition MIDDLE_DOT : char := 183%N.    (* the character in "·" *)

Definition tzinfo := str.

Class Runtime := {
  (** [str.isspace], the class [\s], and what [strip()] and [split()] drop *)
  isspace : char -> bool;
  (** the class [\d] (category Nd) and the value [int] gives the digit *)
  isdecimal : char -> bool;
  decimal_value : char -> Z;
  (** [str.isdigit] on one character *)
  isdigit : char -> bool;
  (** the class [\w], which decides [\b] *)
  isword : char -> bool;
  (** [str.lower] *)
  lower : str -> str;
  (** [ci_match p c]: the literal [p] of an IGNORECASE pattern accepts [c] *)
  ci_match : char -> char -> bool;
  (** whether [ZoneInfo("Europe/Berlin")] can be built *)
  zone_available : bool;
  (** what every Unicode database grants: a decimal digit has a value from
      0 to 9 and is no space, and the Basic Latin digits are decimal *)
  decimal_value_range : forall c, isdecimal c = true -> 0 <= decimal_value c <= 9;
  decimal_not_space : forall c, isdecimal c = true -> isspace c = false;
  latin_digits : forall c, (48 <= c <= 57)%N ->
                 isdecimal c = true /\ decimal_value c = Z.of_N c - 48
}.

Definition str_eqb (a b : str) : bool :=
  if list_eq_dec N.eq_dec a b then true else false.

Definition is_empty (s : str) : bool :=
  match s with [] => true | _ => false end.

Fixpoint dropwhile (p : char -> bool) (s : str) : str :=
  match s with
  | [] => []
  | c :: s' => if p c then dropwhile p s' else s
  end.

Definition lstrip_by (p : char -> bool) (s : str) : str := dropwhile p s.
Definition rstrip_by (p : char -> bool) (s : str) : str :=
  rev (dropwhile p (rev s)).
Definition strip_by (p : char -> bool) (s : str) : str :=
  rstrip_by p (lstrip_by p s).

Definition one_of (cs : str) (c : char) : bool := existsb (N.eqb c) cs.

(** [s.strip(chars)] *)
Definition strip_chars (chars : str) (s : str) : str := strip_by (one_of chars) s.

Fixpoint starts_with (p s : str) : bool :=
  match p, s with
  | [], _ => true
  | a :: p', b :: s' => N.eqb a b && starts_with p' s'
  | _ :: _, [] => false
  end.

(** [needle in hay] *)
Fixpoint contains (needle hay : str) : bool :=
  starts_with needle hay ||
  match hay with
  | [] => false
  | _ :: hay' => contains needle hay'
  end.

(** [s.replace(old, new)] for a non-empty [old]: [skip] counts the characters
    of the current occurrence still to be dropped. *)
Fixpoint replace_go (old new : str) (skip : nat) (s : str) : str :=
  match s with
  | [] => []
  | c :: s' =>
      match skip with
      | S n => replace_go old new n s'
      | O =>
          if starts_with old s
          then new ++ replace_go old new (List.length old - 1) s'
          else c :: replace_go old new O s'
      end
  end.

Definition replace (old new s : str) : str := replace_go old new O s.

(** [s.split(sep)] for a one-character separator *)
Fixpoint split_on (sep : char) (s : str) : list str :=
  match s with
  | [] => [[]]
  | c :: s' =>
      if N.eqb c sep then [] :: split_on sep s'
      else match split_on sep s' with
           | [] => [[c]]
           | w :: ws => (c :: w) :: ws
           end
  end.

(** [sep.join(xs)] *)
Fixpoint join (sep : str) (xs : list str) : str :=
  match xs with
  | [] => []
  | [x] => x
  | x :: xs' => x ++ sep ++ join sep xs'
  end.

(** The first element satisfying [p], else [d]: [next((v for v in xs if p(v)), d)] *)
Fixpoint next_or {A} (p : A -> bool) (xs : list A) (d : A) : A :=
  match xs with
  | [] => d
  | x :: xs' => if p x then x else next_or p xs' d
  end.

(** [xs.index(x)] *)
Fixpoint index_of (x : str) (xs : list str) : option nat :=
  match xs with
  | [] => None
  | y :: ys => if str_eqb y x then Some O
               else option_map S (index_of x ys)
  end.

Section TextOnRuntime.
Context {rt : Runtime}.

(** [s.strip()] *)
Definition strip (s : str) : str := strip_by isspace s.

(** [s.split()]: the maximal runs of non-space characters *)
Fixpoint split_ws_go (cur : str) (s : str) : list str :=
  match s with
  | [] => if is_empty cur then [] else [rev cur]
  | c :: s' =>
      if isspace c
      then (if is_empty cur then split_ws_go [] s' else rev cur :: split_ws_go [] s')
      else split_ws_go (c :: cur) s'
  end.

Definition split_ws (s : str) : list str := split_ws_go [] s.

(** [s.isdigit()] *)
Definition str_isdigit (s : str) : bool :=
  negb (is_empty s) && forallb isdigit s.

(** [any(ch.isdigit() for ch in s)] *)
Definition any_digit (s : str) : bool := existsb isdigit s.
End TextOnRuntime.

(* ================================================================== *)
(** ** Exceptions *)

Inductive exn :=
| ValueError (msg : str)
| TypeError
| OverflowError
| RuntimeError (msg : str).

Inductive result (A : Type) :=
| Ok (a : A)
| Raise (e : exn).
Arguments Ok {A} a.
Arguments Raise {A} e.

Definition bind {A B} (r : result A) (f : A -> result B) : result B :=
  match r with
  | Ok a => f a
  | Raise e => Raise e
  end.

Notation "x <- r ;; k" := (bind r (fun x => k))
  (at level 61, r at next level, right associativity).
Notation "' pat <- r ;; k" := (bind r (fun x => match x with pat => k end))
  (at level 61, pat pattern, r at next level, right associativity).

(** [try: body except ValueError: handler]: only [ValueError] is handled. *)
Definition except_ValueError {A} (body : result A) (handler : str -> result A)
  : result A :=
  match body with
  | Raise (ValueError msg) => handler msg
  | other => other
  end.

(* ================================================================== *)
(** ** Integers and text *)

Fixpoint str_of_uint (d : Decimal.uint) : str :=
  match d with
  | Decimal.Nil => []
  | Decimal.D0 d => ch "0" :: str_of_uint d
  | Decimal.D1 d => ch "1" :: str_of_uint d
  | Decimal.D2 d => ch "2" :: str_of_uint d
  | Decimal.D3 d => ch "3" :: str_of_uint d
  | Decimal.D4 d => ch "4" :: str_of_uint d
  | Decimal.D5 d => ch "5" :: str_of_uint d
  | Decimal.D6 d => ch "6" :: str_of_uint d
  | Decimal.D7 d => ch "7" :: str_of_uint d
  | Decimal.D8 d => ch "8" :: str_of_uint d
  | Decimal.D9 d => ch "9" :: str_of_uint d
  end.

(** [str(n)], which is also what [f"{n}"] prints *)
Definition str_of_int (n : Z) : str :=
  match n with
  | Z0 => py "0"
  | Zpos p => str_of_uint (Pos.to_uint p)
  | Zneg p => ch "-" :: str_of_uint (Pos.to_uint p)
  end.

Section IntOnRuntime.
Context {rt : Runtime}.

Definition int_of_decimals (s : str) : Z :=
  fold_left (fun acc c => acc * 10 + decimal_value c) s 0.

(** [int(s)] on the texts this program converts: runs of digits, possibly
    inside spaces.  Anything else is reported the way CPython reports a
    text that is no number; a run of more than 4300 digits is refused, with
    the message of CPython 3.11. *)
Definition py_int (s : str) : result Z :=
  let t := strip s in
  if negb (is_empty t) && forallb isdecimal t
  then if (List.length t <=? 4300)%nat then Ok (int_of_decimals t)
       else Raise (ValueError
              (py "Exceeds the limit (4300 digits) for integer string conversion: value has "
               ++ str_of_int (Z.of_nat (List.length t))
               ++ py " digits; use sys.set_int_max_str_digits() to increase the limit"))
  else Raise (ValueError
         (py "invalid literal for int() with base 10: '" ++ s ++ py "'")).
End IntOnRuntime.

(* ================================================================== *)
(** ** Regular expressions ([re])

    A backtracking matcher with Python's priorities: alternatives are tried
    left to right, [?] and [+] are greedy, and the first success wins.  The
    cursor remembers the character before the current position, which [\b]
    and the look-behind [(?<=...)] inspect. *)

Inductive regex :=
| Eps
| Lit (c : char)                      (* a literal character *)
| LitI (c : char)                     (* a literal under re.IGNORECASE *)
| Class (p : char -> bool)            (* a character class *)
| Seq (a b : regex)
| Alt (a b : regex)                   (* a|b *)
| Opt (a : regex)                     (* a? *)
| Plus (a : regex)                    (* a+ *)
| Group (name : string) (a : regex)   (* (a) or (?P<name>a) *)
| WordBoundary                        (* \b *)
| Behind (p : char -> bool)           (* (?<=[p]) *)
| Ahead (p : char -> bool).           (* (?=[p]) *)

Record cursor := {
  before : option char;
  pos : nat;
  rest : str;
  groups : list (string * str)
}.

Record match_ := {
  m_start : nat;
  m_end : nat;
  m_text : str;                        (* group(0) *)
  m_groups : list (string * str)
}.

Definition advance (c : cursor) : option (char * cursor) :=
  match rest c with
  | [] => None
  | x :: s => Some (x, {| before := Some x; pos := S (pos c); rest := s;
                          groups := groups c |})
  end.

Definition capture (name : string) (from to : cursor) : cursor :=
  {| before := before to; pos := pos to; rest := rest to;
     groups := (name, firstn (pos to - pos from) (rest from)) :: groups to |}.

Definition or_else {A} (a b : option A) : option A :=
  match a with Some _ => a | None => b end.

Definition holds (p : char -> bool) (c : option char) : bool :=
  match c with Some x => p x | None => false end.

Section Matcher.
Context {rt : Runtime}.

Fixpoint run (r : regex) (c : cursor) (k : cursor -> option cursor)
  : option cursor :=
  match r with
  | Eps => k c
  | Lit x =>
      match advance c with
      | Some (y, c') => if N.eqb x y then k c' else None
      | None => None
      end
  | LitI x =>
      match advance c with
      | Some (y, c') => if ci_match x y then k c' else None
      | None => None
      end
  | Class p =>
      match advance c with
      | Some (y, c') => if p y then k c' else None
      | None => None
      end
  | Seq a b => run a c (fun c' => run b c' k)
  | Alt a b => or_else (run a c k) (run b c k)
  | Opt a => or_else (run a c k) (k c)
  | Plus a =>
      (fix more (fuel : nat) (c : cursor) : option cursor :=
         match fuel with
         | O => None
         | S fuel' =>
             run a c (fun c' =>
               if (pos c <? pos c')%nat
               then or_else (more fuel' c') (k c')
               else k c')
         end) (S (List.length (rest c))) c
  | Group name a => run a c (fun c' => k (capture name c c'))
  | WordBoundary =>
      if xorb (holds isword (before c)) (holds isword (hd_error (rest c)))
      then k c else None
  | Behind p => if holds p (before c) then k c else None
  | Ahead p => if holds p (hd_error (rest c)) then k c else None
  end.

(** One attempt at the position of the cursor. *)
Definition match_here (r : regex) (prev : option char) (i : nat) (s : str)
  : option match_ :=
  match run r {| before := prev; pos := i; rest := s; groups := [] |} Some with
  | Some c => Some {| m_start := i; m_end := pos c;
                      m_text := firstn (pos c - i) s;
                      m_groups := groups c |}
  | None => None
  end.

(** [pattern.match(s)] *)
Definition re_match (r : regex) (s : str) : option match_ :=
  match_here r None O s.

Fixpoint search_from (r : regex) (prev : option char) (i : nat) (s : str)
  : option match_ :=
  match match_here r prev i s with
  | Some m => Some m
  | None =>
      match s with
      | [] => None
      | x :: s' => search_from r (Some x) (S i) s'
      end
  end.

(** [pattern.search(s)]: the leftmost match *)
Definition search (r : regex) (s : str) : option match_ :=
  search_from r None O s.

(** [pattern.sub(repl, s)] for a pattern that matches no empty string (all
    patterns of this program): the leftmost non-overlapping matches are
    replaced; [skip] counts the characters of the current match still to
    be dropped. *)
Fixpoint sub_go (r : regex) (repl : str) (skip : nat) (prev : option char)
  (i : nat) (s : str) : str :=
  match s with
  | [] => []
  | x :: s' =>
      match skip with
      | S n => sub_go r repl n (Some x) (S i) s'
      | O =>
          match match_here r prev i s with
          | Some m =>
              if (i <? m_end m)%nat
              then repl ++ sub_go r repl (m_end m - i - 1) (Some x) (S i) s'
              else x :: sub_go r repl O (Some x) (S i) s'
          | None => x :: sub_go r repl O (Some x) (S i) s'
          end
      end
  end.

Definition sub (r : regex) (repl : str) (s : str) : str :=
  sub_go r repl O None O s.

(** [m.group(name)], [None] when the group took no part in the match *)
Fixpoint group (name : string) (gs : list (string * str)) : option str :=
  match gs with
  | [] => None
  | (n, v) :: gs' => if String.eqb n name then Some v else group name gs'
  end.

(** Pattern builders *)
Fixpoint seqs (rs : list regex) : regex :=
  match rs with
  | [] => Eps
  | [r] => r
  | r :: rs' => Seq r (seqs rs')
  end.

Fixpoint alts (rs : list regex) : regex :=
  match rs with
  | [] => Class (fun _ => false)
  | [r] => r
  | r :: rs' => Alt r (alts rs')
  end.

Definition in_range (lo hi : ascii) (c : char) : bool :=
  (N.leb (ch lo) c && N.leb c (ch hi))%bool.

(** A literal text under re.IGNORECASE: the flag changes letters only. *)
Definition cased (c : char) : bool :=
  in_range "a" "z" c || in_range "A" "Z" c.
Definition lit_i (s : str) : regex :=
  seqs (map (fun c => if cased c then LitI c else Lit c) s).
Definition words_i (ws : list str) : regex := alts (map lit_i ws).

Definition digit := Class isdecimal.        (* \d *)
Definition spaces := Plus (Class isspace).   (* \s+ *)
End Matcher.

(* ================================================================== *)
(** ** Dates and times ([datetime])

    Proleptic Gregorian dates as CPython keeps them.  The wording of the
    library's own messages is that of CPython 3.11. *)

Record date := { year : Z; month : Z; day : Z }.

Record time := { t_hour : Z; t_minute : Z; t_tzinfo : option tzinfo }.

Record datetime := {
  dt_date : date;
  hour : Z;
  minute : Z;
  second : Z;
  dt_tzinfo : option tzinfo
}.

(** A [timedelta] of whole seconds (this program builds no other). *)
Definition timedelta := Z.
Definition timedelta_hours (h : Z) : timedelta := h * 3600.
Definition timedelta_days (d : Z) : timedelta := d * 86400.
Definition total_seconds (td : timedelta) : Z := td.

Definition MINYEAR := 1.
Definition MAXYEAR := 9999.
Definition INT_MAX := 2147483647.

Definition is_leap (y : Z) : bool :=
  (y mod 4 =? 0) && (negb (y mod 100 =? 0) || (y mod 400 =? 0)).

Definition days_in_month (y m : Z) : Z :=
  if (m =? 2) then (if is_leap y then 29 else 28)
  else if (m =? 4) || (m =? 6) || (m =? 9) || (m =? 11) then 30
  else 31.

Definition DAYS_BEFORE_MONTH (m : Z) : Z :=
  nth (Z.to_nat m) [0; 0; 31; 59; 90; 120; 151; 181; 212; 243; 273; 304; 334] 0.

Definition days_before_year (y : Z) : Z :=
  let y := y - 1 in y * 365 + y / 4 - y / 100 + y / 400.

Definition days_before_month (y m : Z) : Z :=
  DAYS_BEFORE_MONTH m + (if (2 <? m) && is_leap y then 1 else 0).

Definition ymd2ord (y m d : Z) : Z :=
  days_before_year y + days_before_month y m + d.

Definition DI400Y := 146097.
Definition DI100Y := 36524.
Definition DI4Y := 1461.

Definition ord2ymd (n : Z) : date :=
  let n := n - 1 in
  let n400 := n / DI400Y in
  let n := n mod DI400Y in
  let y := n400 * 400 + 1 in
  let n100 := n / DI100Y in
  let n := n mod DI100Y in
  let n4 := n / DI4Y in
  let n := n mod DI4Y in
  let n1 := n / 365 in
  let n := n mod 365 in
  let y := y + n100 * 100 + n4 * 4 + n1 in
  if (n1 =? 4) || (n100 =? 4) then {| year := y - 1; month := 12; day := 31 |}
  else
    let leapyear := (n1 =? 3) && (negb (n4 =? 24) || (n100 =? 3)) in
    let m := Z.shiftr (n + 50) 5 in
    let preceding := DAYS_BEFORE_MONTH m + (if (2 <? m) && leapyear then 1 else 0) in
    if n <? preceding
    then
      let m := m - 1 in
      let preceding :=
        preceding - (nth (Z.to_nat m) [0; 31; 28; 31; 30; 31; 30; 31; 31; 30; 31; 30; 31] 0
                     + (if (m =? 2) && leapyear then 1 else 0)) in
      {| year := y; month := m; day := n - preceding + 1 |}
    else {| year := y; month := m; day := n - preceding + 1 |}.

Definition toordinal (d : date) : Z := ymd2ord (year d) (month d) (day d).
Definition MAXORDINAL := 3652059.      (* date(9999, 12, 31).toordinal() *)

(** The constructors take C ints: a larger argument is an [OverflowError],
    before any range check. *)
Definition c_int (v : Z) : result Z :=
  if (v <=? INT_MAX) && (- INT_MAX - 1 <=? v) then Ok v else Raise OverflowError.

Definition check_date_fields (y m d : Z) : result date :=
  if negb ((MINYEAR <=? y) && (y <=? MAXYEAR))
  then Raise (ValueError (py "year " ++ str_of_int y ++ py " is out of range"))
  else if negb ((1 <=? m) && (m <=? 12))
  then Raise (ValueError (py "month must be in 1..12"))
  else if negb ((1 <=? d) && (d <=? days_in_month y m))
  then Raise (ValueError (py "day is out of range for month"))
  else Ok {| year := y; month := m; day := d |}.

(** [datetime(y, m, d)]: midnight of a checked date *)
Definition datetime_new (y m d : Z) : result datetime :=
  y <- c_int y ;; m <- c_int m ;; d <- c_int d ;;
  dd <- check_date_fields y m d ;;
  Ok {| dt_date := dd; hour := 0; minute := 0; second := 0; dt_tzinfo := None |}.

(** [time(hour=h, minute=m)] *)
Definition time_new (h m : Z) : result time :=
  h <- c_int h ;; m <- c_int m ;;
  if negb ((0 <=? h) && (h <=? 23))
  then Raise (ValueError (py "hour must be in 0..23"))
  else if negb ((0 <=? m) && (m <=? 59))
  then Raise (ValueError (py "minute must be in 0..59"))
  else Ok {| t_hour := h; t_minute := m; t_tzinfo := None |}.

(** [t.replace(tzinfo=tz)] *)
Definition time_replace_tzinfo (t : time) (tz : tzinfo) : time :=
  {| t_hour := t_hour t; t_minute := t_minute t; t_tzinfo := Some tz |}.

(** [datetime.combine(d, t)] *)
Definition datetime_combine (d : date) (t : time) : datetime :=
  {| dt_date := d; hour := t_hour t; minute := t_minute t; second := 0;
     dt_tzinfo := t_tzinfo t |}.

(** [dt.replace(year=y)] *)
Definition replace_year (dt : datetime) (y : Z) : result datetime :=
  y <- c_int y ;;
  dd <- check_date_fields y (month (dt_date dt)) (day (dt_date dt)) ;;
  Ok {| dt_date := dd; hour := hour dt; minute := minute dt; second := second dt;
        dt_tzinfo := dt_tzinfo dt |}.

(** Seconds on the wall clock since the midnight before 0001-01-01.  Two
    timestamps of this program carry the same [tzinfo] object, and Python
    then compares and subtracts them by their wall-clock fields. *)
Definition wall_seconds (dt : datetime) : Z :=
  toordinal (dt_date dt) * 86400 + hour dt * 3600 + minute dt * 60 + second dt.

(** [a <= b], [a < b] and [a - b] *)
Definition datetime_le (a b : datetime) : bool := wall_seconds a <=? wall_seconds b.
Definition datetime_lt (a b : datetime) : bool := wall_seconds a <? wall_seconds b.
Definition datetime_sub (a b : datetime) : timedelta := wall_seconds a - wall_seconds b.

(** [dt + td] *)
Definition datetime_add (dt : datetime) (td : timedelta) : result datetime :=
  let secs := hour dt * 3600 + minute dt * 60 + second dt + td in
  let days := toordinal (dt_date dt) + secs / 86400 in
  let secs := secs mod 86400 in
  if (1 <=? days) && (days <=? MAXORDINAL)
  then Ok {| dt_date := ord2ymd days;
             hour := secs / 3600;
             minute := (secs mod 3600) / 60;
             second := secs mod 60;
             dt_tzinfo := dt_tzinfo dt |}
  else Raise OverflowError.

Definition month_name : list str :=
  map py ["January"; "February"; "March"; "April"; "May"; "June"; "July";
          "August"; "September"; "October"; "November"; "December"]%string.

Definition month_abbr : list str :=
  map py ["Jan"; "Feb"; "Mar"; "Apr"; "May"; "Jun"; "Jul"; "Aug"; "Sep";
          "Oct"; "Nov"; "Dec"]%string.

(** [dt.strftime("%B")] *)
Definition strftime_B (dt : datetime) : str :=
  nth (Z.to_nat (month (dt_date dt) - 1)) month_name [].

(* ------------------------------------------------------------------ *)
(** *** [datetime.strptime]

    As in CPython's [_strptime]: the format is turned into a regular
    expression (compiled with re.IGNORECASE), which has to match at the
    start of the text and leave nothing over; the groups give the fields. *)

Section Strptime.
Context {rt : Runtime}.

(** The lowercased month names of the locale; index 0 is unused. *)
Definition f_month : list str := [] :: map lower month_name.
Definition a_month : list str := [] :: map lower month_abbr.

Definition nth_name (names : list str) (i : nat) : str := nth i names [].

Definition directive (d : char) : option regex :=
  if N.eqb d (ch "d") then
    Some (Group "d" (alts [seqs [Lit (ch "3"); Class (in_range "0" "1")];
                          seqs [Class (in_range "1" "2"); digit];
                          seqs [Lit (ch "0"); Class (in_range "1" "9")];
                          Class (in_range "1" "9");
                          seqs [Lit (ch " "); Class (in_range "1" "9")]]))
  else if N.eqb d (ch "m") then
    Some (Group "m" (alts [seqs [Lit (ch "1"); Class (in_range "0" "2")];
                          seqs [Lit (ch "0"); Class (in_range "1" "9")];
                          Class (in_range "1" "9")]))
  else if N.eqb d (ch "Y") then Some (Group "Y" (seqs [digit; digit; digit; digit]))
  else if N.eqb d (ch "y") then Some (Group "y" (seqs [digit; digit]))
  else if N.eqb d (ch "B") then
    (* the names, longest first *)
    Some (Group "B" (words_i (map (nth_name f_month)
                                [9; 2; 11; 12; 1; 10; 8; 3; 4; 6; 7; 5]%nat)))
  else if N.eqb d (ch "b") then
    Some (Group "b" (words_i (map (nth_name a_month)
                                [1; 2; 3; 4; 5; 6; 7; 8; 9; 10; 11; 12]%nat)))
  else None.

(** [in_space]: the previous character of the format was a space, so the
    run it belongs to is already translated to [\s+]. *)
Fixpoint format_regex (fmt : str) (in_space : bool) : option (list regex) :=
  match fmt with
  | [] => Some []
  | c :: fmt' =>
      if isspace c then
        match format_regex fmt' true with
        | Some rs => Some (if in_space then rs else spaces :: rs)
        | None => None
        end
      else if N.eqb c (ch "%") then
        match fmt' with
        | d :: fmt'' =>
            match directive d, format_regex fmt'' false with
            | Some r, Some rs => Some (r :: rs)
            | _, _ => None
            end
        | [] => None
        end
      else
        match format_regex fmt' false with
        | Some rs => Some ((if cased c then LitI c else Lit c) :: rs)
        | None => None
        end
  end.

Definition index_result (x : str) (xs : list str) : result Z :=
  match index_of x xs with
  | Some i => Ok (Z.of_nat i)
  | None => Raise (ValueError (py "list.index(x): x not in list"))
  end.

(** The field a group gives, or the default when the format lacks it. *)
Definition field (name : string) (gs : list (string * str)) (default : Z)
  (convert : str -> result Z) : result Z :=
  match group name gs with
  | Some v => convert v
  | None => Ok default
  end.

Definition two_digit_year (v : str) : result Z :=
  y <- py_int v ;; Ok (if y <=? 68 then y + 2000 else y + 1900).

(** [datetime.strptime(data, fmt)].  Without a year the date is read in
    1900, so that 29 February is refused.  The messages of the failures
    are never shown by this program and are abridged. *)
Definition strptime (data fmt : str) : result datetime :=
  match format_regex fmt false with
  | None => Raise (ValueError (py "bad directive in format"))
  | Some rs =>
      match re_match (seqs rs) data with
      | None => Raise (ValueError (py "time data does not match format"))
      | Some found =>
          if negb (m_end found =? List.length data)%nat
          then Raise (ValueError (py "unconverted data remains"))
          else
            let gs := m_groups found in
            y2 <- field "y" gs 1900 two_digit_year ;;
            y <- field "Y" gs y2 py_int ;;
            m1 <- field "m" gs 1 py_int ;;
            m2 <- field "B" gs m1 (fun v => index_result (lower v) f_month) ;;
            m <- field "b" gs m2 (fun v => index_result (lower v) a_month) ;;
            d <- field "d" gs 1 py_int ;;
            dd <- check_date_fields y m d ;;
            Ok {| dt_date := dd; hour := 0; minute := 0; second := 0;
                  dt_tzinfo := None |}
      end
  end.
End Strptime.

(* ================================================================== *)
(** ** The program *)

(** The two labels [extract_meridiem_label] returns, "am" and "pm"; a
    meridiem that may be [None] is an [option meridiem]. *)
Inductive meridiem := am | pm.

Record cell := { stripped_strings : list str }.

(** A table row as [main] sees it: its [td] cells, the texts of its
    [strong] elements, and the [href] of its first link if it has one. *)
Record row := {
  cells : list cell;
  strong_texts : list str;
  link_tag : option str
}.

Record event := {
  name : str;
  begin : datetime;
  end_ : datetime;
  description : str;
  location : option str;
  url : option str
}.

(** The variables of the row loop of [main]. *)
Record loop_state := {
  cal_events : list event;
  current_month_name : option str;
  current_year : Z;
  created_events : Z;
  skipped_details : list str
}.

(** What [main] leaves behind: the calendar it writes and the lines it
    prints. *)
Record report := {
  calendar : list event;
  exported_line : str;
  skipped_line : option str
}.

(** [if x:] on a text that may be [None] *)
Definition truthy (o : option str) : bool :=
  match o with
  | Some s => negb (is_empty s)
  | None => false
  end.

(** [for fmt in fmts: try: return body(fmt) except ValueError: continue],
    then [otherwise] *)
Fixpoint first_format {A} (fmts : list str) (body : str -> result A)
  (otherwise : result A) : result A :=
  match fmts with
  | [] => otherwise
  | fmt :: fmts' =>
      except_ValueError (body fmt)
        (fun _ => first_format fmts' body otherwise)
  end.

(** [try: body except ValueError as exc: ...]: the outcome handed to the
    code after the statement *)
Definition attempt {A} (body : result A) : result (A + str) :=
  match body with
  | Ok a => Ok (inl a)
  | Raise (ValueError msg) => Ok (inr msg)
  | Raise e => Raise e
  end.

Fixpoint foldM {S A} (step : S -> A -> result S) (s : S) (xs : list A)
  : result S :=
  match xs with
  | [] => Ok s
  | x :: xs' => s' <- step s x ;; foldM step s' xs'
  end.

Definition is_some {A} (o : option A) : bool :=
  match o with Some _ => true | None => false end.

Definition OUTPUT_PATH : str := py "life_science_talks.ics".
Definition DEFAULT_TIMEZONE_NAME : str := py "Europe/Berlin".
Definition DEFAULT_SINGLE_EVENT_DURATION : timedelta := timedelta_hours 1.

Definition is_nil {A} (xs : list A) : bool :=
  match xs with [] => true | _ => false end.

Definition NEWLINE : char := 10%N.

Definition format_duration (delta : timedelta) : str :=
  let total_minutes := total_seconds delta / 60 in
  let hours := total_minutes / 60 in
  let minutes := total_minutes mod 60 in
  let parts := [] in
  let parts := if negb (hours =? 0) then parts ++ [str_of_int hours ++ py "h"] else parts in
  let parts :=
    if negb (minutes =? 0) || is_nil parts
    then parts ++ [str_of_int minutes ++ py "m"] else parts in
  join (py " ") parts.

Definition build_description (speaker venue link duration_text : str) : str :=
  let chunks := [] in
  let chunks := if negb (is_empty speaker) then chunks ++ [py "Speaker: " ++ speaker] else chunks in
  let chunks := if negb (is_empty venue) then chunks ++ [py "Venue: " ++ venue] else chunks in
  let chunks := if negb (is_empty link) then chunks ++ [py "Link: " ++ link] else chunks in
  let chunks :=
    if negb (is_empty duration_text)
    then chunks ++ [py "Duration: " ++ duration_text] else chunks in
  join [NEWLINE] chunks.

Definition initial_state (now_year : Z) : loop_state :=
  {| cal_events := []; current_month_name := None; current_year := now_year;
     created_events := 0; skipped_details := [] |}.

Definition set_current_year (st : loop_state) (y : Z) : loop_state :=
  {| cal_events := cal_events st; current_month_name := current_month_name st;
     current_year := y; created_events := created_events st;
     skipped_details := skipped_details st |}.

Definition set_current_month_name (st : loop_state) (m : option str) : loop_state :=
  {| cal_events := cal_events st; current_month_name := m;
     current_year := current_year st; created_events := created_events st;
     skipped_details := skipped_details st |}.

(** [skipped_details.append(reason)] *)
Definition skip (st : loop_state) (reason : str) : loop_state :=
  {| cal_events := cal_events st; current_month_name := current_month_name st;
     current_year := current_year st; created_events := created_events st;
     skipped_details := skipped_details st ++ [reason] |}.

(** [cal.events.add(event); created_events += 1] *)
Definition add_event (st : loop_state) (ev : event) : loop_state :=
  {| cal_events := cal_events st ++ [ev];
     current_month_name := current_month_name st;
     current_year := current_year st; created_events := created_events st + 1;
     skipped_details := skipped_details st |}.

(** The calendar written to [OUTPUT_PATH] and the two [print] calls that end
    [main]. *)
Definition report_of (st : loop_state) : report :=
  let skipped := skipped_details st in
  {| calendar := cal_events st;
     exported_line :=
       py "Exported " ++ str_of_int (created_events st) ++ py " events to " ++ OUTPUT_PATH;
     skipped_line :=
       if is_nil skipped then None
       else
         let preview := join (py "; ") (firstn 5 skipped) in
         let more :=
           if (List.length skipped <=? 5)%nat then []
           else py " and " ++ str_of_int (Z.of_nat (List.length skipped) - 5) ++ py " more" in
         Some (py "Skipped " ++ str_of_int (Z.of_nat (List.length skipped))
               ++ py " rows: " ++ preview ++ more) |}.

Section Program.
Context {rt : Runtime}.

Definition DEFAULT_TIMEZONE : option tzinfo :=
  if zone_available then Some DEFAULT_TIMEZONE_NAME else None.

(** [(a\.?m\.?|p\.?m\.?)], IGNORECASE *)
Definition MERIDIEM_PATTERN : regex :=
  Group "1"
    (Alt (seqs [LitI (ch "a"); Opt (Lit (ch ".")); LitI (ch "m"); Opt (Lit (ch "."))])
         (seqs [LitI (ch "p"); Opt (Lit (ch ".")); LitI (ch "m"); Opt (Lit (ch "."))])).

(** [\b(?:cet|cest|gmt|utc(?:[+\-]\d{1,2})?|mez|mesz)\b], IGNORECASE *)
Definition TZ_LABEL_PATTERN : regex :=
  seqs [WordBoundary;
       alts [lit_i (py "cet"); lit_i (py "cest"); lit_i (py "gmt");
            seqs [lit_i (py "utc");
                 Opt (seqs [Class (one_of (py "+-")); digit; Opt digit])];
            lit_i (py "mez"); lit_i (py "mesz")];
       WordBoundary].

(** [\b(?:to|bis)\b], IGNORECASE *)
Definition RANGE_CONNECTOR_PATTERN : regex :=
  seqs [WordBoundary; alts [lit_i (py "to"); lit_i (py "bis")]; WordBoundary].

(** [\b(?:hrs?|hours?|uhr|o'clock|h)\b], IGNORECASE *)
Definition EXTRA_LABEL_PATTERN : regex :=
  seqs [WordBoundary;
       alts [seqs [lit_i (py "hr"); Opt (LitI (ch "s"))];
            seqs [lit_i (py "hour"); Opt (LitI (ch "s"))];
            lit_i (py "uhr"); lit_i (py "o'clock"); lit_i (py "h")];
       WordBoundary].

(** [(?P<hour>\d{1,2})(?::(?P<minute>\d{2}))?] *)
Definition TIME_CORE_PATTERN : regex :=
  seqs [Group "hour" (seqs [digit; Opt digit]);
       Opt (seqs [Lit (ch ":"); Group "minute" (seqs [digit; digit])])].

(** [\b(20\d{2})\b] *)
Definition YEAR_PATTERN : regex :=
  seqs [WordBoundary;
       Group "1" (seqs [Lit (ch "2"); Lit (ch "0"); digit; digit]);
       WordBoundary].

(** [\b(Monday|Tuesday|Wednesday|Thursday|Friday|Saturday|Sunday)\b],
    IGNORECASE *)
Definition WEEKDAY_PATTERN : regex :=
  seqs [WordBoundary;
       Group "1" (words_i (map py ["Monday"; "Tuesday"; "Wednesday"; "Thursday";
                                   "Friday"; "Saturday"; "Sunday"]%string));
       WordBoundary].

(** [int(m.group(name))]; a group that took no part in the match is [None] *)
Definition int_group (name : string) (m : match_) : result Z :=
  match group name (m_groups m) with
  | Some v => py_int v
  | None => Raise TypeError
  end.

Definition clean_text (node : cell) : str :=
  join (py " ") (stripped_strings node).

(** The year the heading names, else the fallback:
    [year = fallback_year; year_match = re.search(...);
     if year_match: year = int(year_match.group(1))] *)
Definition year_or (sanitized : str) (fallback_year : Z) : result Z :=
  match search YEAR_PATTERN sanitized with
  | Some year_match => int_group "1" year_match
  | None => Ok fallback_year
  end.

(** The loop over the tokens of the heading. *)
Fixpoint month_of_tokens (sanitized : str) (fallback_year : Z)
  (tokens : list str) (otherwise : result (option str * Z))
  : result (option str * Z) :=
  match tokens with
  | [] => otherwise
  | token :: tokens' =>
      let token_clean := strip_chars (py ". ") token in
      if is_empty token_clean
      then month_of_tokens sanitized fallback_year tokens' otherwise
      else
        let named fmt :=
          parsed <- strptime token_clean (py fmt) ;;
          y <- year_or sanitized fallback_year ;;
          Ok (Some (strftime_B parsed), y) in
        except_ValueError (named "%B"%string) (fun _ =>
        except_ValueError (named "%b"%string) (fun _ =>
        month_of_tokens sanitized fallback_year tokens' otherwise))
  end.

Definition extract_month_and_year (text : str) (fallback_year : Z)
  : result (option str * Z) :=
  let sanitized :=
    strip (sub (Class (one_of [EN_DASH; EM_DASH; ch ","; ch "/"])) (py " ") text) in
  let sanitized := sub spaces (py " ") sanitized in
  if is_empty sanitized then Ok (None, fallback_year)
  else
    first_format [py "%B %Y"; py "%b %Y"]
      (fun fmt =>
         parsed <- strptime sanitized fmt ;;
         Ok (Some (strftime_B parsed), year (dt_date parsed)))
      (month_of_tokens sanitized fallback_year (split_ws sanitized)
         (match search YEAR_PATTERN sanitized with
          | Some year_match => y <- int_group "1" year_match ;; Ok (None, y)
          | None => Ok (None, fallback_year)
          end)).

(** The loop over the candidate texts of [parse_date]. *)
Fixpoint parse_candidates (candidates : list str) (current_year : Z)
  (otherwise : result date) : result date :=
  match candidates with
  | [] => otherwise
  | candidate :: candidates' =>
      first_format [py "%B %d %Y"; py "%b %d %Y"; py "%d %B %Y"; py "%d %b %Y"]
        (fun fmt => parsed <- strptime candidate fmt ;; Ok (dt_date parsed))
      (first_format [py "%B %d"; py "%b %d"; py "%d %B"; py "%d %b"]
        (fun fmt =>
           parsed <- strptime candidate fmt ;;
           parsed <- replace_year parsed current_year ;;
           Ok (dt_date parsed))
      (first_format [py "%d.%m.%Y"; py "%d.%m.%y"; py "%d.%m."]
        (fun fmt =>
           parsed <- strptime candidate fmt ;;
           parsed <- (if negb (contains (py "%Y") fmt) && negb (contains (py "%y") fmt)
                      then replace_year parsed current_year
                      else Ok parsed) ;;
           Ok (dt_date parsed))
      (parse_candidates candidates' current_year otherwise)))
  end.

Definition parse_date (date_text : str) (current_month_name : option str)
  (current_year : Z) : result date :=
  let cleaned := strip (sub (Class (one_of [NBSP; ch ","])) (py " ") date_text) in
  let cleaned := sub spaces (py " ") cleaned in
  let cleaned := strip (sub WEEKDAY_PATTERN [] cleaned) in
  let cleaned := sub spaces (py " ") cleaned in
  if is_empty cleaned then Raise (ValueError (py "Date text is empty"))
  else
    let candidates :=
      match current_month_name with
      | Some month_text =>
          if truthy current_month_name
             && negb (contains (lower month_text) (lower cleaned))
          then [month_text ++ py " " ++ cleaned; cleaned]
          else [cleaned]
      | None => [cleaned]
      end in
    parse_candidates candidates current_year
      (match current_month_name with
       | Some month_text =>
           if str_isdigit cleaned && truthy current_month_name
           then
             month_dt <- strptime month_text (py "%B") ;;
             d <- py_int cleaned ;;
             dt <- datetime_new current_year (month (dt_date month_dt)) d ;;
             Ok (dt_date dt)
           else Raise (ValueError (py "Unable to parse date '" ++ date_text ++ py "'"))
       | None => Raise (ValueError (py "Unable to parse date '" ++ date_text ++ py "'"))
       end).

Definition sanitize_time_fragment (fragment : str) : str :=
  let fragment := replace (py "a.m.") (py "am") (replace (py "p.m.") (py "pm") fragment) in
  let fragment := sub (seqs [Behind isdecimal; LitI (ch "h"); Ahead isdecimal]) (py ":") fragment in
  let fragment := sub (seqs [Behind isdecimal; Lit (ch "."); Ahead isdecimal]) (py ":") fragment in
  let fragment := sub TZ_LABEL_PATTERN [] fragment in
  let fragment := sub EXTRA_LABEL_PATTERN [] fragment in
  let fragment := replace (py "midday") (py "noon") fragment in
  let fragment := replace [MIDDLE_DOT] (py " ") fragment in
  let fragment := sub (Class (one_of (py "()"))) (py " ") fragment in
  let fragment := sub spaces (py " ") fragment in
  strip fragment.

Definition extract_meridiem_label (text : str) : option meridiem :=
  match search MERIDIEM_PATTERN text with
  | None => None
  | Some m => Some (if contains (py "p") (lower (m_text m)) then pm else am)
  end.

Definition convert_to_24_hour (hour : Z) (meridiem : option meridiem) : Z :=
  let hour := hour mod 24 in
  match meridiem with
  | None => hour
  | Some am => if hour =? 12 then 0 else hour
  | Some pm => if hour =? 12 then 12 else hour + 12
  end.

Definition parse_time_fragment (fragment : str)
  (default_meridiem : option meridiem) (prefer_12_hour : bool)
  : result (Z * Z) :=
  let sanitized := sanitize_time_fragment fragment in
  if is_empty sanitized then Raise (ValueError (py "Empty time fragment"))
  else
    let lowered := lower sanitized in
    if str_eqb lowered (py "noon") then Ok (12, 0)
    else if str_eqb lowered (py "midnight") then Ok (0, 0)
    else
      match search TIME_CORE_PATTERN sanitized with
      | None =>
          Raise (ValueError (py "Could not parse time from '" ++ fragment ++ py "'"))
      | Some m =>
          hour <- int_group "hour" m ;;
          minute <- (if truthy (group "minute" (m_groups m))
                     then int_group "minute" m else Ok 0) ;;
          let meridiem := extract_meridiem_label sanitized in
          let prefer_12_hour := if is_some meridiem then true else prefer_12_hour in
          let meridiem :=
            if negb (is_some meridiem) && prefer_12_hour
               && is_some default_meridiem && (hour <=? 12)
            then default_meridiem else meridiem in
          let hour_24 := convert_to_24_hour hour meridiem in
          Ok (hour_24, minute)
      end.

Definition assemble_datetime (event_date : date) (hour minute : Z)
  : result datetime :=
  base_time <- time_new (hour mod 24) minute ;;
  let base_time :=
    match DEFAULT_TIMEZONE with
    | Some tz => time_replace_tzinfo base_time tz
    | None => base_time
    end in
  Ok (datetime_combine event_date base_time).

Definition looks_like_time_range (text : str) : bool :=
  let lowered := lower text in
  if is_some (search (Class (one_of [ch "-"; EN_DASH; EM_DASH])) text)
     && is_some (search digit text)
  then true
  else if contains (py " to ") lowered || contains (py " bis ") lowered
  then true
  else false.

(** Lines 237 to 241 of [parse_time_components]: the normalized text. *)
Definition normalize_time_range (time_range : str) : str :=
  let normalized := sub RANGE_CONNECTOR_PATTERN (py "-") time_range in
  let normalized := replace [EM_DASH] (py "-") (replace [EN_DASH] (py "-") normalized) in
  let normalized := sub TZ_LABEL_PATTERN [] normalized in
  let normalized := sub EXTRA_LABEL_PATTERN [] normalized in
  strip_chars (py " -") (sub spaces (py " ") normalized).

(** Line 246: [[part.strip() for part in normalized.split("-") if part.strip()]] *)
Definition range_parts (normalized : str) : list str :=
  filter (fun part => negb (is_empty part)) (map strip (split_on (ch "-") normalized)).

(** Lines 249 to 256: a single time. *)
Definition single_time (start_part : str) (event_date : date)
  : result (datetime * datetime) :=
  let start_hint := extract_meridiem_label start_part in
  '(start_hour, start_minute) <-
    parse_time_fragment start_part start_hint (is_some start_hint) ;;
  start_dt <- assemble_datetime event_date start_hour start_minute ;;
  end_dt <- datetime_add start_dt DEFAULT_SINGLE_EVENT_DURATION ;;
  Ok (start_dt, end_dt).

(** Lines 268 to 281: a start and an end, once the defaults are chosen. *)
Definition time_range_with (start_default end_default : option meridiem)
  (prefer_12_hour : bool) (start_part end_part : str) (event_date : date)
  : result (datetime * datetime) :=
  '(start_hour, start_minute) <-
    parse_time_fragment start_part start_default prefer_12_hour ;;
  '(end_hour, end_minute) <-
    parse_time_fragment end_part end_default prefer_12_hour ;;
  start_dt <- assemble_datetime event_date start_hour start_minute ;;
  end_dt <- assemble_datetime event_date end_hour end_minute ;;
  end_dt <- (if datetime_le end_dt start_dt
             then datetime_add end_dt (timedelta_days 1)
             else Ok end_dt) ;;
  Ok (start_dt, end_dt).

(** Lines 261 to 266: the hints of the two sides and the defaults they
    give. *)
Definition time_range_of (start_part end_part : str) (event_date : date)
  : result (datetime * datetime) :=
  let start_hint := extract_meridiem_label start_part in
  let end_hint := extract_meridiem_label end_part in
  let start_default := or_else start_hint end_hint in
  let end_default := or_else end_hint start_hint in
  let prefer_12_hour := is_some (or_else start_hint end_hint) in
  time_range_with start_default end_default prefer_12_hour
    start_part end_part event_date.

Definition parse_time_components (time_range : str) (event_date : date)
  : result (datetime * datetime) :=
  let normalized := normalize_time_range time_range in
  if is_empty normalized
  then Raise (ValueError (py "Empty time range: " ++ time_range))
  else
    let parts := range_parts normalized in
    if (List.length parts =? 1)%nat
    then single_time (nth 0 parts []) event_date
    else if (List.length parts <? 2)%nat
    then Raise (ValueError (py "Unexpected time range: " ++ time_range))
    else time_range_of (nth 0 parts []) (nth 1 parts []) event_date.

Definition heading_text (st : loop_state) (text : str) : result loop_state :=
  '(month_candidate, year_candidate) <-
    extract_month_and_year text (current_year st) ;;
  let st :=
    if negb (year_candidate =? current_year st)
    then set_current_year st year_candidate else st in
  let st :=
    if truthy month_candidate
    then set_current_month_name st month_candidate else st in
  Ok st.

(** One turn of the loop [for row in table.select("tr")] of [main]. *)
Definition process_row (st : loop_state) (r : row) : result loop_state :=
  if is_nil (cells r) then Ok st
  else if negb (is_nil (strong_texts r)) && negb (is_some (link_tag r))
  then foldM heading_text st (strong_texts r)
  else
    let date_strings := stripped_strings (nth 0 (cells r) {| stripped_strings := [] |}) in
    if is_nil date_strings then Ok st
    else
      let joined_date := join (py " ") date_strings in
      if negb (any_digit joined_date) then Ok st
      else
        let date_token := next_or any_digit date_strings (nth 0 date_strings []) in
        parsed <- attempt (parse_date date_token (current_month_name st) (current_year st)) ;;
        match parsed with
        | inr exc =>
            Ok (skip st (py "date parse failed for '" ++ date_token ++ py "': " ++ exc))
        | inl event_date =>
            let date_index :=
              match index_of date_token date_strings with
              | Some i => i
              | None => O
              end in
            let trailing_strings := skipn (date_index + 1) date_strings in
            let time_candidates := filter looks_like_time_range trailing_strings in
            let time_candidates :=
              if is_nil time_candidates
              then
                let fallback := next_or any_digit trailing_strings [] in
                if negb (is_empty fallback) then [fallback] else time_candidates
              else time_candidates in
            if is_nil time_candidates
            then Ok (skip st (py "missing time range for date '" ++ date_token ++ py "'"))
            else
              let time_text := nth 0 time_candidates [] in
              times <- attempt (parse_time_components time_text event_date) ;;
              match times with
              | inr exc =>
                  Ok (skip st (py "time parse failed for '" ++ time_text ++ py "': " ++ exc))
              | inl (start_dt, end_dt) =>
                  let n := List.length (cells r) in
                  let cell_text i := clean_text (nth i (cells r) {| stripped_strings := [] |}) in
                  let title := if (2 <? n)%nat then cell_text 2%nat else [] in
                  let speaker := if (4 <? n)%nat then cell_text 4%nat else [] in
                  let venue :=
                    if (6 <? n)%nat then cell_text 6%nat
                    else if negb (n =? 0)%nat then cell_text (n - 1)%nat else [] in
                  let link := match link_tag r with Some href => href | None => [] end in
                  let title := if is_empty title then py "Untitled Event" else title in
                  let ev := {|
                    name := title;
                    begin := start_dt;
                    end_ := end_dt;
                    description :=
                      build_description speaker venue link
                        (format_duration (datetime_sub end_dt start_dt));
                    location := if negb (is_empty venue) then Some venue else None;
                    url := if negb (is_empty link) then Some link else None
                  |} in
                  Ok (add_event st ev)
              end
        end.

(** [main] from line 317 to line 410 and its two [print] calls, lines 415
    to 419: from the table the page gave ([None] when the selector found
    none) and the year of the clock, to the events and the lines printed.
    Reading the page (lines 314 and 315) and serialising and writing the
    calendar (lines 412 and 413) are calls into libraries and are not part
    of this function: a run of the program that completes is a run of
    [main] that returns, and an exception of [main] is one of the program,
    but the program can still fail where [main] returns, inside those
    calls. *)
Definition main (now_year : Z) (table : option (list row)) : result report :=
  match table with
  | None =>
      Raise (RuntimeError (py "Could not find the expected table with event data."))
  | Some rows =>
      st <- foldM process_row (initial_state now_year) rows ;;
      Ok (report_of st)
  end.
End Program.

(* ------------------------------------------------------------------ *)
(** *** A runtime for Basic Latin text

    On texts of Basic Latin characters (and the few others this program
    names: the dashes, the no-break space, the middle dot) these tables are
    CPython's.  The spaces are all of [str.isspace]. *)

Definition latin_space (c : char) : bool :=
  ((9 <=? c) && (c <=? 13) || (28 <=? c) && (c <=? 32) || (c =? 133)
   || (c =? 160) || (c =? 5760) || (8192 <=? c) && (c <=? 8202)
   || (c =? 8232) || (c =? 8233) || (c =? 8239) || (c =? 8287)
   || (c =? 12288))%N.

Definition latin_digit (c : char) : bool := in_range "0" "9" c.

Definition latin_word (c : char) : bool :=
  in_range "a" "z" c || in_range "A" "Z" c || in_range "0" "9" c
  || N.eqb c (ch "_").

Definition latin_lower1 (c : char) : char :=
  if in_range "A" "Z" c then (c + 32)%N else c.

#[export, refine] Instance basic_latin : Runtime := {|
  isspace := latin_space;
  isdecimal := latin_digit;
  decimal_value := fun c => Z.of_N c - 48;
  isdigit := latin_digit;
  isword := latin_word;
  lower := map latin_lower1;
  ci_match := fun p c => N.eqb (latin_lower1 p) (latin_lower1 c);
  zone_available := true;
  decimal_value_range := _;
  decimal_not_space := _;
  latin_digits := _
|}.
Proof.
  all: intros c; unfold latin_digit, latin_space, in_range;
    change (ch "0") with 48%N; change (ch "9") with 57%N.
  - rewrite andb_true_iff, !N.leb_le. lia.
  - rewrite andb_true_iff, !N.leb_le. intros Hc.
    replace (c <=? 13)%N with false by (symmetry; apply N.leb_gt; lia).
    replace (c <=? 32)%N with false by (symmetry; apply N.leb_gt; lia).
    replace (8192 <=? c)%N with false by (symmetry; apply N.leb_gt; lia).
    rewrite !andb_false_r. simpl.
    repeat (apply orb_false_intro); try reflexivity; apply N.eqb_neq; lia.
  - intros Hc. split; [ | reflexivity ].
    rewrite andb_true_iff, !N.leb_le. lia.
Defined.

(* ================================================================== *)
(** ** Definitions for the statements and the proofs *)

(** The month and the day [ord2ymd] gives the [n]-th day of a year. *)
Definition month_day_of (leapyear : bool) (n : Z) : Z * Z :=
  let m := Z.shiftr (n + 50) 5 in
  let preceding := DAYS_BEFORE_MONTH m + (if (2 <? m) && leapyear then 1 else 0) in
  if n <? preceding
  then
    let m := m - 1 in
    let preceding :=
      preceding - (nth (Z.to_nat m) [0; 31; 28; 31; 30; 31; 30; 31; 31; 30; 31; 30; 31] 0
                   + (if (m =? 2) && leapyear then 1 else 0)) in
    (m, n - preceding + 1)
  else (m, n - preceding + 1).

Definition month_day_ok (leapyear : bool) (n : Z) : bool :=
  let '(m, d) := month_day_of leapyear n in
  (1 <=? m) && (m <=? 12) && (1 <=? d) &&
  (DAYS_BEFORE_MONTH m + (if (2 <? m) && leapyear then 1 else 0) + d =? n + 1).

(** The digit a character writes. *)
Definition digit_of (c : char) : option (Decimal.uint -> Decimal.uint) :=
  if N.eqb c (ch "0") then Some Decimal.D0
  else if N.eqb c (ch "1") then Some Decimal.D1
  else if N.eqb c (ch "2") then Some Decimal.D2
  else if N.eqb c (ch "3") then Some Decimal.D3
  else if N.eqb c (ch "4") then Some Decimal.D4
  else if N.eqb c (ch "5") then Some Decimal.D5
  else if N.eqb c (ch "6") then Some Decimal.D6
  else if N.eqb c (ch "7") then Some Decimal.D7
  else if N.eqb c (ch "8") then Some Decimal.D8
  else if N.eqb c (ch "9") then Some Decimal.D9
  else None.

(** The digits a text starts with, and the text after them. *)
Fixpoint read_uint (s : str) : Decimal.uint * str :=
  match s with
  | [] => (Decimal.Nil, [])
  | c :: s' =>
      match digit_of c with
      | Some d => let '(u, rest) := read_uint s' in (d u, rest)
      | None => (Decimal.Nil, s)
      end
  end.

(** The count a text starts with: a run of at least one digit. *)
Definition read_count (s : str) : option (Z * str) :=
  match read_uint s with
  | (Decimal.Nil, _) => None
  | (u, rest) => Some (Z.of_N (N.of_uint u), rest)
  end.

(** What a reader takes a duration text to state: ["<H>h"] states H hours,
    ["<M>m"] states M minutes and ["<H>h <M>m"] their sum. *)
Definition stated_duration (text : str) : option timedelta :=
  match read_count text with
  | Some (n, [u]) =>
      if N.eqb u (ch "h") then Some (timedelta_hours n)
      else if N.eqb u (ch "m") then Some (n * 60)
      else None
  | Some (h, u :: sp :: rest) =>
      if N.eqb u (ch "h") && N.eqb sp (ch " ") then
        match read_count rest with
        | Some (m, [v]) =>
            if N.eqb v (ch "m") then Some (timedelta_hours h + m * 60) else None
        | _ => None
        end
      else None
  | _ => None
  end.

(** A timestamp of the Europe/Berlin wall clock. *)
Definition berlin (y m d h mi : Z) : datetime :=
  {| dt_date := {| year := y; month := m; day := d |};
     hour := h; minute := mi; second := 0;
     dt_tzinfo := Some DEFAULT_TIMEZONE_NAME |}.

(** The last line of a text. *)
Definition last_line (text : str) : str := last (split_on NEWLINE text) [].

(** An error that is not the [ValueError] with the given first character. *)
Definition message_avoids (c : char) {A} (r : result A) : Prop :=
  forall msg, r = Raise (ValueError msg) -> hd_error msg <> Some c.

(** The event date of the examples, 2024-05-01. *)
Definition may_day : date := {| year := 2024; month := 5; day := 1 |}.

(** The fragment is read by the generic numeric path of
    [parse_time_fragment], which extracts hour [h] and minute [mi]. *)
Definition numeric_reading {rt : Runtime} (sanitized : str) (h mi : Z) : Prop :=
  is_empty sanitized = false
  /\ str_eqb (lower sanitized) (py "noon") = false
  /\ str_eqb (lower sanitized) (py "midnight") = false
  /\ exists m, search TIME_CORE_PATTERN sanitized = Some m
               /\ int_group "hour" m = Ok h
               /\ (if truthy (group "minute" (m_groups m))
                   then int_group "minute" m else Ok 0) = Ok mi.

(** The text does not go on with a digit. *)
Definition no_digit_ahead (rest : str) : Prop :=
  match rest with
  | [] => True
  | c :: _ => digit_of c = None
  end.

Definition no_newline (s : str) : Prop := Forall (fun c => c <> NEWLINE) s.

(** The rows [main] reads as headings: cells, emphasized text, no link. *)
Definition is_heading (r : row) : bool :=
  negb (is_nil (cells r)) && negb (is_nil (strong_texts r)) && negb (is_some (link_tag r)).

(** The years [datetime] can hold. *)
Definition year_in_range (y : Z) : Prop := MINYEAR <= y <= MAXYEAR.

(** A heading row with one emphasized text and no link. *)
Definition heading_row (text : str) : row :=
  {| cells := [ {| stripped_strings := [text] |} ];
     strong_texts := [text];
     link_tag := None |}.

(** A data row of seven cells: the date and the time in the first, then the
    title, the speaker and the venue in the third, fifth and seventh. *)
Definition talk_row (date_text time_text : str) : row :=
  let blank := {| stripped_strings := [] |} in
  {| cells := [ {| stripped_strings := [date_text; time_text] |}; blank;
                {| stripped_strings := [py "A talk"] |}; blank;
                {| stripped_strings := [py "A speaker"] |}; blank;
                {| stripped_strings := [py "A hall"] |} ];
     strong_texts := [];
     link_tag := Some (py "https://example.org/talk") |}.

(** A pattern without groups. *)
Fixpoint groupless (r : regex) : bool :=
  match r with
  | Seq a b | Alt a b => groupless a && groupless b
  | Opt a | Plus a => groupless a
  | Group _ _ => false
  | _ => true
  end.

(** The iteration of [Plus], from the matcher [step] of its body. *)
Definition plus_run (step : cursor -> (cursor -> option cursor) -> option cursor)
  (k : cursor -> option cursor) : nat -> cursor -> option cursor :=
  fix more (fuel : nat) (c : cursor) : option cursor :=
    match fuel with
    | O => None
    | S fuel' =>
        step c (fun c' =>
          if (pos c <? pos c')%nat
          then or_else (more fuel' c') (k c')
          else k c')
    end.

(** The cursor [c'] lies ahead of [c] in the same text, [consumed] being
    the characters between them. *)
Definition reaches (c c' : cursor) (consumed : str) : Prop :=
  rest c = consumed ++ rest c' /\ pos c' = (pos c + List.length consumed)%nat.

(** The character a text ends with. *)
Definition char_before (s : str) : option char := hd_error (rev s).

(** [\b] between two characters *)
Definition word_boundary {rt : Runtime} (left right : option char) : Prop :=
  xorb (holds isword left) (holds isword right) = true.

(** A month name or its abbreviation, in any case. *)
Definition month_word {rt : Runtime} (name : str) : Prop :=
  In (lower name) (map lower month_name) \/ In (lower name) (map lower month_abbr).

(** Lines 66 and 67 of [extract_month_and_year]: dashes, commas and slashes
    read as spaces, the text trimmed and its white space collapsed. *)
Definition sanitized_heading {rt : Runtime} (text : str) : str :=
  sub spaces (py " ")
    (strip (sub (Class (one_of [EN_DASH; EM_DASH; ch ","; ch "/"])) (py " ") text)).

(** The heading text names the year [y]: it holds four decimal digits that
    write [y], and these end the text after a month name and white space,
    or they begin with 20 and stand between two word boundaries. *)
Definition names_year {rt : Runtime} (text : str) (y : Z) : Prop :=
  exists before digits after,
    sanitized_heading text = before ++ digits ++ after
    /\ List.length digits = 4%nat
    /\ Forall (fun c => isdecimal c = true) digits
    /\ py_int digits = Ok y
    /\ ((after = []
         /\ exists name gap,
              before = name ++ gap /\ month_word name
              /\ gap <> [] /\ Forall (fun c => isspace c = true) gap)
        \/ (starts_with (py "20") digits = true
            /\ word_boundary (char_before before) (hd_error digits)
            /\ word_boundary (char_before digits) (hd_error after))).

(** Some heading row of the table names the year. *)
Definition year_from_heading {rt : Runtime} (rows : list row) (y : Z) : Prop :=
  exists r text,
    In r rows /\ is_heading r = true /\ In text (strong_texts r)
    /\ names_year text y.

(** The description of the event ends with the line of its duration, and
    that line states the time from its begin to its end. *)
Definition duration_line_matches (ev : event) : Prop :=
  let delta := datetime_sub (end_ ev) (begin ev) in
  0 < delta
  /\ last_line (description ev) = py "Duration: " ++ format_duration delta
  /\ format_duration delta
     = (let hours := delta / 60 / 60 in
        let minutes := (delta / 60) mod 60 in
        if hours =? 0 then str_of_int minutes ++ py "m"
        else if minutes =? 0 then str_of_int hours ++ py "h"
        else str_of_int hours ++ py "h " ++ str_of_int minutes ++ py "m")
  /\ stated_duration (format_duration delta) = Some delta.

(* ------------------------------------------------------------------ *)
(** *** Exceptions, dates and rows in the statements *)

(** The iteration of [Plus (Class p)], with the continuation [Some]. *)
Definition plus_class {rt : Runtime} (p : char -> bool)
  : nat -> cursor -> option cursor :=
  fix more (fuel : nat) (c : cursor) : option cursor :=
    match fuel with
    | O => None
    | S fuel' =>
        run (Class p) c (fun c' =>
          if (pos c <? pos c')%nat
          then or_else (more fuel' c') (Some c')
          else Some c')
    end.

(** The groups of a match of [TIME_CORE_PATTERN]: one or two digits for the
    hour and, when there is a minute, exactly two digits. *)
Definition time_core_groups {rt : Runtime} (gs : list (string * str)) : Prop :=
  (exists hs, group "hour" gs = Some hs /\ hs <> []
              /\ (List.length hs <= 2)%nat /\ Forall (fun c => isdecimal c = true) hs)
  /\ (group "minute" gs = None
      \/ exists a b, group "minute" gs = Some [a; b]
                     /\ isdecimal a = true /\ isdecimal b = true).

(** [isinstance(e, ValueError)] *)
Definition is_ValueError (e : exn) : Prop := exists msg, e = ValueError msg.

(** A computation that raises, if it raises, an exception that is allowed. *)
Definition raises_only (allowed : exn -> Prop) {A} (r : result A) : Prop :=
  forall e, r = Raise e -> allowed e.

(** Without the bound on the date, an [OverflowError] is the one other
    exception. *)
Definition ValueError_or_OverflowError (e : exn) : Prop :=
  is_ValueError e \/ e = OverflowError.

(** A date of the calendar. *)
Definition valid_date (d : date) : Prop :=
  1 <= year d <= 9999 /\ 1 <= month d <= 12
  /\ 1 <= day d <= days_in_month (year d) (month d).

(** Lines 110 to 118 of [parse_date]: the cleaned text. *)
Definition cleaned_date_text {rt : Runtime} (date_text : str) : str :=
  let cleaned := strip (sub (Class (one_of [NBSP; ch ","])) (py " ") date_text) in
  let cleaned := sub spaces (py " ") cleaned in
  let cleaned := strip (sub WEEKDAY_PATTERN [] cleaned) in
  sub spaces (py " ") cleaned.

(** No exception at all. *)
Definition no_exception (e : exn) : Prop := False.

(** [None] or one of the twelve names of [month_name]. *)
Definition month_or_none (m : option str) : Prop :=
  match m with
  | Some text => In text month_name
  | None => True
  end.

(** [isinstance(e, OverflowError)] *)
Definition is_OverflowError (e : exn) : Prop := e = OverflowError.

(** The labelled lines of a description, in their order; an empty field
    has no line. *)
Definition description_lines (speaker venue link duration_text : str) : list str :=
  (if is_empty speaker then [] else [py "Speaker: " ++ speaker])
  ++ (if is_empty venue then [] else [py "Venue: " ++ venue])
  ++ (if is_empty link then [] else [py "Link: " ++ link])
  ++ (if is_empty duration_text then [] else [py "Duration: " ++ duration_text]).

(** What [main] grants of every event it adds. *)
Definition event_well_formed (ev : event) : Prop :=
  name ev <> []
  /\ datetime_lt (begin ev) (end_ ev) = true
  /\ location ev <> Some []
  /\ url ev <> Some [].

(** The rows that are no headings. *)
Definition data_rows (rows : list row) : list row :=
  filter (fun r => negb (is_heading r)) rows.

(** [date.max] *)
Definition LAST_DAY : date := {| year := 9999; month := 12; day := 31 |}.

(** A clock time of whole minutes. *)
Definition on_the_minute (dt : datetime) : Prop :=
  0 <= hour dt <= 23 /\ 0 <= minute dt <= 59 /\ second dt = 0.

(** The first cell of a row, where [main] looks for the date. *)
Definition date_strings (r : row) : list str :=
  stripped_strings (nth 0 (cells r) {| stripped_strings := [] |}).

(** A text that cleans to a number no C int holds. *)
Definition long_number {rt : Runtime} (date_text : str) : Prop :=
  str_isdigit (cleaned_date_text date_text) = true
  /\ exists n, py_int (cleaned_date_text date_text) = Ok n /\ INT_MAX < n.

(* ================================================================== *)
(** * Theorems *)

(* ================================================================== *)
(** ** The exception monad *)

Lemma bind_Ok {A B} (r : result A) (f : A -> result B) (b : B) :
  bind r f = Ok b -> exists a, r = Ok a /\ f a = Ok b.
Proof. destruct r as [a | e]; simpl; [ eauto | discriminate ]. Qed.

Lemma bind_Raise {A B} (r : result A) (f : A -> result B) (e : exn) :
  bind r f = Raise e -> r = Raise e \/ exists a, r = Ok a /\ f a = Raise e.
Proof. destruct r as [a | e']; simpl; [ eauto | intros [= ->]; auto ]. Qed.

(** Splits a hypothesis [x <- r ;; k = Ok b] into its two steps. *)
Ltac bind_inv H :=
  let a := fresh "a" in
  let Ha := fresh "H" a in
  apply bind_Ok in H; destruct H as (a & Ha & H).

(* ================================================================== *)
(** ** Dates *)

Lemma month_day_of_ok (leapyear : bool) (n : Z) :
  0 <= n < 365 -> month_day_ok leapyear n = true.
Proof.
  intros Hn.
  assert (H : forallb (fun k => month_day_ok leapyear (Z.of_nat k)) (List.seq 0 365) = true)
    by (destruct leapyear; vm_compute; reflexivity).
  rewrite forallb_forall in H.
  specialize (H (Z.to_nat n)). rewrite Z2Nat.id in H by lia.
  apply H, in_seq. lia.
Qed.

Lemma ord2ymd_month_day (n : Z) :
  let r := (((n - 1) mod DI400Y) mod DI100Y) mod DI4Y in
  let n100 := ((n - 1) mod DI400Y) / DI100Y in
  let n4 := (((n - 1) mod DI400Y) mod DI100Y) / DI4Y in
  let n1 := r / 365 in
  let y := (n - 1) / DI400Y * 400 + 1 + n100 * 100 + n4 * 4 + n1 in
  ord2ymd n =
    if (n1 =? 4) || (n100 =? 4) then {| year := y - 1; month := 12; day := 31 |}
    else
      let leapyear := (n1 =? 3) && (negb (n4 =? 24) || (n100 =? 3)) in
      let '(m, d) := month_day_of leapyear (r mod 365) in
      {| year := y; month := m; day := d |}.
Proof.
  cbv zeta. unfold ord2ymd, month_day_of. cbv zeta.
  destruct (_ || _); [ reflexivity | ].
  destruct (_ <? _); reflexivity.
Qed.

(** The leap years, in the coordinates of [ord2ymd]: year [400q + 100a + 4b
    + c + 1] is leap when it closes a cycle of four years that does not close
    a century, unless it closes the four centuries. *)
Lemma is_leap_cycles (q a b c : Z) :
  0 <= a <= 3 -> 0 <= b <= 24 -> 0 <= c <= 3 ->
  is_leap (q * 400 + 1 + a * 100 + b * 4 + c)
  = (c =? 3) && (negb (b =? 24) || (a =? 3)).
Proof.
  intros Ha Hb Hc. unfold is_leap.
  set (y := q * 400 + 1 + a * 100 + b * 4 + c).
  destruct (c =? 3) eqn:E1; [ apply Z.eqb_eq in E1 | apply Z.eqb_neq in E1 ].
  2:{ rewrite andb_false_l. apply andb_false_iff. left.
      apply Z.eqb_neq. subst y. Z.div_mod_to_equations. lia. }
  replace (y mod 4 =? 0) with true
    by (symmetry; apply Z.eqb_eq; subst y; Z.div_mod_to_equations; lia).
  rewrite !andb_true_l.
  destruct (b =? 24) eqn:E4; [ apply Z.eqb_eq in E4 | apply Z.eqb_neq in E4 ].
  2:{ replace (y mod 100 =? 0) with false
        by (symmetry; apply Z.eqb_neq; subst y; Z.div_mod_to_equations; lia).
      reflexivity. }
  replace (y mod 100 =? 0) with true
    by (symmetry; apply Z.eqb_eq; subst y; Z.div_mod_to_equations; lia).
  simpl.
  destruct (a =? 3) eqn:E100; [ apply Z.eqb_eq in E100 | apply Z.eqb_neq in E100 ].
  - apply Z.eqb_eq. subst y. Z.div_mod_to_equations. lia.
  - apply Z.eqb_neq. subst y. Z.div_mod_to_equations. lia.
Qed.

(** [date.fromordinal(n).toordinal() == n] *)
Lemma ord2ymd_toordinal (n : Z) : toordinal (ord2ymd n) = n.
Proof.
  rewrite ord2ymd_month_day. cbv zeta.
  unfold DI400Y, DI100Y, DI4Y.
  set (q := (n - 1) / 146097).
  set (r400 := (n - 1) mod 146097).
  set (n100 := r400 / 36524). set (r100 := r400 mod 36524).
  set (n4 := r100 / 1461). set (r4 := r100 mod 1461).
  set (n1 := r4 / 365). set (r1 := r4 mod 365).
  assert (Hn : n - 1 = 146097 * q + r400 /\ 0 <= r400 < 146097)
    by (subst q r400; Z.div_mod_to_equations; lia).
  assert (H100 : r400 = 36524 * n100 + r100 /\ 0 <= r100 < 36524)
    by (subst n100 r100; Z.div_mod_to_equations; lia).
  assert (H4 : r100 = 1461 * n4 + r4 /\ 0 <= r4 < 1461)
    by (subst n4 r4; Z.div_mod_to_equations; lia).
  assert (H1 : r4 = 365 * n1 + r1 /\ 0 <= r1 < 365)
    by (subst n1 r1; Z.div_mod_to_equations; lia).
  clearbody q r400 n100 r100 n4 r4 n1 r1.
  destruct ((n1 =? 4) || (n100 =? 4)) eqn:Hlast.
  - apply orb_true_iff in Hlast. rewrite !Z.eqb_eq in Hlast.
    unfold toordinal, ymd2ord, days_before_month; simpl.
    change (DAYS_BEFORE_MONTH 12) with 334.
    destruct Hlast as [-> | ->].
    + replace (q * 400 + 1 + n100 * 100 + n4 * 4 + 4 - 1)
        with (q * 400 + 1 + n100 * 100 + n4 * 4 + 3) by lia.
      rewrite is_leap_cycles by lia.
      assert (Hc : n100 = 4 \/ n100 <= 3) by lia.
      destruct Hc as [-> | Hc]; [ lia | ].
      replace ((3 =? 3) && (negb (n4 =? 24) || (n100 =? 3))) with true.
      * unfold days_before_year. Z.div_mod_to_equations. lia.
      * symmetry. apply andb_true_iff. split; [ reflexivity | ].
        destruct (n4 =? 24) eqn:E; [ | reflexivity ]. simpl.
        apply Z.eqb_eq in E. apply Z.eqb_eq. lia.
    + assert (n4 = 0 /\ n1 = 0 /\ r1 = 0) as (-> & -> & ->) by lia.
      replace (q * 400 + 1 + 4 * 100 + 0 * 4 + 0 - 1)
        with ((q + 1) * 400 + 1 + 3 * 100 + 24 * 4 + 3 - 400) by lia.
      unfold is_leap, days_before_year.
      replace (((q + 1) * 400 + 1 + 3 * 100 + 24 * 4 + 3 - 400) mod 4 =? 0) with true
        by (symmetry; apply Z.eqb_eq; Z.div_mod_to_equations; lia).
      replace (((q + 1) * 400 + 1 + 3 * 100 + 24 * 4 + 3 - 400) mod 400 =? 0) with true
        by (symmetry; apply Z.eqb_eq; Z.div_mod_to_equations; lia).
      rewrite orb_true_r. simpl. Z.div_mod_to_equations. lia.
  - apply orb_false_iff in Hlast. rewrite !Z.eqb_neq in Hlast.
    set (leapyear := (n1 =? 3) && (negb (n4 =? 24) || (n100 =? 3))).
    pose proof (month_day_of_ok leapyear r1 (proj2 H1)) as Hmd.
    unfold month_day_ok in Hmd.
    destruct (month_day_of leapyear r1) as [m d].
    rewrite !andb_true_iff, !Z.leb_le, Z.eqb_eq in Hmd.
    unfold toordinal, ymd2ord, days_before_month; simpl.
    rewrite is_leap_cycles by lia. fold leapyear.
    unfold days_before_year. Z.div_mod_to_equations. lia.
Qed.

Lemma wall_seconds_add (dt dt' : datetime) (td : timedelta) :
  datetime_add dt td = Ok dt' -> wall_seconds dt' = wall_seconds dt + td.
Proof.
  unfold datetime_add.
  destruct (_ && _); [ | discriminate ]. intros [= <-].
  unfold wall_seconds. cbn [dt_date hour minute second].
  rewrite ord2ymd_toordinal.
  generalize (toordinal (dt_date dt)). intros o.
  Z.div_mod_to_equations. lia.
Qed.

Lemma datetime_add_sub (dt dt' : datetime) (td : timedelta) :
  datetime_add dt td = Ok dt' -> datetime_sub dt' dt = td.
Proof. intros H. unfold datetime_sub. rewrite (wall_seconds_add _ _ _ H). lia. Qed.

Lemma datetime_add_second (dt dt' : datetime) (td : timedelta) :
  datetime_add dt td = Ok dt' -> second dt = 0 -> td mod 60 = 0 -> second dt' = 0.
Proof.
  unfold datetime_add.
  destruct (_ && _); [ | discriminate ]. intros [= <-] Hs Htd.
  cbn [second]. rewrite Hs. Z.div_mod_to_equations. lia.
Qed.

(* ================================================================== *)
(** ** Time ranges *)

Section TimeRanges.
Context {rt : Runtime}.

Lemma assemble_datetime_Ok (d : date) (h m : Z) (dt : datetime) :
  assemble_datetime d h m = Ok dt ->
  dt_date dt = d /\ hour dt = h mod 24 /\ minute dt = m
  /\ 0 <= minute dt <= 59 /\ second dt = 0.
Proof.
  unfold assemble_datetime, time_new, c_int. intros H.
  bind_inv H. injection H as <-.
  destruct (_ && _) in Ha; [ | discriminate ]. simpl in Ha.
  destruct (_ && _) eqn:Hm in Ha; [ | discriminate ]. simpl in Ha.
  destruct (negb _) in Ha; [ discriminate | ].
  destruct (negb _) eqn:Hr in Ha; [ discriminate | ].
  injection Ha as <-.
  apply negb_false_iff, andb_true_iff in Hr. rewrite !Z.leb_le in Hr.
  destruct DEFAULT_TIMEZONE; simpl; auto.
Qed.

(** Two timestamps assembled on one date are less than a day apart. *)
Lemma assembled_same_day (d : date) (h m h' m' : Z) (a b : datetime) :
  assemble_datetime d h m = Ok a -> assemble_datetime d h' m' = Ok b ->
  wall_seconds a < wall_seconds b + 86400.
Proof.
  intros Ha Hb.
  apply assemble_datetime_Ok in Ha as (Da & Ha & _ & Hma & Hsa).
  apply assemble_datetime_Ok in Hb as (Db & Hb & _ & Hmb & Hsb).
  unfold wall_seconds. rewrite Da, Db, Ha, Hb, Hsa, Hsb.
  generalize (toordinal d). intros o.
  Z.div_mod_to_equations. lia.
Qed.

(** The steps of a successful [time_range_of]. *)
Lemma time_range_of_Ok (start_part end_part : str) (d : date) (s e : datetime) :
  time_range_of start_part end_part d = Ok (s, e) ->
  let start_hint := extract_meridiem_label start_part in
  let end_hint := extract_meridiem_label end_part in
  exists sh sm eh em e0,
    parse_time_fragment start_part (or_else start_hint end_hint)
      (is_some (or_else start_hint end_hint)) = Ok (sh, sm)
    /\ parse_time_fragment end_part (or_else end_hint start_hint)
         (is_some (or_else start_hint end_hint)) = Ok (eh, em)
    /\ assemble_datetime d sh sm = Ok s
    /\ assemble_datetime d eh em = Ok e0
    /\ (if datetime_le e0 s then datetime_add e0 (timedelta_days 1) = Ok e
        else e = e0).
Proof.
  unfold time_range_of, time_range_with. intros H.
  bind_inv H. destruct a as [sh sm].
  bind_inv H. destruct a as [eh em].
  bind_inv H. bind_inv H. bind_inv H. injection H as <- <-.
  exists sh, sm, eh, em, a0. repeat split; try assumption.
  destruct (datetime_le a0 a); [ assumption | congruence ].
Qed.

Lemma time_range_of_after (start_part end_part : str) (d : date) (s e : datetime) :
  time_range_of start_part end_part d = Ok (s, e) ->
  wall_seconds s < wall_seconds e.
Proof.
  intros H. apply time_range_of_Ok in H as (sh & sm & eh & em & e0 & _ & _ & Hs & He0 & He).
  pose proof (assembled_same_day _ _ _ _ _ _ _ Hs He0) as Hday.
  unfold datetime_le in He.
  destruct (wall_seconds e0 <=? wall_seconds s) eqn:Hle.
  - apply wall_seconds_add in He. unfold timedelta_days in He. lia.
  - apply Z.leb_gt in Hle. subst e. lia.
Qed.

Lemma single_time_Ok (start_part : str) (d : date) (s e : datetime) :
  single_time start_part d = Ok (s, e) ->
  exists h m,
    parse_time_fragment start_part (extract_meridiem_label start_part)
      (is_some (extract_meridiem_label start_part)) = Ok (h, m)
    /\ assemble_datetime d h m = Ok s
    /\ datetime_add s DEFAULT_SINGLE_EVENT_DURATION = Ok e.
Proof.
  unfold single_time. intros H.
  bind_inv H. destruct a as [h m].
  bind_inv H. bind_inv H. injection H as <- <-.
  eauto.
Qed.

Lemma single_time_after (start_part : str) (d : date) (s e : datetime) :
  single_time start_part d = Ok (s, e) -> wall_seconds s < wall_seconds e.
Proof.
  intros H. apply single_time_Ok in H as (h & m & _ & _ & He).
  apply wall_seconds_add in He.
  unfold DEFAULT_SINGLE_EVENT_DURATION, timedelta_hours in He. lia.
Qed.

(** The three ways [parse_time_components] can end. *)
Lemma parse_time_components_cases (time_range : str) (d : date) :
  let parts := range_parts (normalize_time_range time_range) in
  (is_empty (normalize_time_range time_range) = true
   /\ parse_time_components time_range d
      = Raise (ValueError (py "Empty time range: " ++ time_range)))
  \/ (is_empty (normalize_time_range time_range) = false /\
      ((exists p, parts = [p] /\ parse_time_components time_range d = single_time p d)
       \/ (parts = []
           /\ parse_time_components time_range d
              = Raise (ValueError (py "Unexpected time range: " ++ time_range)))
       \/ (exists a b more, parts = a :: b :: more
           /\ parse_time_components time_range d = time_range_of a b d))).
Proof.
  cbv zeta. unfold parse_time_components.
  destruct (is_empty (normalize_time_range time_range)); [ left; auto | right ].
  split; [ reflexivity | ].
  destruct (range_parts (normalize_time_range time_range)) as [ | a [ | b more ] ].
  - right; left. auto.
  - left. exists a. auto.
  - right; right. exists a, b, more. auto.
Qed.

Lemma parse_time_components_after (time_range : str) (d : date) (s e : datetime) :
  parse_time_components time_range d = Ok (s, e) ->
  wall_seconds s < wall_seconds e.
Proof.
  intros H.
  destruct (parse_time_components_cases time_range d)
    as [ (_ & E) | (_ & [ (p & _ & E) | [ (_ & E) | (a & b & more & _ & E) ] ]) ];
    rewrite E in H; try discriminate.
  - eapply single_time_after; eassumption.
  - eapply time_range_of_after; eassumption.
Qed.

Lemma range_parts_nil : range_parts [] = [].
Proof. reflexivity. Qed.

Lemma parse_time_components_seconds (time_range : str) (d : date) (s e : datetime) :
  parse_time_components time_range d = Ok (s, e) ->
  second s = 0 /\ second e = 0.
Proof.
  intros H.
  destruct (parse_time_components_cases time_range d)
    as [ (_ & E) | (_ & [ (p & _ & E) | [ (_ & E) | (a & b & more & _ & E) ] ]) ];
    rewrite E in H; try discriminate.
  - apply single_time_Ok in H as (h & m & _ & Hs & He).
    apply assemble_datetime_Ok in Hs as (_ & _ & _ & _ & Hs).
    split; [ assumption | ].
    eapply datetime_add_second; [ eassumption | assumption | reflexivity ].
  - apply time_range_of_Ok in H as (sh & sm & eh & em & e0 & _ & _ & Hs & He0 & He).
    apply assemble_datetime_Ok in Hs as (_ & _ & _ & _ & Hs).
    apply assemble_datetime_Ok in He0 as (_ & _ & _ & _ & He0).
    split; [ assumption | ].
    destruct (datetime_le e0 s).
    + eapply datetime_add_second; [ eassumption | assumption | reflexivity ].
    + subst e. assumption.
Qed.
End TimeRanges.

(* ------------------------------------------------------------------ *)
(** *** The messages of the errors of a time range *)

Lemma message_avoids_bind {A B} (c : char) (r : result A) (f : A -> result B) :
  message_avoids c r -> (forall a, message_avoids c (f a)) ->
  message_avoids c (bind r f).
Proof.
  intros Hr Hf msg H. apply bind_Raise in H as [H | (a & _ & H)].
  - now apply Hr.
  - now apply (Hf a).
Qed.

Lemma message_avoids_Ok {A} (c : char) (a : A) : message_avoids c (Ok a).
Proof. intros msg H. discriminate. Qed.

Lemma message_avoids_other {A} (c : char) (e : exn) :
  (forall msg, e <> ValueError msg) -> message_avoids c (@Raise A e).
Proof. intros He msg [= H]. now apply He in H. Qed.

Section Fragments.
Context {rt : Runtime}.

Lemma parse_time_fragment_numeric (fragment : str)
  (default_meridiem : option meridiem) (prefer_12_hour : bool) (h mi : Z) :
  numeric_reading (sanitize_time_fragment fragment) h mi ->
  parse_time_fragment fragment default_meridiem prefer_12_hour
  = Ok (convert_to_24_hour h
          (match extract_meridiem_label (sanitize_time_fragment fragment) with
           | Some own => Some own
           | None => if prefer_12_hour && (h <=? 12) then default_meridiem else None
           end), mi).
Proof.
  intros (Hne & Hnoon & Hmid & m & Hm & Hh & Hmi).
  unfold parse_time_fragment. rewrite Hne, Hnoon, Hmid, Hm, Hh. cbn [bind].
  rewrite Hmi. cbn [bind].
  destruct (extract_meridiem_label (sanitize_time_fragment fragment)) as [own | ];
    simpl; [ reflexivity | ].
  destruct prefer_12_hour, default_meridiem, (h <=? 12); reflexivity.
Qed.

Lemma py_int_avoids_U (v : str) : message_avoids (ch "U") (py_int v).
Proof.
  unfold py_int. intros msg.
  destruct (_ && _); [ destruct (_ <=? _)%nat | ]; intros [= <-];
    vm_compute; discriminate.
Qed.

Lemma int_group_avoids_U (name : string) (m : match_) :
  message_avoids (ch "U") (int_group name m).
Proof.
  unfold int_group. destruct (group name (m_groups m)).
  - apply py_int_avoids_U.
  - apply message_avoids_other. discriminate.
Qed.

Lemma parse_time_fragment_avoids_U (fragment : str)
  (default_meridiem : option meridiem) (prefer_12_hour : bool) :
  message_avoids (ch "U")
    (parse_time_fragment fragment default_meridiem prefer_12_hour).
Proof.
  unfold parse_time_fragment.
  destruct (is_empty _); [ intros msg [= <-]; vm_compute; discriminate | ].
  destruct (str_eqb _ _); [ apply message_avoids_Ok | ].
  destruct (str_eqb _ _); [ apply message_avoids_Ok | ].
  destruct (search _ _) as [m | ]; [ | intros msg [= <-]; vm_compute; discriminate ].
  apply message_avoids_bind; [ apply int_group_avoids_U | intros h ].
  apply message_avoids_bind; [ | intros mi; apply message_avoids_Ok ].
  destruct (truthy _); [ apply int_group_avoids_U | apply message_avoids_Ok ].
Qed.

Lemma c_int_avoids_U (v : Z) : message_avoids (ch "U") (c_int v).
Proof.
  unfold c_int. destruct (_ && _);
    [ apply message_avoids_Ok | apply message_avoids_other; discriminate ].
Qed.

Lemma assemble_datetime_avoids_U (d : date) (h m : Z) :
  message_avoids (ch "U") (assemble_datetime d h m).
Proof.
  unfold assemble_datetime, time_new.
  apply message_avoids_bind; [ | intros t; apply message_avoids_Ok ].
  apply message_avoids_bind; [ apply c_int_avoids_U | intros h' ].
  apply message_avoids_bind; [ apply c_int_avoids_U | intros m' ].
  destruct (negb _); [ intros msg [= <-]; vm_compute; discriminate | ].
  destruct (negb _); [ intros msg [= <-]; vm_compute; discriminate | ].
  apply message_avoids_Ok.
Qed.

Lemma datetime_add_avoids_U (dt : datetime) (td : timedelta) :
  message_avoids (ch "U") (datetime_add dt td).
Proof.
  unfold datetime_add. destruct (_ && _);
    [ apply message_avoids_Ok | apply message_avoids_other; discriminate ].
Qed.

Lemma single_time_avoids_U (start_part : str) (d : date) :
  message_avoids (ch "U") (single_time start_part d).
Proof.
  unfold single_time.
  apply message_avoids_bind; [ apply parse_time_fragment_avoids_U | intros [h m] ].
  apply message_avoids_bind; [ apply assemble_datetime_avoids_U | intros s ].
  apply message_avoids_bind; [ apply datetime_add_avoids_U | intros e ].
  apply message_avoids_Ok.
Qed.

Lemma time_range_of_avoids_U (start_part end_part : str) (d : date) :
  message_avoids (ch "U") (time_range_of start_part end_part d).
Proof.
  unfold time_range_of, time_range_with.
  apply message_avoids_bind; [ apply parse_time_fragment_avoids_U | intros [sh sm] ].
  apply message_avoids_bind; [ apply parse_time_fragment_avoids_U | intros [eh em] ].
  apply message_avoids_bind; [ apply assemble_datetime_avoids_U | intros s ].
  apply message_avoids_bind; [ apply assemble_datetime_avoids_U | intros e0 ].
  apply message_avoids_bind; [ | intros e; apply message_avoids_Ok ].
  destruct (datetime_le e0 s); [ apply datetime_add_avoids_U | apply message_avoids_Ok ].
Qed.
End Fragments.

(* ================================================================== *)
(** ** C1 *)

(** C1, as stated, fails on its own example: on 2024-05-01 the text
    "11pm - 1" gives the end 13:00 of the next day, not 01:00, because the
    "pm" of the start is the default of the bare "1". *)
Lemma eleven_pm_to_one_ends_at_13 :
  parse_time_components (py "11pm - 1") may_day
  = Ok (berlin 2024 5 1 23 0, berlin 2024 5 2 13 0)
  /\ parse_time_components (py "11pm - 1") may_day
     <> Ok (berlin 2024 5 1 23 0, berlin 2024 5 2 1 0).
Proof. split; [ vm_compute; reflexivity | vm_compute; discriminate ]. Qed.

(** C1 (amended): whenever [parse_time_components] succeeds the end is
    strictly after the start; when the text has two parts or more and the end
    assembled on the event date is not strictly after the start, the end
    returned is that end plus exactly one day, and otherwise it is that end
    itself.  On 2024-05-01, "23:00 - 1" gives 23:00 to 01:00 of the next
    day, and "11pm - 1" gives 23:00 to 13:00 of the next day. *)
Theorem end_is_after_start :
  (forall (rt : Runtime) (time_range : str) (d : date) (s e : datetime),
      parse_time_components time_range d = Ok (s, e) ->
      datetime_lt s e = true
      /\ ((2 <= List.length (range_parts (normalize_time_range time_range)))%nat ->
          exists h m e0,
            assemble_datetime d h m = Ok e0
            /\ if datetime_le e0 s
               then datetime_add e0 (timedelta_days 1) = Ok e
                    /\ datetime_sub e e0 = timedelta_days 1
               else e = e0))
  /\ parse_time_components (py "23:00 - 1") may_day
     = Ok (berlin 2024 5 1 23 0, berlin 2024 5 2 1 0)
  /\ parse_time_components (py "11pm - 1") may_day
     = Ok (berlin 2024 5 1 23 0, berlin 2024 5 2 13 0).
Proof.
  split; [ | split; vm_compute; reflexivity ].
  intros rt time_range d s e H. split.
  - apply Z.ltb_lt. eapply parse_time_components_after; eassumption.
  - intros Hparts.
    destruct (parse_time_components_cases time_range d)
      as [ (_ & E) | (_ & [ (p & Hp & E) | [ (Hp & E) | (a & b & more & _ & E) ] ]) ];
      try (rewrite Hp in Hparts; simpl in Hparts; lia).
    + rewrite E in H. discriminate.
    + rewrite E in H.
      apply time_range_of_Ok in H as (sh & sm & eh & em & e0 & _ & _ & _ & He0 & He).
      exists eh, em, e0. split; [ assumption | ].
      destruct (datetime_le e0 s); [ | assumption ].
      split; [ assumption | now apply datetime_add_sub ].
Qed.

Lemma end_is_after_start_witness :
  parse_time_components (py "23:00 - 1") may_day
  = Ok (berlin 2024 5 1 23 0, berlin 2024 5 2 1 0)
  /\ datetime_lt (berlin 2024 5 1 23 0) (berlin 2024 5 2 1 0) = true.
Proof.
  split; [ vm_compute; reflexivity | ].
  apply (proj1 end_is_after_start basic_latin (py "23:00 - 1") may_day).
  vm_compute; reflexivity.
Defined.

(* ================================================================== *)
(** ** C4 *)

(** C4: when the text has exactly one part and is parsed, the end is the
    start plus the default duration, one hour exactly. *)
Theorem single_time_lasts_one_hour (rt : Runtime) (time_range : str) (d : date)
  (s e : datetime) :
  List.length (range_parts (normalize_time_range time_range)) = 1%nat ->
  parse_time_components time_range d = Ok (s, e) ->
  datetime_add s DEFAULT_SINGLE_EVENT_DURATION = Ok e
  /\ DEFAULT_SINGLE_EVENT_DURATION = timedelta_hours 1
  /\ datetime_sub e s = timedelta_hours 1.
Proof.
  intros Hlen H.
  destruct (parse_time_components_cases time_range d)
    as [ (_ & E) | (_ & [ (p & _ & E) | [ (Hp & _) | (a & b & more & Hp & _) ] ]) ];
    try (rewrite Hp in Hlen; discriminate).
  - rewrite E in H. discriminate.
  - rewrite E in H. apply single_time_Ok in H as (h & m & _ & _ & He).
    repeat split; [ assumption | now apply datetime_add_sub ].
Qed.

Lemma single_time_lasts_one_hour_witness :
  parse_time_components (py "14:00") may_day
  = Ok (berlin 2024 5 1 14 0, berlin 2024 5 1 15 0)
  /\ datetime_sub (berlin 2024 5 1 15 0) (berlin 2024 5 1 14 0) = timedelta_hours 1.
Proof.
  split; [ vm_compute; reflexivity | ].
  apply (single_time_lasts_one_hour basic_latin (py "14:00") may_day);
    vm_compute; reflexivity.
Defined.

(* ================================================================== *)
(** ** C6 *)

(** C6: the hour is first reduced modulo 24; without a meridiem the reduced
    hour is returned; "am" sends 12 to 0 and keeps every other hour; "pm"
    keeps 12 and adds 12 to every other hour. *)
Theorem convert_to_24_hour_policy (hour : Z) :
  let reduced := hour mod 24 in
  0 <= reduced < 24
  /\ convert_to_24_hour hour None = reduced
  /\ (reduced = 12 -> convert_to_24_hour hour (Some am) = 0)
  /\ (reduced <> 12 -> convert_to_24_hour hour (Some am) = reduced)
  /\ (reduced = 12 -> convert_to_24_hour hour (Some pm) = 12)
  /\ (reduced <> 12 -> convert_to_24_hour hour (Some pm) = reduced + 12).
Proof.
  cbv zeta. unfold convert_to_24_hour.
  repeat split; try (Z.div_mod_to_equations; lia);
    intros H; try rewrite H; try reflexivity;
    apply Z.eqb_neq in H; rewrite H; reflexivity.
Qed.

Lemma convert_to_24_hour_policy_witness :
  15 mod 24 <> 12 /\ convert_to_24_hour 15 (Some pm) = 15 mod 24 + 12.
Proof.
  assert (H : 15 mod 24 <> 12) by (vm_compute; discriminate).
  split; [ exact H | ].
  exact (proj2 (proj2 (proj2 (proj2 (proj2 (convert_to_24_hour_policy 15))))) H).
Defined.

(* ================================================================== *)
(** ** C10 *)

(** C10: on the numeric path of [parse_time_fragment] the default meridiem
    supplied by the caller is applied only when the fragment carries no
    marker of its own, the 12-hour preference is in effect and the extracted
    hour is at most 12; then the hour is converted with the default.  When
    the fragment has a marker, or there is no preference, or the hour is
    above 12, the result is the one without any default.  In "14 - 3pm" the
    start stays 14:00. *)
Theorem default_meridiem_only_up_to_12 :
  (forall (rt : Runtime) (fragment : str) (default_meridiem : option meridiem)
          (prefer_12_hour : bool) (h mi : Z),
      numeric_reading (sanitize_time_fragment fragment) h mi ->
      is_some (extract_meridiem_label (sanitize_time_fragment fragment)) = true
      \/ prefer_12_hour = false \/ 12 < h ->
      parse_time_fragment fragment default_meridiem prefer_12_hour
      = parse_time_fragment fragment None false)
  /\ (forall (rt : Runtime) (fragment : str) (default_meridiem : option meridiem)
             (h mi : Z),
      numeric_reading (sanitize_time_fragment fragment) h mi ->
      extract_meridiem_label (sanitize_time_fragment fragment) = None ->
      h <= 12 ->
      parse_time_fragment fragment default_meridiem true
      = Ok (convert_to_24_hour h default_meridiem, mi))
  /\ parse_time_fragment (py "14") (Some pm) true = Ok (14, 0)
  /\ parse_time_components (py "14 - 3pm") may_day
     = Ok (berlin 2024 5 1 14 0, berlin 2024 5 1 15 0).
Proof.
  split; [ | split; [ | split; vm_compute; reflexivity ] ].
  - intros rt fragment default_meridiem prefer_12_hour h mi Hnum Hcase.
    rewrite !(parse_time_fragment_numeric _ _ _ _ _ Hnum).
    destruct (extract_meridiem_label (sanitize_time_fragment fragment)) as [ own | ];
      [ reflexivity | ].
    destruct Hcase as [ Hown | [ -> | Hh ] ]; [ discriminate | reflexivity | ].
    apply Z.leb_gt in Hh. rewrite Hh, andb_false_r. reflexivity.
  - intros rt fragment default_meridiem h mi Hnum Hown Hh.
    rewrite (parse_time_fragment_numeric _ _ _ _ _ Hnum), Hown.
    apply Z.leb_le in Hh. rewrite Hh. reflexivity.
Qed.

Lemma default_meridiem_only_up_to_12_witness :
  numeric_reading (sanitize_time_fragment (py "14")) 14 0
  /\ parse_time_fragment (py "14") (Some pm) true
     = parse_time_fragment (py "14") None false.
Proof.
  assert (Hnum : numeric_reading (sanitize_time_fragment (py "14")) 14 0).
  { repeat split; try (vm_compute; reflexivity).
    eexists. repeat split; vm_compute; reflexivity. }
  split; [ exact Hnum | ].
  apply (proj1 default_meridiem_only_up_to_12 basic_latin (py "14") (Some pm) true 14 0 Hnum).
  right; right. lia.
Defined.

(* ================================================================== *)
(** ** Printing and reading counts *)

Lemma read_uint_str_of_uint (u : Decimal.uint) (rest : str) :
  no_digit_ahead rest -> read_uint (str_of_uint u ++ rest) = (u, rest).
Proof.
  intros Hrest.
  induction u; simpl; try (rewrite IHu; reflexivity).
  destruct rest as [ | c rest ]; [ reflexivity | ].
  simpl in *. rewrite Hrest. reflexivity.
Qed.

Lemma read_count_str_of_int (n : Z) (rest : str) :
  0 <= n -> no_digit_ahead rest ->
  read_count (str_of_int n ++ rest) = Some (n, rest).
Proof.
  intros Hn Hrest. unfold read_count. destruct n as [ | p | p ]; [ | | lia ].
  - change (str_of_int 0) with (str_of_uint (Decimal.D0 Decimal.Nil)).
    rewrite read_uint_str_of_uint by assumption. reflexivity.
  - simpl str_of_int. rewrite read_uint_str_of_uint by assumption.
    pose proof (DecimalPos.Unsigned.to_uint_nonnil p) as Hnil.
    pose proof (DecimalPos.Unsigned.of_to p) as Hp.
    destruct (Pos.to_uint p); try contradiction;
      unfold N.of_uint; rewrite Hp; reflexivity.
Qed.

Lemma str_of_uint_chars (u : Decimal.uint) :
  Forall (fun c => digit_of c <> None) (str_of_uint u).
Proof.
  induction u; simpl; constructor; try assumption; vm_compute; discriminate.
Qed.

Lemma str_of_int_chars (n : Z) :
  0 <= n -> Forall (fun c => digit_of c <> None) (str_of_int n).
Proof.
  destruct n as [ | p | p ]; intros Hn; [ | | lia ].
  - repeat constructor. vm_compute. discriminate.
  - apply str_of_uint_chars.
Qed.

(* ================================================================== *)
(** ** Durations *)

(** The three shapes of a formatted duration. *)
Lemma format_duration_shape (delta : timedelta) :
  let hours := delta / 60 / 60 in
  let minutes := (delta / 60) mod 60 in
  format_duration delta =
    if hours =? 0 then str_of_int minutes ++ py "m"
    else if minutes =? 0 then str_of_int hours ++ py "h"
    else str_of_int hours ++ py "h " ++ str_of_int minutes ++ py "m".
Proof.
  cbv zeta. unfold format_duration, total_seconds. cbv zeta.
  destruct (delta / 60 / 60 =? 0); simpl.
  - rewrite orb_true_r. reflexivity.
  - rewrite orb_false_r.
    destruct ((delta / 60) mod 60 =? 0); simpl; [ reflexivity | ].
    rewrite <- !app_assoc. reflexivity.
Qed.

Lemma stated_duration_format (delta : timedelta) :
  0 <= delta -> delta mod 60 = 0 ->
  stated_duration (format_duration delta) = Some delta.
Proof.
  intros Hpos Hmin. rewrite format_duration_shape. cbv zeta.
  set (hours := delta / 60 / 60). set (minutes := (delta / 60) mod 60).
  assert (Hh : 0 <= hours) by (subst hours; Z.div_mod_to_equations; lia).
  assert (Hm : 0 <= minutes < 60) by (subst minutes; Z.div_mod_to_equations; lia).
  assert (Hd : delta = hours * 3600 + minutes * 60)
    by (subst hours minutes; Z.div_mod_to_equations; lia).
  clearbody hours minutes. unfold stated_duration.
  destruct (hours =? 0) eqn:E0; [ apply Z.eqb_eq in E0 | ].
  - rewrite read_count_str_of_int by (lia || reflexivity).
    simpl. f_equal. lia.
  - destruct (minutes =? 0) eqn:Em; [ apply Z.eqb_eq in Em | ].
    + rewrite read_count_str_of_int by (lia || reflexivity).
      simpl. unfold timedelta_hours. f_equal. lia.
    + rewrite read_count_str_of_int by (lia || reflexivity).
      change (py "h " ++ str_of_int minutes ++ py "m")
        with (ch "h" :: ch " " :: str_of_int minutes ++ py "m").
      cbn [N.eqb andb]. change (N.eqb (ch "h") (ch "h")) with true.
      change (N.eqb (ch " ") (ch " ")) with true. cbn [andb].
      rewrite read_count_str_of_int by (lia || reflexivity).
      simpl. unfold timedelta_hours. f_equal. lia.
Qed.

Lemma digit_is_no_newline (c : char) : digit_of c <> None -> c <> NEWLINE.
Proof. intros H ->. apply H. reflexivity. Qed.

Lemma str_of_int_no_newline (n : Z) : 0 <= n -> no_newline (str_of_int n).
Proof.
  intros Hn. eapply Forall_impl; [ | apply str_of_int_chars; assumption ].
  apply digit_is_no_newline.
Qed.

Lemma py_no_newline_app (a b : str) : no_newline a -> no_newline b -> no_newline (a ++ b).
Proof. apply Forall_app_2 || (intros; apply Forall_app; auto). Qed.

Lemma format_duration_no_newline (delta : timedelta) :
  0 <= delta -> no_newline (format_duration delta).
Proof.
  intros Hpos. rewrite format_duration_shape. cbv zeta.
  assert (Hh : 0 <= delta / 60 / 60) by (Z.div_mod_to_equations; lia).
  assert (Hm : 0 <= (delta / 60) mod 60) by (Z.div_mod_to_equations; lia).
  assert (L : forall s : string, Forall (fun c => N.eqb c NEWLINE = false) (py s) ->
                                 no_newline (py s)).
  { intros s. apply Forall_impl. intros c Hc ->. discriminate. }
  destruct (_ =? 0); [ | destruct (_ =? 0) ];
    repeat apply py_no_newline_app;
    try (apply str_of_int_no_newline; assumption);
    apply L; repeat constructor.
Qed.

Lemma format_duration_not_empty (delta : timedelta) :
  is_empty (format_duration delta) = false.
Proof.
  rewrite format_duration_shape. cbv zeta.
  assert (L : forall (a : str) (u : char) (b : str), is_empty (a ++ u :: b) = false)
    by (intros [ | ] ; reflexivity).
  destruct (_ =? 0); [ apply L | destruct (_ =? 0); apply L ].
Qed.

(* ------------------------------------------------------------------ *)
(** *** The last line of a description *)

Lemma split_on_not_nil (c : char) (s : str) : split_on c s <> [].
Proof.
  destruct s as [ | x s ]; simpl; [ discriminate | ].
  destruct (N.eqb x c); [ discriminate | ].
  destruct (split_on c s); discriminate.
Qed.

Lemma split_on_app_pieces (c : char) (a b : str) :
  (1 < List.length (split_on c (a ++ c :: b)))%nat.
Proof.
  induction a as [ | y a IH ]; simpl.
  - rewrite N.eqb_refl. pose proof (split_on_not_nil c b).
    destruct (split_on c b); [ contradiction | simpl; lia ].
  - destruct (N.eqb y c); [ simpl; lia | ].
    destruct (split_on c (a ++ c :: b)); simpl in *; lia.
Qed.

Lemma last_split_on_app (c : char) (a b : str) :
  last (split_on c (a ++ c :: b)) [] = last (split_on c b) [].
Proof.
  induction a as [ | x a IH ]; simpl.
  - rewrite N.eqb_refl.
    pose proof (split_on_not_nil c b).
    destruct (split_on c b); [ contradiction | reflexivity ].
  - pose proof (split_on_app_pieces c a b) as Hlen.
    destruct (N.eqb x c);
      destruct (split_on c (a ++ c :: b)) as [ | w [ | w' ws ] ];
      simpl in Hlen; try lia; exact IH.
Qed.

Lemma split_on_no_separator (c : char) (s : str) :
  Forall (fun x => x <> c) s -> split_on c s = [s].
Proof.
  induction 1 as [ | x s Hx _ IH ]; [ reflexivity | ].
  simpl. apply N.eqb_neq in Hx. rewrite Hx, IH. reflexivity.
Qed.

Lemma join_snoc (sep : str) (chunks : list str) (x : str) :
  join sep (chunks ++ [x])
  = match chunks with
    | [] => x
    | _ => join sep chunks ++ sep ++ x
    end.
Proof.
  induction chunks as [ | y chunks IH ]; [ reflexivity | ].
  destruct chunks as [ | z chunks ]; [ reflexivity | ].
  change (join sep ((y :: z :: chunks) ++ [x]))
    with (y ++ sep ++ join sep ((z :: chunks) ++ [x])).
  rewrite IH. change (join sep (y :: z :: chunks)) with (y ++ sep ++ join sep (z :: chunks)).
  rewrite <- !app_assoc. reflexivity.
Qed.

(** The duration is the last line of the description. *)
Lemma last_line_build_description (speaker venue link duration_text : str) :
  is_empty duration_text = false -> no_newline duration_text ->
  last_line (build_description speaker venue link duration_text)
  = py "Duration: " ++ duration_text.
Proof.
  intros Hne Hnl. unfold build_description, last_line. cbv zeta.
  rewrite Hne. cbn [negb].
  assert (Hline : split_on NEWLINE (py "Duration: " ++ duration_text)
                  = [py "Duration: " ++ duration_text]).
  { apply split_on_no_separator, Forall_app. split; [ | exact Hnl ].
    repeat constructor; discriminate. }
  match goal with
  | |- context [join _ (?chunks ++ [_])] => generalize chunks
  end.
  intros chunks. rewrite join_snoc.
  destruct chunks as [ | y chunks ].
  - rewrite Hline. reflexivity.
  - change ([NEWLINE] ++ py "Duration: " ++ duration_text)
      with (NEWLINE :: (py "Duration: " ++ duration_text)).
    rewrite last_split_on_app, Hline. reflexivity.
Qed.

(* ================================================================== *)
(** ** The row loop *)

Lemma attempt_Ok {A} (body : result A) (o : A + str) :
  attempt body = Ok o ->
  match o with
  | inl a => body = Ok a
  | inr msg => body = Raise (ValueError msg)
  end.
Proof.
  destruct body as [ a | [ msg | | | msg ] ]; simpl; intros [= <-]; reflexivity.
Qed.

Lemma foldM_app {S A} (step : S -> A -> result S) (s : S) (xs ys : list A) :
  foldM step s (xs ++ ys) = (s' <- foldM step s xs ;; foldM step s' ys).
Proof.
  revert s. induction xs as [ | x xs IH ]; intros s; simpl; [ reflexivity | ].
  destruct (step s x); simpl; [ apply IH | reflexivity ].
Qed.

(** An invariant of the steps is an invariant of the loop. *)
Lemma foldM_invariant {S A} (step : S -> A -> result S) (Inv : S -> Prop)
  (xs : list A) :
  (forall s x s', In x xs -> Inv s -> step s x = Ok s' -> Inv s') ->
  forall s s', Inv s -> foldM step s xs = Ok s' -> Inv s'.
Proof.
  induction xs as [ | x xs IH ]; intros Hstep s s' Hs H; simpl in H.
  - injection H as <-. exact Hs.
  - bind_inv H. apply (IH (fun s x s' Hx => Hstep s x s' (or_intror Hx)) a s');
      [ | exact H ].
    apply (Hstep s x a); [ left; reflexivity | exact Hs | exact Ha ].
Qed.

(** Case analysis on the condition that heads the goal. *)
Ltac head_if :=
  match goal with
  | |- (if ?c then _ else _) = _ -> _ => destruct c
  end.

Section Rows.
Context {rt : Runtime}.

(** A heading text touches the tracker only; the year it leaves is the
    year [extract_month_and_year] returned. *)
Lemma heading_text_Ok (st st' : loop_state) (text : str) :
  heading_text st text = Ok st' ->
  cal_events st' = cal_events st
  /\ created_events st' = created_events st
  /\ skipped_details st' = skipped_details st
  /\ exists m, extract_month_and_year text (current_year st)
               = Ok (m, current_year st')
               /\ current_month_name st' = if truthy m then m else current_month_name st.
Proof.
  unfold heading_text. intros H. bind_inv H. destruct a as [m y].
  injection H as <-.
  assert (Hy : current_year
                 (if negb (y =? current_year st) then set_current_year st y else st) = y).
  { destruct (y =? current_year st) eqn:E; simpl; [ | reflexivity ].
    apply Z.eqb_eq in E. congruence. }
  destruct (truthy m) eqn:Hm; destruct (negb (y =? current_year st)) eqn:E;
    simpl in *; repeat split; try reflexivity; exists m; rewrite Ha, ?Hy, ?Hm;
    split; congruence.
Qed.

(** What a turn of the loop can do: read a heading, leave the state alone,
    record a skip, or add the event of a parsed time range. *)
Lemma process_row_Ok (st st' : loop_state) (r : row) :
  process_row st r = Ok st' ->
  (is_heading r = true /\ foldM heading_text st (strong_texts r) = Ok st')
  \/ (is_heading r = false /\
      (st' = st
       \/ (exists reason, st' = skip st reason)
       \/ (exists ev time_text event_date speaker venue link,
             st' = add_event st ev
             /\ parse_time_components time_text event_date = Ok (begin ev, end_ ev)
             /\ description ev
                = build_description speaker venue link
                    (format_duration (datetime_sub (end_ ev) (begin ev)))))).
Proof.
  unfold process_row, is_heading.
  destruct (is_nil (cells r)).
  { intros H. injection H as H. subst st'. right. auto. }
  destruct (negb (is_nil (strong_texts r)) && negb (is_some (link_tag r))) eqn:Hh.
  { intros H. left. auto. }
  intros H. right. split; [ exact Hh | ]. revert H.
  head_if; [ intros [= <-]; auto | ].
  head_if; [ intros [= <-]; auto | ].
  intros H. bind_inv H. apply attempt_Ok in Ha.
  destruct a as [event_date | exc]; [ | injection H as <-; eauto ].
  clear Ha.
  match type of H with
  | (if is_nil ?c then _ else _) = _ => destruct (is_nil c)
  end; [ injection H as <-; eauto | ].
  bind_inv H. apply attempt_Ok in Ha.
  destruct a as [ [s e] | exc ]; [ | injection H as <-; eauto ].
  injection H as <-. right; right.
  eexists. do 5 eexists. split; [ reflexivity | ]. split; [ exact Ha | reflexivity ].
Qed.
End Rows.

Section Years.
Context {rt : Runtime}.

Lemma search_from_Some (r : regex) (prev : option char) (i : nat) (s : str)
  (m : match_) :
  search_from r prev i s = Some m ->
  exists prev' i' s', match_here r prev' i' s' = Some m.
Proof.
  revert prev i. induction s as [ | x s IH ]; intros prev i; simpl.
  - destruct (match_here r prev i []) eqn:E; [ intros [= <-]; eauto | discriminate ].
  - destruct (match_here r prev i (x :: s)) eqn:E; [ intros [= <-]; eauto | ].
    apply IH.
Qed.

Lemma match_here_YEAR_PATTERN (prev : option char) (i : nat) (s : str) (m : match_) :
  match_here YEAR_PATTERN prev i s = Some m ->
  exists a b, group "1" (m_groups m) = Some [ch "2"; ch "0"; a; b]
              /\ isdecimal a = true /\ isdecimal b = true.
Proof.
  unfold match_here, YEAR_PATTERN, digit. cbn [seqs run].
  cbn [before rest pos groups].
  destruct (xorb _ _); [ | discriminate ].
  unfold advance at 1. cbn [before rest pos groups].
  destruct s as [ | x1 s ]; [ discriminate | ].
  destruct (N.eqb (ch "2") x1) eqn:E1; [ | discriminate ].
  unfold advance at 1. cbn [before rest pos groups].
  destruct s as [ | x2 s ]; [ discriminate | ].
  destruct (N.eqb (ch "0") x2) eqn:E2; [ | discriminate ].
  unfold advance at 1. cbn [before rest pos groups].
  destruct s as [ | a s ]; [ discriminate | ].
  destruct (isdecimal a) eqn:Ea; [ | discriminate ].
  unfold advance at 1. cbn [before rest pos groups].
  destruct s as [ | b s ]; [ discriminate | ].
  destruct (isdecimal b) eqn:Eb; [ | discriminate ].
  unfold capture. cbn [before rest pos groups].
  replace (S (S (S (S i))) - i)%nat with 4%nat by lia.
  destruct (xorb _ _); [ | discriminate ].
  intros [= <-]. unfold m_groups, group.
  apply N.eqb_eq in E1, E2. subst x1 x2.
  exists a, b. split; [ reflexivity | auto ].
Qed.

Lemma strip_by_id (p : char -> bool) (x : char) (mid : str) (y : char) :
  p x = false -> p y = false ->
  strip_by p (x :: mid ++ [y]) = x :: mid ++ [y].
Proof.
  intros Hx Hy. unfold strip_by, lstrip_by, rstrip_by. simpl. rewrite Hx.
  change (x :: mid ++ [y]) with ((x :: mid) ++ [y]).
  rewrite rev_app_distr. simpl. rewrite Hy.
  change (y :: rev mid ++ [x]) with ([y] ++ rev (x :: mid)).
  rewrite rev_app_distr, rev_involutive. reflexivity.
Qed.

Lemma py_int_year_token (a b : char) (y : Z) :
  isdecimal a = true -> isdecimal b = true ->
  py_int [ch "2"; ch "0"; a; b] = Ok y -> 2000 <= y <= 2099.
Proof.
  intros Ha Hb.
  destruct (latin_digits (ch "2")) as (Hd2 & Hv2); [ vm_compute; split; discriminate | ].
  destruct (latin_digits (ch "0")) as (Hd0 & Hv0); [ vm_compute; split; discriminate | ].
  pose proof (decimal_value_range a Ha) as Ra.
  pose proof (decimal_value_range b Hb) as Rb.
  unfold py_int, strip.
  rewrite (strip_by_id isspace (ch "2") [ch "0"; a] b)
    by (apply decimal_not_space; assumption).
  cbn [app is_empty negb forallb andb]. rewrite Hd2, Hd0, Ha, Hb. cbn [andb].
  change (List.length [ch "2"; ch "0"; a; b] <=? 4300)%nat with true.
  intros [= <-]. unfold int_of_decimals. cbn [fold_left].
  change (decimal_value 50%N) with (decimal_value (ch "2")).
  change (decimal_value 48%N) with (decimal_value (ch "0")).
  rewrite Hv2, Hv0. change (Z.of_N (ch "2") - 48) with 2.
  change (Z.of_N (ch "0") - 48) with 0. lia.
Qed.

Lemma year_match_range (sanitized : str) (year_match : match_) (y : Z) :
  search YEAR_PATTERN sanitized = Some year_match ->
  int_group "1" year_match = Ok y -> 2000 <= y <= 2099.
Proof.
  intros Hs Hy. apply search_from_Some in Hs as (prev & i & s & Hs).
  apply match_here_YEAR_PATTERN in Hs as (a & b & Hg & Ha & Hb).
  unfold int_group in Hy. rewrite Hg in Hy.
  exact (py_int_year_token a b y Ha Hb Hy).
Qed.

Lemma check_date_fields_year (y m d : Z) (dd : date) :
  check_date_fields y m d = Ok dd -> MINYEAR <= year dd <= MAXYEAR.
Proof.
  unfold check_date_fields.
  match goal with
  | |- (if ?c then _ else _) = _ -> _ => destruct c eqn:Hy
  end; [ discriminate | ].
  head_if; [ discriminate | ].
  head_if; [ discriminate | ].
  intros [= <-]. simpl.
  apply negb_false_iff, andb_true_iff in Hy. rewrite !Z.leb_le in Hy. exact Hy.
Qed.

Lemma strptime_year (data fmt : str) (parsed : datetime) :
  strptime data fmt = Ok parsed ->
  MINYEAR <= year (dt_date parsed) <= MAXYEAR.
Proof.
  unfold strptime.
  destruct (format_regex fmt false); [ | discriminate ].
  destruct (re_match _ data); [ | discriminate ].
  head_if; [ discriminate | ].
  intros H. do 7 bind_inv H. injection H as <-. simpl.
  eapply check_date_fields_year. eassumption.
Qed.

Lemma except_ValueError_Ok {A} (body : result A) (handler : str -> result A) (a : A) :
  except_ValueError body handler = Ok a ->
  body = Ok a \/ exists msg, handler msg = Ok a.
Proof.
  destruct body as [ a' | [ msg | | | msg ] ]; simpl; intros H; eauto; discriminate.
Qed.

Lemma first_format_Ok {A} (fmts : list str) (attempt : str -> result A)
  (otherwise : result A) (a : A) :
  first_format fmts attempt otherwise = Ok a ->
  (exists fmt, In fmt fmts /\ attempt fmt = Ok a) \/ otherwise = Ok a.
Proof.
  induction fmts as [ | fmt fmts IH ]; simpl; [ auto | ].
  intros H. apply except_ValueError_Ok in H as [ H | (msg & H) ].
  - left. eauto.
  - apply IH in H as [ (fmt' & Hin & H) | H ]; [ left; eauto | auto ].
Qed.

Lemma year_or_range (sanitized : str) (fallback_year y : Z) :
  year_in_range fallback_year ->
  year_or sanitized fallback_year = Ok y -> year_in_range y.
Proof.
  unfold year_or. intros Hf.
  destruct (search YEAR_PATTERN sanitized) as [ m | ] eqn:Hs.
  - intros H. pose proof (year_match_range _ _ _ Hs H).
    unfold year_in_range, MINYEAR, MAXYEAR. lia.
  - intros [= <-]. exact Hf.
Qed.

Lemma month_of_tokens_range (sanitized : str) (fallback_year : Z)
  (tokens : list str) (otherwise : result (option str * Z)) (m : option str) (y : Z) :
  year_in_range fallback_year ->
  (forall m' y', otherwise = Ok (m', y') -> year_in_range y') ->
  month_of_tokens sanitized fallback_year tokens otherwise = Ok (m, y) ->
  year_in_range y.
Proof.
  intros Hf Ho. induction tokens as [ | token tokens IH ]; simpl; [ apply Ho | ].
  destruct (is_empty _); [ exact IH | ].
  intros H.
  apply except_ValueError_Ok in H as [ H | (msg & H) ];
    [ | apply except_ValueError_Ok in H as [ H | (msg' & H) ] ];
    try (now apply IH);
    bind_inv H; bind_inv H; injection H as _ <-;
    eapply year_or_range; eassumption.
Qed.

(** The year [extract_month_and_year] returns is a year of the calendar,
    when the fallback is. *)
Lemma extract_month_and_year_range (text : str) (fallback_year : Z)
  (m : option str) (y : Z) :
  year_in_range fallback_year ->
  extract_month_and_year text fallback_year = Ok (m, y) ->
  year_in_range y.
Proof.
  intros Hf. unfold extract_month_and_year.
  destruct (is_empty _); [ intros [= _ <-]; exact Hf | ].
  intros H. apply first_format_Ok in H as [ (fmt & _ & H) | H ].
  - bind_inv H. injection H as _ <-. eapply strptime_year. eassumption.
  - eapply month_of_tokens_range; [ exact Hf | | exact H ].
    intros m' y'. destruct (search YEAR_PATTERN _) as [ ym | ] eqn:Hs.
    + intros H'. bind_inv H'. injection H' as _ <-.
      pose proof (year_match_range _ _ _ Hs Ha).
      unfold year_in_range, MINYEAR, MAXYEAR. lia.
    + intros [= _ <-]. exact Hf.
Qed.
End Years.

Section Runs.
Context {rt : Runtime}.

Lemma heading_texts_keep_events (texts : list str) (st st' : loop_state) :
  foldM heading_text st texts = Ok st' ->
  cal_events st' = cal_events st /\ created_events st' = created_events st
  /\ skipped_details st' = skipped_details st.
Proof.
  apply (foldM_invariant heading_text
           (fun s => cal_events s = cal_events st
                     /\ created_events s = created_events st
                     /\ skipped_details s = skipped_details st)); [ | auto ].
  intros s x s' _ (E1 & E2 & E3) H.
  apply heading_text_Ok in H as (H1 & H2 & H3 & _).
  repeat split; congruence.
Qed.

Lemma parsed_event_duration (time_text : str) (event_date : date) (ev : event)
  (speaker venue link : str) :
  parse_time_components time_text event_date = Ok (begin ev, end_ ev) ->
  description ev
  = build_description speaker venue link
      (format_duration (datetime_sub (end_ ev) (begin ev))) ->
  duration_line_matches ev.
Proof.
  intros Hparse Hdesc. unfold duration_line_matches. cbv zeta.
  pose proof (parse_time_components_after _ _ _ _ Hparse) as Hlt.
  pose proof (parse_time_components_seconds _ _ _ _ Hparse) as (Hs & He).
  assert (Hpos : 0 < datetime_sub (end_ ev) (begin ev)) by (unfold datetime_sub; lia).
  assert (Hmin : datetime_sub (end_ ev) (begin ev) mod 60 = 0).
  { unfold datetime_sub, wall_seconds. rewrite Hs, He.
    generalize (toordinal (dt_date (end_ ev))) (toordinal (dt_date (begin ev))).
    intros o o'. Z.div_mod_to_equations. lia. }
  split; [ exact Hpos | ]. split; [ | split ].
  - rewrite Hdesc. apply last_line_build_description.
    + apply format_duration_not_empty.
    + apply format_duration_no_newline. lia.
  - apply format_duration_shape.
  - apply stated_duration_format; [ lia | exact Hmin ].
Qed.

Lemma process_row_events (st st' : loop_state) (r : row) :
  process_row st r = Ok st' ->
  Forall duration_line_matches (cal_events st) ->
  created_events st = Z.of_nat (List.length (cal_events st)) ->
  Forall duration_line_matches (cal_events st')
  /\ created_events st' = Z.of_nat (List.length (cal_events st')).
Proof.
  intros H Hall Hcount.
  apply process_row_Ok in H
    as [ (_ & H) | (_ & [ -> | [ (reason & ->) | (ev & t & d & sp & v & l & -> & Hp & Hd) ] ]) ];
    try (split; assumption).
  - apply heading_texts_keep_events in H as (E1 & E2 & _).
    rewrite E1, E2. split; assumption.
  - simpl. split.
    + apply Forall_app. split; [ exact Hall | ].
      constructor; [ | constructor ].
      eapply parsed_event_duration; eassumption.
    + rewrite length_app, Nat2Z.inj_add, Hcount. simpl. lia.
Qed.

Lemma process_row_year (st st' : loop_state) (r : row) :
  year_in_range (current_year st) ->
  process_row st r = Ok st' ->
  year_in_range (current_year st').
Proof.
  intros Hinv H.
  apply process_row_Ok in H
    as [ (Hh & H) | (_ & [ -> | [ (reason & ->) | (ev & t & d & sp & v & l & -> & _) ] ]) ];
    try exact Hinv.
  revert H.
  apply (foldM_invariant heading_text (fun s => year_in_range (current_year s)));
    [ | exact Hinv ].
  intros s text s' _ Hrange Hstep.
  apply heading_text_Ok in Hstep as (_ & _ & _ & m & Hextract & _).
  eapply extract_month_and_year_range; eassumption.
Qed.
End Runs.

(* ================================================================== *)
(** ** C5 *)

Lemma extract_may_2024 (fallback_year : Z) :
  extract_month_and_year (py "May 2024") fallback_year = Ok (Some (py "May"), 2024).
Proof. vm_compute. reflexivity. Qed.

Lemma heading_text_may_2024 (st : loop_state) :
  heading_text st (py "May 2024")
  = Ok {| cal_events := cal_events st; current_month_name := Some (py "May");
          current_year := 2024; created_events := created_events st;
          skipped_details := skipped_details st |}.
Proof.
  unfold heading_text. rewrite extract_may_2024. cbn [bind].
  destruct (2024 =? current_year st) eqn:E; [ apply Z.eqb_eq in E | ];
    destruct st; simpl in *; subst; reflexivity.
Qed.

(** C5: a heading row with the text "May 2024" sets the tracker to the month
    "May" and the year 2024, whatever it held before; with that tracker the
    date token "7" parses to 2024-05-07, so that the data row after the
    heading gives an event on that day. *)
Theorem may_2024_then_7 :
  (forall (st : loop_state),
      exists st',
        process_row st (heading_row (py "May 2024")) = Ok st'
        /\ current_month_name st' = Some (py "May")
        /\ current_year st' = 2024
        /\ cal_events st' = cal_events st)
  /\ (forall fallback_year,
        extract_month_and_year (py "May 2024") fallback_year
        = Ok (Some (py "May"), 2024))
  /\ parse_date (py "7") (Some (py "May")) 2024
     = Ok {| year := 2024; month := 5; day := 7 |}
  /\ (forall now_year,
        exists ev,
          main now_year
            (Some [heading_row (py "May 2024"); talk_row (py "7") (py "14:00")])
          = Ok {| calendar := [ev];
                  exported_line := py "Exported 1 events to life_science_talks.ics";
                  skipped_line := None |}
          /\ begin ev = berlin 2024 5 7 14 0
          /\ end_ ev = berlin 2024 5 7 15 0).
Proof.
  split; [ | split; [ exact extract_may_2024 | split; [ vm_compute; reflexivity | ] ] ].
  - intros st. eexists. split.
    + unfold process_row, heading_row. cbn [cells strong_texts link_tag is_nil is_some negb andb foldM].
      rewrite heading_text_may_2024. cbn [bind]. reflexivity.
    + simpl. auto.
  - intros now_year. unfold main. cbn [foldM].
    assert (H1 : process_row (initial_state now_year) (heading_row (py "May 2024"))
                 = Ok {| cal_events := []; current_month_name := Some (py "May");
                         current_year := 2024; created_events := 0;
                         skipped_details := [] |}).
    { unfold process_row, heading_row.
      cbn [cells strong_texts link_tag is_nil is_some negb andb foldM].
      rewrite heading_text_may_2024. reflexivity. }
    rewrite H1. cbn [bind].
    eexists. split; [ vm_compute; reflexivity | ].
    split; reflexivity.
Qed.

(* ================================================================== *)
(** ** C8 *)

Section Handled.
Context {rt : Runtime}.

(** What the loop does handle: a data row raises no [ValueError]. *)
Lemma data_row_raises_no_ValueError (st : loop_state) (r : row) (msg : str) :
  is_heading r = false -> process_row st r <> Raise (ValueError msg).
Proof.
  unfold process_row, is_heading. intros Hh.
  destruct (is_nil (cells r)); [ discriminate | ].
  cbn [negb andb] in Hh. rewrite Hh.
  match goal with |- (if ?c then _ else _) <> _ => destruct c end; [ discriminate | ].
  match goal with |- (if ?c then _ else _) <> _ => destruct c end; [ discriminate | ].
  destruct (parse_date _ _ _) as [ d | [ m | | | m ] ]; cbn [attempt bind];
    try discriminate.
  match goal with |- (if ?c then _ else _) <> _ => destruct c end; [ discriminate | ].
  destruct (parse_time_components _ _) as [ [s e] | [ m | | | m ] ];
    cbn [attempt bind]; discriminate.
Qed.

(** The count that is reported is the number of events, when the run ends. *)
Lemma reported_count_is_number_of_events (now_year : Z) (rows : list row)
  (st : loop_state) :
  foldM process_row (initial_state now_year) rows = Ok st ->
  created_events st = Z.of_nat (List.length (cal_events st)).
Proof.
  intros H.
  refine (proj2 (foldM_invariant process_row
                   (fun s => Forall duration_line_matches (cal_events s)
                             /\ created_events s = Z.of_nat (List.length (cal_events s)))
                   rows _ _ _ _ H)).
  - intros s r s' _ (Hall & Hcount) Hstep. eapply process_row_events; eassumption.
  - split; [ constructor | reflexivity ].
Qed.
End Handled.

(** C8 fails on the code: under the heading "May 2024", a row whose date
    text is the number 99999999999 makes [parse_date] raise [OverflowError],
    which the handler of the loop, written for [ValueError], lets through;
    the run ends there and exports nothing, not even the talk of the row
    before. *)
Theorem long_number_aborts_the_run :
  parse_date (py "99999999999") (Some (py "May")) 2024 = Raise OverflowError
  /\ main 2024
       (Some [heading_row (py "May 2024");
              talk_row (py "7") (py "14:00");
              talk_row (py "99999999999") (py "15:00");
              talk_row (py "9") (py "16:00")])
     = Raise OverflowError.
Proof. split; vm_compute; reflexivity. Qed.

(* ================================================================== *)
(** ** C9 *)

(** C9: for every event of a run, the last line of the description is
    "Duration: " followed by the formatted time from begin to end, a positive
    number of whole minutes; the text gives the hours and the minutes, leaves
    out a part that is zero, and states exactly that time. *)
Theorem duration_line_states_end_minus_start (rt : Runtime) (now_year : Z)
  (rows : list row) (st : loop_state) :
  foldM process_row (initial_state now_year) rows = Ok st ->
  Forall duration_line_matches (cal_events st).
Proof.
  intros H.
  refine (proj1 (foldM_invariant process_row
                   (fun s => Forall duration_line_matches (cal_events s)
                             /\ created_events s = Z.of_nat (List.length (cal_events s)))
                   rows _ _ _ _ H)).
  - intros s r s' _ (Hall & Hcount) Hstep. eapply process_row_events; eassumption.
  - split; [ constructor | reflexivity ].
Qed.

Lemma duration_line_states_end_minus_start_witness :
  exists st ev,
    foldM process_row (initial_state 2024)
      [heading_row (py "May 2024"); talk_row (py "7") (py "2 - 3.30pm")] = Ok st
    /\ cal_events st = [ev]
    /\ begin ev = berlin 2024 5 7 14 0
    /\ end_ ev = berlin 2024 5 7 15 30
    /\ datetime_sub (end_ ev) (begin ev) = 5400
    /\ last_line (description ev) = py "Duration: 1h 30m"
    /\ stated_duration (py "1h 30m") = Some 5400
    /\ Forall duration_line_matches (cal_events st).
Proof.
  eexists. eexists. split; [ vm_compute; reflexivity | ].
  split; [ reflexivity | ].
  split; [ reflexivity | ]. split; [ reflexivity | ].
  split; [ vm_compute; reflexivity | ]. split; [ vm_compute; reflexivity | ].
  split; [ vm_compute; reflexivity | ].
  apply (duration_line_states_end_minus_start basic_latin 2024
           [heading_row (py "May 2024"); talk_row (py "7") (py "2 - 3.30pm")]).
  vm_compute. reflexivity.
Defined.

(* ================================================================== *)
(** * Further properties of the code *)

(* ================================================================== *)
(** ** Text and patterns *)

Lemma dropwhile_head (p : char -> bool) (s : str) :
  dropwhile p s = [] \/ exists c t, dropwhile p s = c :: t /\ p c = false.
Proof.
  induction s as [ | x s IH ]; simpl; [ auto | ].
  destruct (p x) eqn:E; [ exact IH | right; eauto ].
Qed.

Lemma dropwhile_keeps_last (p : char -> bool) (s : str) (c : char) :
  p c = false -> dropwhile p (s ++ [c]) = dropwhile p s ++ [c].
Proof.
  intros Hc. induction s as [ | x s IH ]; simpl.
  - rewrite Hc. reflexivity.
  - destruct (p x); [ exact IH | reflexivity ].
Qed.

(** A stripped text is empty or starts with a character that is kept. *)
Lemma strip_by_head (p : char -> bool) (s : str) :
  strip_by p s = [] \/ exists c t, strip_by p s = c :: t /\ p c = false /\ In c s.
Proof.
  unfold strip_by, lstrip_by, rstrip_by.
  assert (Hin : forall c, In c (dropwhile p s) -> In c s).
  { induction s as [ | x s IH ]; simpl; [ auto | ].
    destruct (p x); [ intros c Hc; right; auto | auto ]. }
  destruct (dropwhile_head p s) as [ -> | (c & t & E & Hc) ]; [ left; reflexivity | ].
  right. rewrite E in *. exists c. simpl rev.
  rewrite dropwhile_keeps_last by exact Hc.
  rewrite rev_app_distr. simpl. eexists. split; [ reflexivity | ].
  split; [ exact Hc | apply Hin; left; reflexivity ].
Qed.

Lemma dropwhile_Forall (P : char -> Prop) (p : char -> bool) (s : str) :
  Forall P s -> Forall P (dropwhile p s).
Proof.
  induction 1 as [ | x s Hx Hs IH ]; simpl; [ constructor | ].
  destruct (p x); [ exact IH | constructor; assumption ].
Qed.

Lemma strip_by_Forall (P : char -> Prop) (p : char -> bool) (s : str) :
  Forall P s -> Forall P (strip_by p s).
Proof.
  intros H. unfold strip_by, lstrip_by, rstrip_by.
  apply Forall_rev, dropwhile_Forall, Forall_rev, dropwhile_Forall, H.
Qed.

(** A text of kept characters is its own stripped text. *)
Lemma strip_by_kept (p : char -> bool) (s : str) :
  Forall (fun c => p c = false) s -> strip_by p s = s.
Proof.
  intros H. unfold strip_by, lstrip_by, rstrip_by.
  assert (D : forall t, Forall (fun c => p c = false) t -> dropwhile p t = t).
  { intros t Ht. destruct Ht as [ | x t Hx _ ]; simpl; [ reflexivity | ].
    rewrite Hx. reflexivity. }
  rewrite (D s H), (D (rev s)) by (apply Forall_rev, H).
  apply rev_involutive.
Qed.

(** A text of dropped characters strips to nothing. *)
Lemma strip_by_dropped (p : char -> bool) (s : str) :
  Forall (fun c => p c = true) s -> strip_by p s = [].
Proof.
  intros H. unfold strip_by, lstrip_by, rstrip_by.
  replace (dropwhile p s) with (@nil char); [ reflexivity | ].
  induction H as [ | x s Hx _ IH ]; simpl; [ reflexivity | ].
  rewrite Hx. exact IH.
Qed.

Section Patterns.
Context {rt : Runtime}.

(** Substituting a one-character class replaces the characters of the
    class, one by one. *)
Lemma sub_go_Class (p : char -> bool) (repl : str) (prev : option char)
  (i : nat) (s : str) :
  sub_go (Class p) repl O prev i s
  = flat_map (fun c => if p c then repl else [c]) s.
Proof.
  revert prev i. induction s as [ | x s IH ]; intros prev i; [ reflexivity | ].
  cbn [sub_go flat_map]. unfold match_here. cbn [run advance rest before pos groups].
  destruct (p x).
  - cbn [pos m_end]. replace (i <? S i)%nat with true by (symmetry; apply Nat.ltb_lt; lia).
    replace (S i - i - 1)%nat with O by lia.
    rewrite IH. reflexivity.
  - rewrite IH. reflexivity.
Qed.

Lemma sub_Class (p : char -> bool) (repl : str) (s : str) :
  sub (Class p) repl s = flat_map (fun c => if p c then repl else [c]) s.
Proof. apply sub_go_Class. Qed.

Lemma run_Plus_Class (p : char -> bool) (c : cursor) :
  run (Plus (Class p)) c Some = plus_class p (S (List.length (rest c))) c.
Proof. reflexivity. Qed.

Lemma plus_class_advances (p : char -> bool) (fuel : nat) (c r : cursor) :
  plus_class p fuel c = Some r -> (pos c < pos r)%nat.
Proof.
  revert c r. induction fuel as [ | fuel IH ]; intros c r; [ discriminate | ].
  cbn [plus_class run]. unfold advance.
  destruct (rest c) as [ | x s ]; [ discriminate | ].
  destruct (p x); [ | discriminate ].
  cbn [pos]. replace (pos c <? S (pos c))%nat with true
    by (symmetry; apply Nat.ltb_lt; lia).
  match goal with
  | |- or_else (plus_class p fuel ?c1) _ = _ -> _ =>
      destruct (plus_class p fuel c1) as [ r' | ] eqn:E
  end; cbn [or_else]; intros [= <-].
  - apply IH in E. cbn [pos] in E. lia.
  - cbn [pos]. lia.
Qed.

(** At a character of the class, [p+] matches and is not empty. *)
Lemma match_here_Plus_Class (p : char -> bool) (prev : option char) (i : nat)
  (x : char) (s : str) :
  p x = true ->
  exists m, match_here (Plus (Class p)) prev i (x :: s) = Some m /\ (i < m_end m)%nat.
Proof.
  intros Hx. unfold match_here. rewrite run_Plus_Class.
  match goal with
  | |- context [plus_class p ?f ?c0] => destruct (plus_class p f c0) as [ r | ] eqn:E
  end.
  - apply plus_class_advances in E. cbn [pos] in E.
    eexists. split; [ reflexivity | exact E ].
  - exfalso. revert E. cbn [rest List.length plus_class run]. unfold advance.
    cbn [rest pos]. rewrite Hx.
    replace (i <? S i)%nat with true by (symmetry; apply Nat.ltb_lt; lia).
    match goal with
    | |- or_else ?o _ = _ -> _ => destruct o
    end; discriminate.
Qed.

(** After [re.sub(r"\s+", " ", s)], a character is the replacement or no
    space. *)
Lemma sub_go_spaces_chars (repl : str) (skip : nat) (prev : option char)
  (i : nat) (s : str) :
  Forall (fun c => In c repl \/ isspace c = false)
    (sub_go spaces repl skip prev i s).
Proof.
  unfold spaces.
  revert skip prev i. induction s as [ | x s IH ]; intros skip prev i;
    [ constructor | ].
  cbn [sub_go]. destruct skip as [ | n ]; [ | apply IH ].
  destruct (isspace x) eqn:Hx.
  - destruct (match_here_Plus_Class isspace prev i x s Hx) as (m & -> & Hm).
    apply Nat.ltb_lt in Hm. rewrite Hm.
    apply Forall_app. split; [ | apply IH ].
    apply Forall_forall. auto.
  - assert (Hcopy : Forall (fun c => In c repl \/ isspace c = false)
                      (x :: sub_go (Plus (Class isspace)) repl O (Some x) (S i) s))
      by (constructor; [ right; exact Hx | apply IH ]).
    destruct (match_here (Plus (Class isspace)) prev i (x :: s)) as [ m | ];
      [ | exact Hcopy ].
    destruct (i <? m_end m)%nat; [ | exact Hcopy ].
    apply Forall_app. split; [ | apply IH ].
    apply Forall_forall. auto.
Qed.

Lemma split_on_head (sep x : char) (s : str) :
  x <> sep -> exists w ws, split_on sep (x :: s) = (x :: w) :: ws.
Proof.
  intros Hx. simpl. apply N.eqb_neq in Hx. rewrite Hx.
  destruct (split_on sep s); eauto.
Qed.

(** A normalized text that is not empty has a part. *)
Lemma range_parts_not_nil (time_range : str) :
  is_empty (normalize_time_range time_range) = false ->
  range_parts (normalize_time_range time_range) <> [].
Proof.
  unfold normalize_time_range. cbv zeta.
  match goal with
  | |- is_empty (strip_chars _ (sub spaces _ ?y)) = _ -> _ => generalize y
  end.
  intros y Hne. unfold strip_chars in *.
  pose proof (strip_by_Forall _ (one_of (py " -")) _
                (sub_go_spaces_chars (py " ") O None O y)) as Hall.
  change (sub_go spaces (py " ") 0 None 0 y) with (sub spaces (py " ") y) in Hall.
  destruct (strip_by_head (one_of (py " -")) (sub spaces (py " ") y))
    as [ E | (c & t & E & Hc & _) ]; rewrite E in *; [ discriminate | ].
  apply Forall_inv in Hall.
  assert (Hdash : c <> ch "-").
  { intros ->. vm_compute in Hc. discriminate. }
  assert (Hspace : isspace c = false).
  { destruct Hall as [ [ <- | [] ] | H ]; [ | exact H ].
    vm_compute in Hc. discriminate. }
  destruct (split_on_head (ch "-") c t Hdash) as (w & ws & Esplit).
  unfold range_parts. rewrite Esplit. cbn [map filter].
  destruct (strip_by_head isspace (c :: w)) as [ Es | (c' & t' & Es & _) ].
  - exfalso. revert Es. unfold strip_by, lstrip_by, rstrip_by. simpl dropwhile at 2.
    rewrite Hspace. simpl rev at 2.
    rewrite dropwhile_keeps_last by exact Hspace.
    rewrite rev_app_distr. discriminate.
  - unfold strip. rewrite Es. discriminate.
Qed.
End Patterns.

Section TimeCore.
Context {rt : Runtime}.

Ltac step_run :=
  match goal with
  | |- context [advance _] => unfold advance at 1; cbn [rest pos before groups]
  | |- context [match ?s with [] => _ | _ :: _ => _ end] => is_var s; destruct s
  | |- context [if isdecimal ?x then _ else _] => destruct (isdecimal x) eqn:?
  | |- context [if N.eqb ?a ?b then _ else _] => destruct (N.eqb a b) eqn:?
  | |- context [or_else (Some _) _] => cbn [or_else]
  | |- context [or_else None _] => cbn [or_else]
  | |- context [capture _ _ _] => unfold capture at 1; cbn [rest pos before groups]
  end.

Lemma match_here_TIME_CORE (prev : option char) (i : nat) (s : str) (m : match_) :
  match_here TIME_CORE_PATTERN prev i s = Some m -> time_core_groups (m_groups m).
Proof.
  unfold match_here, TIME_CORE_PATTERN, digit. cbn [seqs run].
  cbn [before rest pos groups].
  repeat step_run; try discriminate;
    replace (S (S i) - i)%nat with 2%nat by lia;
    replace (S i - i)%nat with 1%nat by lia;
    replace (S (S (S (S (S i)))) - S (S (S i)))%nat with 2%nat by lia;
    replace (S (S (S (S i))) - S (S i))%nat with 2%nat by lia;
    intros [= <-]; unfold time_core_groups, m_groups, group; cbn;
    (split; [ eexists; split; [ reflexivity | ];
              split; [ discriminate | ]; split; [ simpl; lia | ]; repeat constructor; assumption
            | first [ left; reflexivity | right; eauto ] ]).
Qed.
End TimeCore.

(* ================================================================== *)
(** ** Which exceptions a computation can raise *)

Lemma raises_only_Ok (allowed : exn -> Prop) {A} (a : A) :
  raises_only allowed (Ok a).
Proof. intros e H. discriminate. Qed.

Lemma raises_only_Raise (allowed : exn -> Prop) {A} (e : exn) :
  allowed e -> raises_only allowed (@Raise A e).
Proof. intros He e' [= <-]. exact He. Qed.

Lemma raises_only_bind (allowed : exn -> Prop) {A B} (r : result A)
  (f : A -> result B) :
  raises_only allowed r ->
  (forall a, r = Ok a -> raises_only allowed (f a)) ->
  raises_only allowed (bind r f).
Proof.
  intros Hr Hf e H. apply bind_Raise in H as [ H | (a & Ha & H) ].
  - now apply Hr.
  - now apply (Hf a Ha).
Qed.

Lemma raises_only_weaken (allowed allowed' : exn -> Prop) {A} (r : result A) :
  (forall e, allowed e -> allowed' e) ->
  raises_only allowed r -> raises_only allowed' r.
Proof. intros Hw Hr e H. apply Hw, Hr, H. Qed.

Lemma ValueError_is (msg : str) : is_ValueError (ValueError msg).
Proof. exists msg. reflexivity. Qed.

(** A handler for [ValueError] lets the other exceptions of the body and
    the exceptions of the handler through. *)
Lemma raises_only_except (allowed : exn -> Prop) {A} (body : result A)
  (handler : str -> result A) :
  (forall e, body = Raise e -> is_ValueError e \/ allowed e) ->
  (forall msg, raises_only allowed (handler msg)) ->
  raises_only allowed (except_ValueError body handler).
Proof.
  intros Hb Hh e. destruct body as [ a | [ msg | | | msg ] ]; simpl;
    try discriminate; try (now apply Hh);
    intros [= <-];
    (destruct (Hb _ eq_refl) as [ (m & Hm) | Ha ]; [ discriminate | exact Ha ]).
Qed.

Lemma raises_only_first_format (allowed : exn -> Prop) {A} (fmts : list str)
  (body : str -> result A) (otherwise : result A) :
  (forall fmt e, body fmt = Raise e -> is_ValueError e \/ allowed e) ->
  raises_only allowed otherwise ->
  raises_only allowed (first_format fmts body otherwise).
Proof.
  intros Hb Ho. induction fmts as [ | fmt fmts IH ]; simpl; [ exact Ho | ].
  apply raises_only_except; [ apply Hb | intros _; exact IH ].
Qed.

Section Digits.
Context {rt : Runtime}.

Lemma int_of_decimals_range (s : str) (acc : Z) :
  Forall (fun c => isdecimal c = true) s -> 0 <= acc ->
  0 <= fold_left (fun a c => a * 10 + decimal_value c) s acc.
Proof.
  intros H. revert acc. induction H as [ | x s Hx _ IH ]; intros acc Hacc; simpl;
    [ exact Hacc | ].
  apply IH. pose proof (decimal_value_range x Hx). lia.
Qed.

(** [int] of a text: on success the text, stripped, is a run of digits, and
    the number is not negative. *)
Lemma py_int_Ok (s : str) (n : Z) :
  py_int s = Ok n ->
  Forall (fun c => isdecimal c = true) (strip s) /\ n = int_of_decimals (strip s)
  /\ 0 <= n.
Proof.
  unfold py_int.
  destruct (negb (is_empty (strip s)) && forallb isdecimal (strip s)) eqn:E;
    [ | discriminate ].
  destruct (_ <=? _)%nat; [ | discriminate ]. intros [= <-].
  apply andb_true_iff in E as (_ & E). rewrite forallb_forall in E.
  assert (F : Forall (fun c => isdecimal c = true) (strip s))
    by (apply Forall_forall; exact E).
  repeat split; [ exact F | ].
  apply int_of_decimals_range; [ exact F | lia ].
Qed.

Lemma py_int_raises_ValueError (s : str) : raises_only is_ValueError (py_int s).
Proof.
  unfold py_int. destruct (_ && _); [ destruct (_ <=? _)%nat | ];
    first [ apply raises_only_Ok | apply raises_only_Raise, ValueError_is ].
Qed.

(** [int] of one or two digits. *)
Lemma py_int_two_digits (s : str) :
  Forall (fun c => isdecimal c = true) s -> s <> [] -> (List.length s <= 2)%nat ->
  exists n, py_int s = Ok n /\ 0 <= n <= 99.
Proof.
  intros Hs Hne Hlen. unfold py_int, strip.
  rewrite strip_by_kept
    by (eapply Forall_impl; [ | exact Hs ]; intros c; apply decimal_not_space).
  assert (Hall : forallb isdecimal s = true)
    by (apply forallb_forall; apply Forall_forall; exact Hs).
  rewrite Hall.
  destruct s as [ | a [ | b [ | c s ] ] ]; [ contradiction | | | simpl in Hlen; lia ];
    cbn [is_empty negb andb];
    match goal with
    | |- context [(?n <=? 4300)%nat] =>
        replace (n <=? 4300)%nat with true by (symmetry; apply Nat.leb_le; simpl; lia)
    end;
    eexists; (split; [ reflexivity | ]);
    unfold int_of_decimals; cbn [fold_left].
  - apply Forall_inv in Hs. pose proof (decimal_value_range a Hs). lia.
  - pose proof (decimal_value_range a (Forall_inv Hs)).
    pose proof (decimal_value_range b (Forall_inv (Forall_inv_tail Hs))). lia.
Qed.
End Digits.

Section TimeErrors.
Context {rt : Runtime}.

Lemma convert_to_24_hour_range (h : Z) (m : option meridiem) :
  0 <= convert_to_24_hour h m <= 35.
Proof.
  unfold convert_to_24_hour.
  destruct m as [ [ | ] | ]; try destruct (h mod 24 =? 12);
    Z.div_mod_to_equations; lia.
Qed.

(** The hour and the minute a match of [TIME_CORE_PATTERN] gives. *)
Lemma time_core_numbers (sanitized : str) (m : match_) :
  search TIME_CORE_PATTERN sanitized = Some m ->
  (exists h, int_group "hour" m = Ok h /\ 0 <= h <= 99)
  /\ exists mi, (if truthy (group "minute" (m_groups m))
                 then int_group "minute" m else Ok 0) = Ok mi
                /\ 0 <= mi <= 99.
Proof.
  intros Hs. apply search_from_Some in Hs as (prev & i & s & Hs).
  apply match_here_TIME_CORE in Hs as ((hs & Hh & Hne & Hlen & Hdec) & Hmin).
  split.
  - unfold int_group. rewrite Hh. now apply py_int_two_digits.
  - destruct Hmin as [ Hm | (a & b & Hm & Ha & Hb) ]; rewrite Hm; cbn [truthy].
    + exists 0. split; [ reflexivity | lia ].
    + cbn [is_empty negb]. unfold int_group. rewrite Hm.
      apply py_int_two_digits; [ repeat constructor; assumption | discriminate | simpl; lia ].
Qed.

(** A time fragment gives an hour from 0 to 35 and a minute from 0 to 99,
    or a [ValueError]. *)
Lemma parse_time_fragment_outcome (fragment : str)
  (default_meridiem : option meridiem) (prefer_12_hour : bool) :
  (exists h mi, parse_time_fragment fragment default_meridiem prefer_12_hour = Ok (h, mi)
                /\ 0 <= h <= 35 /\ 0 <= mi <= 99)
  \/ exists msg, parse_time_fragment fragment default_meridiem prefer_12_hour
                 = Raise (ValueError msg).
Proof.
  unfold parse_time_fragment.
  destruct (is_empty _); [ right; eauto | ].
  destruct (str_eqb _ (py "noon")); [ left; exists 12, 0; repeat split; lia | ].
  destruct (str_eqb _ (py "midnight")); [ left; exists 0, 0; repeat split; lia | ].
  destruct (search TIME_CORE_PATTERN _) as [ m | ] eqn:Hs; [ | right; eauto ].
  destruct (time_core_numbers _ _ Hs) as ((h & Hh & _) & (mi & Hmi & Rmi)).
  rewrite Hh. cbn [bind]. rewrite Hmi. cbn [bind].
  left. eexists. exists mi. split; [ reflexivity | ].
  split; [ apply convert_to_24_hour_range | exact Rmi ].
Qed.

Lemma parse_time_fragment_raises (fragment : str)
  (default_meridiem : option meridiem) (prefer_12_hour : bool) :
  raises_only is_ValueError
    (parse_time_fragment fragment default_meridiem prefer_12_hour).
Proof.
  intros e H.
  destruct (parse_time_fragment_outcome fragment default_meridiem prefer_12_hour)
    as [ (h & mi & E & _) | (msg & E) ]; rewrite E in H; [ discriminate | ].
  injection H as <-. apply ValueError_is.
Qed.

Lemma assemble_datetime_raises (d : date) (h mi : Z) :
  0 <= mi <= 99 -> raises_only is_ValueError (assemble_datetime d h mi).
Proof.
  intros Hmi. unfold assemble_datetime, time_new, c_int.
  replace ((h mod 24 <=? INT_MAX) && (- INT_MAX - 1 <=? h mod 24)) with true.
  2:{ symmetry. apply andb_true_iff. rewrite !Z.leb_le. unfold INT_MAX.
      Z.div_mod_to_equations. lia. }
  replace ((mi <=? INT_MAX) && (- INT_MAX - 1 <=? mi)) with true.
  2:{ symmetry. apply andb_true_iff. rewrite !Z.leb_le. unfold INT_MAX. lia. }
  cbn [bind].
  destruct (negb _); [ cbn [bind]; apply raises_only_Raise, ValueError_is | ].
  destruct (negb _); [ cbn [bind]; apply raises_only_Raise, ValueError_is | ].
  cbn [bind]. apply raises_only_Ok.
Qed.

Lemma datetime_add_small (dt dt' : datetime) (td : timedelta) :
  0 <= hour dt <= 23 -> 0 <= minute dt <= 59 -> second dt = 0 ->
  0 <= td <= 86400 ->
  datetime_add dt td = Ok dt' ->
  toordinal (dt_date dt') = toordinal (dt_date dt)
  \/ toordinal (dt_date dt') = toordinal (dt_date dt) + 1.
Proof.
  intros Hh Hm Hs Htd. unfold datetime_add.
  destruct (_ && _); [ | discriminate ]. intros [= <-]. cbn [dt_date].
  rewrite ord2ymd_toordinal. rewrite Hs.
  generalize (toordinal (dt_date dt)). intros o.
  Z.div_mod_to_equations. lia.
Qed.

Lemma datetime_add_raises (dt : datetime) (td : timedelta) :
  1 <= toordinal (dt_date dt) < MAXORDINAL ->
  0 <= hour dt <= 23 -> 0 <= minute dt <= 59 -> second dt = 0 ->
  0 <= td <= 86400 ->
  raises_only is_ValueError (datetime_add dt td).
Proof.
  intros Ho Hh Hm Hs Htd. unfold datetime_add.
  match goal with
  | |- raises_only _ (if ?c then _ else _) => replace c with true
  end; [ apply raises_only_Ok | ].
  symmetry. apply andb_true_iff. rewrite !Z.leb_le. rewrite Hs.
  revert Ho. generalize (toordinal (dt_date dt)). intros o Ho.
  Z.div_mod_to_equations. lia.
Qed.

Lemma assemble_datetime_clock (d : date) (h mi : Z) (dt : datetime) :
  assemble_datetime d h mi = Ok dt ->
  dt_date dt = d /\ 0 <= hour dt <= 23 /\ 0 <= minute dt <= 59 /\ second dt = 0.
Proof.
  intros H. apply assemble_datetime_Ok in H as (Hd & Hh & _ & Hm & Hs).
  split; [ exact Hd | ]. split; [ | split; [ exact Hm | exact Hs ] ].
  rewrite Hh. Z.div_mod_to_equations. lia.
Qed.

Lemma single_time_raises (start_part : str) (d : date) :
  1 <= toordinal d < MAXORDINAL ->
  raises_only is_ValueError (single_time start_part d).
Proof.
  intros Hd. unfold single_time.
  apply raises_only_bind; [ apply parse_time_fragment_raises | intros [h mi] Hp ].
  destruct (parse_time_fragment_outcome start_part (extract_meridiem_label start_part)
              (is_some (extract_meridiem_label start_part)))
    as [ (h' & mi' & E & _ & Rmi) | (msg & E) ]; rewrite E in Hp; [ | discriminate ].
  injection Hp as <- <-.
  apply raises_only_bind; [ now apply assemble_datetime_raises | intros s Hs ].
  apply assemble_datetime_clock in Hs as (Ds & Hh & Hm & Hsec).
  apply raises_only_bind; [ | intros e _; apply raises_only_Ok ].
  apply datetime_add_raises; try assumption; [ rewrite Ds; exact Hd | ].
  unfold DEFAULT_SINGLE_EVENT_DURATION, timedelta_hours. lia.
Qed.

Lemma time_range_of_raises (start_part end_part : str) (d : date) :
  1 <= toordinal d < MAXORDINAL ->
  raises_only is_ValueError (time_range_of start_part end_part d).
Proof.
  intros Hd. unfold time_range_of, time_range_with.
  match goal with
  | |- raises_only _ (bind (parse_time_fragment ?f ?dm ?pr) _) =>
      destruct (parse_time_fragment_outcome f dm pr)
        as [ (h & mi & E & _ & Rmi) | (msg & E) ]; rewrite E; cbn [bind];
      [ | apply raises_only_Raise, ValueError_is ]
  end.
  match goal with
  | |- raises_only _ (bind (parse_time_fragment ?f ?dm ?pr) _) =>
      destruct (parse_time_fragment_outcome f dm pr)
        as [ (h' & mi' & E' & _ & Rmi') | (msg & E') ]; rewrite E'; cbn [bind];
      [ | apply raises_only_Raise, ValueError_is ]
  end.
  apply raises_only_bind; [ now apply assemble_datetime_raises | intros s Hs ].
  apply raises_only_bind; [ now apply assemble_datetime_raises | intros e0 He0 ].
  apply assemble_datetime_clock in He0 as (De & Hh & Hm & Hsec).
  apply raises_only_bind; [ | intros e _; apply raises_only_Ok ].
  destruct (datetime_le e0 s); [ | apply raises_only_Ok ].
  apply datetime_add_raises; try assumption; [ rewrite De; exact Hd | ].
  unfold timedelta_days. lia.
Qed.

Lemma datetime_add_overflows (dt : datetime) (td : timedelta) :
  raises_only ValueError_or_OverflowError (datetime_add dt td).
Proof.
  unfold datetime_add. destruct (_ && _);
    [ apply raises_only_Ok | apply raises_only_Raise; right; reflexivity ].
Qed.

Lemma parse_time_components_overflows (time_range : str) (d : date) :
  raises_only ValueError_or_OverflowError (parse_time_components time_range d).
Proof.
  assert (W : forall A (r : result A),
             raises_only is_ValueError r -> raises_only ValueError_or_OverflowError r).
  { intros A r. apply raises_only_weaken. intros e He. left. exact He. }
  destruct (parse_time_components_cases time_range d)
    as [ (_ & E) | (_ & [ (p & _ & E) | [ (_ & E) | (a & b & more & _ & E) ] ]) ];
    rewrite E; try (apply raises_only_Raise; left; apply ValueError_is).
  - unfold single_time.
    apply raises_only_bind; [ apply W, parse_time_fragment_raises | intros [h mi] Hp ].
    destruct (parse_time_fragment_outcome p (extract_meridiem_label p)
                (is_some (extract_meridiem_label p)))
      as [ (h' & mi' & E' & _ & Rmi) | (msg & E') ]; rewrite E' in Hp; [ | discriminate ].
    injection Hp as <- <-.
    apply raises_only_bind; [ now apply W, assemble_datetime_raises | intros s _ ].
    apply raises_only_bind; [ apply datetime_add_overflows | intros e _; apply raises_only_Ok ].
  - unfold time_range_of, time_range_with.
    match goal with
    | |- raises_only _ (bind (parse_time_fragment ?f ?dm ?pr) _) =>
        destruct (parse_time_fragment_outcome f dm pr)
          as [ (h & mi & E1 & _ & Rmi) | (msg & E1) ]; rewrite E1; cbn [bind];
        [ | apply raises_only_Raise; left; apply ValueError_is ]
    end.
    match goal with
    | |- raises_only _ (bind (parse_time_fragment ?f ?dm ?pr) _) =>
        destruct (parse_time_fragment_outcome f dm pr)
          as [ (h' & mi' & E2 & _ & Rmi') | (msg & E2) ]; rewrite E2; cbn [bind];
        [ | apply raises_only_Raise; left; apply ValueError_is ]
    end.
    apply raises_only_bind; [ now apply W, assemble_datetime_raises | intros s _ ].
    apply raises_only_bind; [ now apply W, assemble_datetime_raises | intros e0 _ ].
    apply raises_only_bind; [ | intros e _; apply raises_only_Ok ].
    destruct (datetime_le e0 s); [ apply datetime_add_overflows | apply raises_only_Ok ].
Qed.

Lemma parse_time_components_raises (time_range : str) (d : date) :
  1 <= toordinal d < MAXORDINAL ->
  raises_only is_ValueError (parse_time_components time_range d).
Proof.
  intros Hd.
  destruct (parse_time_components_cases time_range d)
    as [ (_ & E) | (_ & [ (p & _ & E) | [ (_ & E) | (a & b & more & _ & E) ] ]) ];
    rewrite E; try (apply raises_only_Raise, ValueError_is).
  - now apply single_time_raises.
  - now apply time_range_of_raises.
Qed.

(** Where the start and the end of a parsed range lie. *)
Lemma parse_time_components_days (time_range : str) (d : date) (s e : datetime) :
  parse_time_components time_range d = Ok (s, e) ->
  dt_date s = d
  /\ (toordinal (dt_date e) = toordinal d \/ toordinal (dt_date e) = toordinal d + 1)
  /\ 0 < datetime_sub e s <= timedelta_days 1.
Proof.
  intros H.
  destruct (parse_time_components_cases time_range d)
    as [ (_ & E) | (_ & [ (p & _ & E) | [ (_ & E) | (a & b & more & _ & E) ] ]) ];
    rewrite E in H; try discriminate.
  - apply single_time_Ok in H as (h & mi & _ & Hs & He).
    pose proof (datetime_add_sub _ _ _ He) as Hsub.
    apply assemble_datetime_clock in Hs as (Ds & Hh & Hm & Hsec).
    split; [ exact Ds | ]. split.
    + rewrite <- Ds. eapply datetime_add_small; try eassumption.
      unfold DEFAULT_SINGLE_EVENT_DURATION, timedelta_hours. lia.
    + rewrite Hsub. unfold DEFAULT_SINGLE_EVENT_DURATION, timedelta_hours, timedelta_days.
      lia.
  - apply time_range_of_Ok in H as (sh & sm & eh & em & e0 & _ & _ & Hs & He0 & He).
    pose proof (assembled_same_day _ _ _ _ _ _ _ Hs He0) as Hday.
    pose proof (assembled_same_day _ _ _ _ _ _ _ He0 Hs) as Hday'.
    apply assemble_datetime_clock in Hs as (Ds & _).
    apply assemble_datetime_clock in He0 as (De & Hh & Hm & Hsec).
    split; [ exact Ds | ]. unfold datetime_le in He.
    destruct (wall_seconds e0 <=? wall_seconds s) eqn:Hle.
    + apply Z.leb_le in Hle. split.
      * rewrite <- De. eapply datetime_add_small; try eassumption.
        unfold timedelta_days. lia.
      * apply wall_seconds_add in He. unfold datetime_sub, timedelta_days in *. lia.
    + apply Z.leb_gt in Hle. subst e. split; [ left; congruence | ].
      unfold datetime_sub, timedelta_days. lia.
Qed.
End TimeErrors.

Lemma check_date_fields_valid (y m d : Z) (dd : date) :
  check_date_fields y m d = Ok dd ->
  valid_date dd /\ year dd = y /\ month dd = m /\ day dd = d.
Proof.
  unfold check_date_fields.
  match goal with |- (if ?c then _ else _) = _ -> _ => destruct c eqn:Hy end;
    [ discriminate | ].
  match goal with |- (if ?c then _ else _) = _ -> _ => destruct c eqn:Hm end;
    [ discriminate | ].
  match goal with |- (if ?c then _ else _) = _ -> _ => destruct c eqn:Hd end;
    [ discriminate | ].
  intros [= <-]. unfold valid_date. cbn [year month day].
  apply negb_false_iff, andb_true_iff in Hy, Hm, Hd.
  rewrite !Z.leb_le in Hy, Hm, Hd. unfold MINYEAR, MAXYEAR in Hy. tauto.
Qed.

Lemma check_date_fields_raises (y m d : Z) :
  raises_only is_ValueError (check_date_fields y m d).
Proof.
  unfold check_date_fields.
  repeat match goal with
         | |- raises_only _ (if ?c then _ else _) => destruct c
         end;
    first [ apply raises_only_Ok | apply raises_only_Raise, ValueError_is ].
Qed.

Lemma days_before_year_step (y : Z) :
  days_before_year (y + 1) = days_before_year y + 365 + (if is_leap y then 1 else 0).
Proof.
  unfold days_before_year, is_leap.
  replace (y + 1 - 1) with y by lia.
  destruct (y mod 4 =? 0) eqn:E4; [ apply Z.eqb_eq in E4 | apply Z.eqb_neq in E4 ];
    destruct (y mod 100 =? 0) eqn:E100;
    [ apply Z.eqb_eq in E100 | apply Z.eqb_neq in E100
    | apply Z.eqb_eq in E100 | apply Z.eqb_neq in E100 ];
    destruct (y mod 400 =? 0) eqn:E400;
    [ apply Z.eqb_eq in E400 | apply Z.eqb_neq in E400
    | apply Z.eqb_eq in E400 | apply Z.eqb_neq in E400
    | apply Z.eqb_eq in E400 | apply Z.eqb_neq in E400
    | apply Z.eqb_eq in E400 | apply Z.eqb_neq in E400 ];
    cbn [negb andb orb]; Z.div_mod_to_equations; lia.
Qed.

(** Replaces an entry of the table of the months by its value. *)
Ltac table_value :=
  match goal with
  | |- context [DAYS_BEFORE_MONTH ?k] =>
      let v := eval vm_compute in (DAYS_BEFORE_MONTH k) in
      change (DAYS_BEFORE_MONTH k) with v
  end;
  repeat match goal with
         | |- context [Z.eqb ?a ?b] =>
             let v := eval vm_compute in (Z.eqb a b) in change (Z.eqb a b) with v
         | |- context [Z.ltb ?a ?b] =>
             let v := eval vm_compute in (Z.ltb a b) in change (Z.ltb a b) with v
         end.

(** The days of a year before a date and the date's own day stay within
    the year. *)
Lemma day_of_year_range (y m d : Z) :
  1 <= m <= 12 -> 1 <= d <= days_in_month y m ->
  1 <= days_before_month y m + d <= 365 + (if is_leap y then 1 else 0).
Proof.
  intros Hm. unfold days_before_month, days_in_month.
  assert (C : m = 1 \/ m = 2 \/ m = 3 \/ m = 4 \/ m = 5 \/ m = 6 \/ m = 7 \/ m = 8
              \/ m = 9 \/ m = 10 \/ m = 11 \/ m = 12) by lia.
  destruct (is_leap y);
    repeat (destruct C as [ -> | C ]; [ table_value; cbn [andb orb]; lia | ]);
    subst m; table_value; cbn [andb orb]; lia.
Qed.

(** The ordinal of a date of the calendar. *)
Lemma valid_date_ordinal (d : date) :
  valid_date d -> 1 <= toordinal d <= MAXORDINAL.
Proof.
  intros (Hy & Hm & Hd). unfold toordinal, ymd2ord.
  pose proof (day_of_year_range (year d) (month d) (day d) Hm Hd) as Hday.
  pose proof (days_before_year_step (year d)) as Hstep.
  assert (H0 : 0 <= days_before_year (year d))
    by (unfold days_before_year; Z.div_mod_to_equations; lia).
  assert (H1 : days_before_year (year d + 1) <= MAXORDINAL)
    by (unfold days_before_year, MAXORDINAL; Z.div_mod_to_equations; lia).
  lia.
Qed.

Section DateErrors.
Context {rt : Runtime}.

Lemma field_raises (name : string) (gs : list (string * str)) (default : Z)
  (convert : str -> result Z) :
  (forall v, raises_only is_ValueError (convert v)) ->
  raises_only is_ValueError (field name gs default convert).
Proof.
  intros H. unfold field. destruct (group name gs); [ apply H | apply raises_only_Ok ].
Qed.

Lemma index_result_raises (x : str) (xs : list str) :
  raises_only is_ValueError (index_result x xs).
Proof.
  unfold index_result. destruct (index_of x xs);
    [ apply raises_only_Ok | apply raises_only_Raise, ValueError_is ].
Qed.

(** [strptime] fails with [ValueError] only. *)
Lemma strptime_raises (data fmt : str) :
  raises_only is_ValueError (strptime data fmt).
Proof.
  unfold strptime.
  destruct (format_regex fmt false); [ | apply raises_only_Raise, ValueError_is ].
  destruct (re_match _ data); [ | apply raises_only_Raise, ValueError_is ].
  destruct (negb _); [ apply raises_only_Raise, ValueError_is | ].
  cbv zeta.
  apply raises_only_bind; [ | intros y2 _ ].
  { apply field_raises. intros v. unfold two_digit_year.
    apply raises_only_bind; [ apply py_int_raises_ValueError | intros; apply raises_only_Ok ]. }
  apply raises_only_bind; [ apply field_raises, py_int_raises_ValueError | intros y _ ].
  apply raises_only_bind; [ apply field_raises, py_int_raises_ValueError | intros m1 _ ].
  apply raises_only_bind; [ apply field_raises; intros v; apply index_result_raises | intros m2 _ ].
  apply raises_only_bind; [ apply field_raises; intros v; apply index_result_raises | intros mo _ ].
  apply raises_only_bind; [ apply field_raises, py_int_raises_ValueError | intros d _ ].
  apply raises_only_bind; [ apply check_date_fields_raises | intros dd _ ].
  apply raises_only_Ok.
Qed.

(** [strptime] returns midnight of a date of the calendar. *)
Lemma strptime_valid (data fmt : str) (parsed : datetime) :
  strptime data fmt = Ok parsed -> valid_date (dt_date parsed).
Proof.
  unfold strptime.
  destruct (format_regex fmt false); [ | discriminate ].
  destruct (re_match _ data); [ | discriminate ].
  head_if; [ discriminate | ].
  intros H. do 7 bind_inv H. injection H as <-. simpl.
  eapply check_date_fields_valid. eassumption.
Qed.

Lemma c_int_small (v : Z) : - INT_MAX - 1 <= v <= INT_MAX -> c_int v = Ok v.
Proof.
  intros Hv. unfold c_int.
  replace ((v <=? INT_MAX) && (- INT_MAX - 1 <=? v)) with true; [ reflexivity | ].
  symmetry. apply andb_true_iff. rewrite !Z.leb_le. lia.
Qed.

Lemma replace_year_raises (dt : datetime) (y : Z) :
  1 <= y <= 9999 -> raises_only is_ValueError (replace_year dt y).
Proof.
  intros Hy. unfold replace_year.
  rewrite c_int_small by (unfold INT_MAX; lia). cbn [bind].
  apply raises_only_bind; [ apply check_date_fields_raises | intros; apply raises_only_Ok ].
Qed.

Lemma replace_year_valid (dt dt' : datetime) (y : Z) :
  replace_year dt y = Ok dt' -> valid_date (dt_date dt').
Proof.
  unfold replace_year. intros H. do 2 bind_inv H. injection H as <-. simpl.
  eapply check_date_fields_valid. eassumption.
Qed.

(** The loop over the candidates lets no exception through, so what it
    raises is what the code after it raises. *)
Lemma parse_candidates_raises (allowed : exn -> Prop) (candidates : list str)
  (current_year : Z) (otherwise : result date) :
  1 <= current_year <= 9999 ->
  raises_only allowed otherwise ->
  raises_only allowed (parse_candidates candidates current_year otherwise).
Proof.
  intros Hy Ho. induction candidates as [ | candidate candidates IH ];
    cbn [parse_candidates]; [ exact Ho | ].
  apply raises_only_first_format.
  { intros fmt e H. left. apply bind_Raise in H as [ H | (a & _ & H) ];
      [ now apply strptime_raises in H | discriminate ]. }
  apply raises_only_first_format.
  { intros fmt e H. left. apply bind_Raise in H as [ H | (a & _ & H) ];
      [ now apply strptime_raises in H | ].
    apply bind_Raise in H as [ H | (a' & _ & H) ];
      [ now apply replace_year_raises in H | discriminate ]. }
  apply raises_only_first_format; [ | exact IH ].
  intros fmt e H. left. apply bind_Raise in H as [ H | (a & _ & H) ];
    [ now apply strptime_raises in H | ].
  apply bind_Raise in H as [ H | (a' & _ & H) ]; [ | discriminate ].
  destruct (_ && _); [ now apply replace_year_raises in H | discriminate ].
Qed.

Lemma parse_candidates_valid (candidates : list str) (current_year : Z)
  (otherwise : result date) (d : date) :
  (otherwise = Ok d -> valid_date d) ->
  parse_candidates candidates current_year otherwise = Ok d -> valid_date d.
Proof.
  intros Ho. induction candidates as [ | candidate candidates IH ];
    cbn [parse_candidates]; [ exact Ho | ].
  intros H.
  apply first_format_Ok in H as [ (fmt & _ & H) | H ].
  { bind_inv H. injection H as <-. eapply strptime_valid; eassumption. }
  apply first_format_Ok in H as [ (fmt & _ & H) | H ].
  { do 2 bind_inv H. injection H as <-. eapply replace_year_valid; eassumption. }
  apply first_format_Ok in H as [ (fmt & _ & H) | H ]; [ | exact (IH H) ].
  do 2 bind_inv H. injection H as <-.
  destruct (_ && _); [ eapply replace_year_valid; eassumption | ].
  injection Ha0 as <-. eapply strptime_valid; eassumption.
Qed.

Lemma parse_date_unfold (date_text : str) (current_month_name : option str)
  (current_year : Z) :
  parse_date date_text current_month_name current_year
  = let cleaned := cleaned_date_text date_text in
    if is_empty cleaned then Raise (ValueError (py "Date text is empty"))
    else
      parse_candidates
        (match current_month_name with
         | Some month_text =>
             if truthy current_month_name
                && negb (contains (lower month_text) (lower cleaned))
             then [month_text ++ py " " ++ cleaned; cleaned]
             else [cleaned]
         | None => [cleaned]
         end) current_year
        (match current_month_name with
         | Some month_text =>
             if str_isdigit cleaned && truthy current_month_name
             then
               month_dt <- strptime month_text (py "%B") ;;
               d <- py_int cleaned ;;
               dt <- datetime_new current_year (month (dt_date month_dt)) d ;;
               Ok (dt_date dt)
             else Raise (ValueError (py "Unable to parse date '" ++ date_text ++ py "'"))
         | None => Raise (ValueError (py "Unable to parse date '" ++ date_text ++ py "'"))
         end).
Proof. reflexivity. Qed.

(** [parse_date] returns dates of the calendar only. *)
Lemma parse_date_valid (date_text : str) (current_month_name : option str)
  (current_year : Z) (d : date) :
  parse_date date_text current_month_name current_year = Ok d -> valid_date d.
Proof.
  rewrite parse_date_unfold. cbv zeta.
  destruct (is_empty _); [ discriminate | ].
  apply parse_candidates_valid.
  destruct current_month_name as [ month_text | ]; [ | discriminate ].
  destruct (_ && _); [ | discriminate ].
  intros H. do 3 bind_inv H. injection H as <-.
  unfold datetime_new in Ha1. do 4 bind_inv Ha1. injection Ha1 as <-. simpl.
  eapply check_date_fields_valid. eassumption.
Qed.

(** When [parse_date] fails, it is with a [ValueError], or with an
    [OverflowError] for a text that is, once cleaned, a number greater than
    a C int, read under a known month. *)
Lemma parse_date_raises (date_text : str) (current_month_name : option str)
  (current_year : Z) :
  1 <= current_year <= 9999 ->
  raises_only
    (fun e => is_ValueError e
              \/ (e = OverflowError
                  /\ truthy current_month_name = true
                  /\ str_isdigit (cleaned_date_text date_text) = true
                  /\ exists n, py_int (cleaned_date_text date_text) = Ok n
                               /\ INT_MAX < n))
    (parse_date date_text current_month_name current_year).
Proof.
  intros Hy. rewrite parse_date_unfold. cbv zeta.
  destruct (is_empty _); [ apply raises_only_Raise; left; apply ValueError_is | ].
  apply parse_candidates_raises; [ exact Hy | ].
  destruct current_month_name as [ month_text | ];
    [ | apply raises_only_Raise; left; apply ValueError_is ].
  destruct (str_isdigit _ && truthy _) eqn:Hcond;
    [ | apply raises_only_Raise; left; apply ValueError_is ].
  apply andb_true_iff in Hcond as (Hdigit & Htruthy).
  intros e H.
  apply bind_Raise in H as [ H | (month_dt & Hmonth & H) ];
    [ left; now apply strptime_raises in H | ].
  apply bind_Raise in H as [ H | (n & Hn & H) ];
    [ left; now apply py_int_raises_ValueError in H | ].
  apply bind_Raise in H as [ H | (dt & _ & H) ]; [ | discriminate ].
  apply strptime_valid in Hmonth as (_ & Hm & _).
  pose proof (py_int_Ok _ _ Hn) as (_ & _ & Hpos).
  unfold datetime_new in H.
  rewrite c_int_small in H by (unfold INT_MAX; lia). cbn [bind] in H.
  rewrite c_int_small in H by (unfold INT_MAX; lia). cbn [bind] in H.
  destruct (Z_le_gt_dec n INT_MAX) as [ Hsmall | Hbig ].
  - rewrite c_int_small in H by (unfold INT_MAX in *; lia). cbn [bind] in H.
    left. apply bind_Raise in H as [ H | (dd & _ & H) ]; [ | discriminate ].
    now apply check_date_fields_raises in H.
  - right. unfold c_int in H.
    replace ((n <=? INT_MAX) && (- INT_MAX - 1 <=? n)) with false in H
      by (symmetry; apply andb_false_iff; left; apply Z.leb_gt; lia).
    cbn [bind] in H. injection H as <-.
    repeat split; try assumption. exists n. split; [ exact Hn | lia ].
Qed.
End DateErrors.

Section Headings.
Context {rt : Runtime}.

(** A year token always converts. *)
Lemma int_group_year_token (sanitized : str) (year_match : match_) :
  search YEAR_PATTERN sanitized = Some year_match ->
  exists y, int_group "1" year_match = Ok y.
Proof.
  intros Hs. apply search_from_Some in Hs as (prev & i & s & Hs).
  apply match_here_YEAR_PATTERN in Hs as (a & b & Hg & Ha & Hb).
  unfold int_group. rewrite Hg.
  destruct (latin_digits (ch "2")) as (Hd2 & _); [ vm_compute; split; discriminate | ].
  destruct (latin_digits (ch "0")) as (Hd0 & _); [ vm_compute; split; discriminate | ].
  unfold py_int, strip.
  rewrite strip_by_kept
    by (repeat constructor; apply decimal_not_space; assumption).
  cbn [is_empty negb forallb andb]. rewrite Hd2, Hd0, Ha, Hb. cbn [andb].
  change (List.length [ch "2"; ch "0"; a; b] <=? 4300)%nat with true.
  eauto.
Qed.

Lemma year_or_returns (sanitized : str) (fallback_year : Z) :
  exists y, year_or sanitized fallback_year = Ok y.
Proof.
  unfold year_or. destruct (search YEAR_PATTERN sanitized) eqn:Hs; [ | eauto ].
  eapply int_group_year_token. eassumption.
Qed.

Lemma named_month_raises (token_clean sanitized : str) (fallback_year : Z)
  (fmt : string) (e : exn) :
  (parsed <- strptime token_clean (py fmt) ;;
   y <- year_or sanitized fallback_year ;;
   Ok (Some (strftime_B parsed), y)) = Raise e ->
  is_ValueError e \/ no_exception e.
Proof.
  intros H. left. apply bind_Raise in H as [ H | (parsed & _ & H) ];
    [ now apply strptime_raises in H | ].
  destruct (year_or_returns sanitized fallback_year) as (y & Hy).
  rewrite Hy in H. discriminate.
Qed.

Lemma month_of_tokens_raises (sanitized : str) (fallback_year : Z)
  (tokens : list str) (otherwise : result (option str * Z)) :
  raises_only no_exception otherwise ->
  raises_only no_exception (month_of_tokens sanitized fallback_year tokens otherwise).
Proof.
  intros Ho. induction tokens as [ | token tokens IH ]; cbn [month_of_tokens];
    [ exact Ho | ].
  cbv zeta. destruct (is_empty _); [ exact IH | ].
  apply raises_only_except; [ intros e; apply named_month_raises | intros _ ].
  apply raises_only_except; [ intros e; apply named_month_raises | intros _ ].
  exact IH.
Qed.

(** [extract_month_and_year] raises nothing. *)
Lemma extract_month_and_year_raises (text : str) (fallback_year : Z) :
  raises_only no_exception (extract_month_and_year text fallback_year).
Proof.
  unfold extract_month_and_year. cbv zeta.
  destruct (is_empty _); [ apply raises_only_Ok | ].
  apply raises_only_first_format.
  { intros fmt e H. left. apply bind_Raise in H as [ H | (a & _ & H) ];
      [ now apply strptime_raises in H | discriminate ]. }
  apply month_of_tokens_raises.
  destruct (search YEAR_PATTERN _) as [ ym | ] eqn:Hs; [ | apply raises_only_Ok ].
  destruct (int_group_year_token _ _ Hs) as (y & ->). apply raises_only_Ok.
Qed.

Lemma extract_month_and_year_returns (text : str) (fallback_year : Z) :
  exists m y, extract_month_and_year text fallback_year = Ok (m, y).
Proof.
  destruct (extract_month_and_year text fallback_year) as [ [m y] | e ] eqn:E;
    [ eauto | ].
  destruct (extract_month_and_year_raises text fallback_year e E).
Qed.

Lemma strftime_B_name (parsed : datetime) :
  valid_date (dt_date parsed) -> In (strftime_B parsed) month_name.
Proof.
  intros (_ & Hm & _). unfold strftime_B. apply nth_In.
  change (List.length month_name) with 12%nat. lia.
Qed.

Lemma month_of_tokens_month (sanitized : str) (fallback_year : Z)
  (tokens : list str) (otherwise : result (option str * Z)) (m : option str) (y : Z) :
  (forall m' y', otherwise = Ok (m', y') -> month_or_none m') ->
  month_of_tokens sanitized fallback_year tokens otherwise = Ok (m, y) ->
  month_or_none m.
Proof.
  intros Ho. induction tokens as [ | token tokens IH ]; cbn [month_of_tokens];
    [ apply Ho | ].
  cbv zeta. destruct (is_empty _); [ exact IH | ].
  intros H.
  apply except_ValueError_Ok in H as [ H | (msg & H) ];
    [ | apply except_ValueError_Ok in H as [ H | (msg' & H) ] ];
    try (now apply IH);
    bind_inv H; bind_inv H; injection H as <- _;
    apply strftime_B_name; eapply strptime_valid; eassumption.
Qed.

(** The month [extract_month_and_year] returns is [None] or a month name. *)
Lemma extract_month_and_year_month (text : str) (fallback_year : Z)
  (m : option str) (y : Z) :
  extract_month_and_year text fallback_year = Ok (m, y) -> month_or_none m.
Proof.
  unfold extract_month_and_year. cbv zeta.
  destruct (is_empty _); [ intros [= <- _]; exact I | ].
  intros H. apply first_format_Ok in H as [ (fmt & _ & H) | H ].
  - bind_inv H. injection H as <- _.
    apply strftime_B_name. eapply strptime_valid. eassumption.
  - eapply month_of_tokens_month; [ | exact H ].
    intros m' y'. destruct (search YEAR_PATTERN _); [ | intros [= <- _]; exact I ].
    intros H'. bind_inv H'. injection H' as <- _. exact I.
Qed.

Lemma one_of_In (cs : str) (c : char) : one_of cs c = true <-> In c cs.
Proof.
  unfold one_of. rewrite existsb_exists. split.
  - intros (x & Hx & E). apply N.eqb_eq in E. subst. exact Hx.
  - intros H. exists c. split; [ exact H | apply N.eqb_refl ].
Qed.

(** A text of spaces and of characters that are replaced by a blank is
    stripped to nothing. *)
Lemma strip_sub_blank (cs : str) (text : str) :
  isspace (ch " ") = true ->
  Forall (fun c => isspace c = true \/ In c cs) text ->
  strip (sub (Class (one_of cs)) (py " ") text) = [].
Proof.
  intros Hblank Htext. unfold strip. apply strip_by_dropped.
  rewrite sub_Class. induction Htext as [ | x s Hx _ IH ]; [ constructor | ].
  cbn [flat_map]. apply Forall_app. split; [ | exact IH ].
  destruct (one_of cs x) eqn:E.
  - repeat constructor. exact Hblank.
  - repeat constructor. destruct Hx as [ Hx | Hx ]; [ exact Hx | ].
    apply one_of_In in Hx. congruence.
Qed.
End Headings.

Lemma foldM_raises (allowed : exn -> Prop) {S A} (step : S -> A -> result S)
  (xs : list A) :
  (forall s x, raises_only allowed (step s x)) ->
  forall s, raises_only allowed (foldM step s xs).
Proof.
  intros Hstep. induction xs as [ | x xs IH ]; intros s; simpl;
    [ apply raises_only_Ok | ].
  apply raises_only_bind; [ apply Hstep | intros s' _; apply IH ].
Qed.

Lemma attempt_raises (allowed : exn -> Prop) {A} (body : result A) :
  (forall e, body = Raise e -> is_ValueError e \/ allowed e) ->
  raises_only allowed (attempt body).
Proof.
  intros Hb e. destruct body as [ a | [ msg | | | msg ] ]; simpl; try discriminate;
    intros [= <-];
    (destruct (Hb _ eq_refl) as [ (m & Hm) | Ha ]; [ discriminate | exact Ha ]).
Qed.

Section RowLoop.
Context {rt : Runtime}.

Lemma c_int_overflows (v : Z) : raises_only ValueError_or_OverflowError (c_int v).
Proof.
  unfold c_int. destruct (_ && _);
    [ apply raises_only_Ok | apply raises_only_Raise; right; reflexivity ].
Qed.

Lemma value_errors_allowed {A} (r : result A) :
  raises_only is_ValueError r -> raises_only ValueError_or_OverflowError r.
Proof. apply raises_only_weaken. intros e He. left. exact He. Qed.

Lemma replace_year_overflows (dt : datetime) (y : Z) :
  raises_only ValueError_or_OverflowError (replace_year dt y).
Proof.
  unfold replace_year.
  apply raises_only_bind; [ apply c_int_overflows | intros y' _ ].
  apply raises_only_bind;
    [ apply value_errors_allowed, check_date_fields_raises | intros; apply raises_only_Ok ].
Qed.

Lemma strptime_then_raises {A} (data fmt : str) (k : datetime -> result A) (e : exn) :
  (forall parsed, raises_only ValueError_or_OverflowError (k parsed)) ->
  (parsed <- strptime data fmt ;; k parsed) = Raise e ->
  is_ValueError e \/ ValueError_or_OverflowError e.
Proof.
  intros Hk H. apply bind_Raise in H as [ H | (parsed & _ & H) ].
  - left. now apply strptime_raises in H.
  - right. now apply (Hk parsed).
Qed.

(** Whatever the year of the tracker, [parse_date] fails with [ValueError]
    or [OverflowError] only. *)
Lemma parse_date_overflows (date_text : str) (current_month_name : option str)
  (current_year : Z) :
  raises_only ValueError_or_OverflowError
    (parse_date date_text current_month_name current_year).
Proof.
  rewrite parse_date_unfold. cbv zeta.
  destruct (is_empty _); [ apply raises_only_Raise; left; apply ValueError_is | ].
  match goal with
  | |- raises_only _ (parse_candidates ?cs _ ?o) => generalize cs; set (otherwise := o)
  end.
  assert (Ho : raises_only ValueError_or_OverflowError otherwise).
  { subst otherwise.
    destruct current_month_name as [ month_text | ];
      [ | apply raises_only_Raise; left; apply ValueError_is ].
    destruct (_ && _); [ | apply raises_only_Raise; left; apply ValueError_is ].
    apply raises_only_bind; [ apply value_errors_allowed, strptime_raises | intros md _ ].
    apply raises_only_bind;
      [ apply value_errors_allowed, py_int_raises_ValueError | intros n _ ].
    apply raises_only_bind; [ | intros; apply raises_only_Ok ].
    unfold datetime_new.
    apply raises_only_bind; [ apply c_int_overflows | intros y' _ ].
    apply raises_only_bind; [ apply c_int_overflows | intros m' _ ].
    apply raises_only_bind; [ apply c_int_overflows | intros d' _ ].
    apply raises_only_bind;
      [ apply value_errors_allowed, check_date_fields_raises
      | intros; apply raises_only_Ok ]. }
  clearbody otherwise. intros candidates.
  induction candidates as [ | candidate candidates IH ]; cbn [parse_candidates];
    [ exact Ho | ].
  apply raises_only_first_format.
  { intros fmt e. apply strptime_then_raises. intros; apply raises_only_Ok. }
  apply raises_only_first_format.
  { intros fmt e. apply strptime_then_raises. intros parsed.
    apply raises_only_bind; [ apply replace_year_overflows | intros; apply raises_only_Ok ]. }
  apply raises_only_first_format; [ | exact IH ].
  intros fmt e. apply strptime_then_raises. intros parsed.
  apply raises_only_bind; [ | intros; apply raises_only_Ok ].
  destruct (_ && _); [ apply replace_year_overflows | apply raises_only_Ok ].
Qed.

Lemma heading_text_raises (st : loop_state) (text : str) :
  raises_only no_exception (heading_text st text).
Proof.
  unfold heading_text.
  apply raises_only_bind; [ apply extract_month_and_year_raises | intros [m y] _ ].
  apply raises_only_Ok.
Qed.

(** A turn of the loop can only end the run with an [OverflowError]. *)
Lemma process_row_raises (st : loop_state) (r : row) :
  raises_only is_OverflowError (process_row st r).
Proof.
  assert (W : forall A (x : result A) e,
             raises_only ValueError_or_OverflowError x -> x = Raise e ->
             is_ValueError e \/ is_OverflowError e).
  { intros A x e Hx H. exact (Hx e H). }
  unfold process_row.
  destruct (is_nil (cells r)); [ apply raises_only_Ok | ].
  destruct (_ && _).
  { apply (raises_only_weaken no_exception); [ intros e [] | ].
    apply foldM_raises. apply heading_text_raises. }
  cbv zeta.
  match goal with |- raises_only _ (if ?c then _ else _) => destruct c end;
    [ apply raises_only_Ok | ].
  match goal with |- raises_only _ (if ?c then _ else _) => destruct c end;
    [ apply raises_only_Ok | ].
  apply raises_only_bind.
  { apply attempt_raises. intros e. apply W, parse_date_overflows. }
  intros [ event_date | exc ] _; [ | apply raises_only_Ok ].
  match goal with |- raises_only _ (if ?c then _ else _) => destruct c end;
    [ apply raises_only_Ok | ].
  apply raises_only_bind.
  { apply attempt_raises. intros e. apply W, parse_time_components_overflows. }
  intros [ [s e] | exc ] _; apply raises_only_Ok.
Qed.

(** The fields of the event a data row adds. *)
Lemma process_row_event (st st' : loop_state) (r : row) (ev : event) :
  process_row st r = Ok st' -> cal_events st' = cal_events st ++ [ev] ->
  name ev <> [] /\ location ev <> Some [] /\ url ev <> Some [].
Proof.
  intros H Hev. revert H. unfold process_row.
  assert (Same : forall s, cal_events s = cal_events st -> Ok s = Ok st' ->
                           name ev <> [] /\ location ev <> Some [] /\ url ev <> Some []).
  { intros s Hs [= <-]. rewrite Hs in Hev.
    apply (f_equal (@List.length event)) in Hev. rewrite length_app in Hev.
    simpl in Hev. lia. }
  destruct (is_nil (cells r)); [ apply Same; reflexivity | ].
  destruct (_ && _).
  { intros H. apply heading_texts_keep_events in H as (E & _).
    apply (Same st'); [ exact E | reflexivity ]. }
  cbv zeta.
  head_if; [ apply Same; reflexivity | ].
  head_if; [ apply Same; reflexivity | ].
  intros H. bind_inv H.
  destruct a as [ event_date | exc ]; [ | revert H; apply Same; reflexivity ].
  revert H. head_if; [ apply Same; reflexivity | ].
  intros H. bind_inv H.
  destruct a as [ [s e] | exc ]; [ | revert H; apply Same; reflexivity ].
  injection H as <-. cbn [add_event cal_events] in Hev.
  apply app_inv_head in Hev. injection Hev as <-.
  cbn [name location url].
  repeat split.
  - match goal with |- (if is_empty ?t then _ else _) <> _ => destruct t end;
      discriminate.
  - match goal with |- (if negb (is_empty ?v) then _ else _) <> _ =>
      destruct v end; discriminate.
  - match goal with |- (if negb (is_empty ?v) then _ else _) <> _ =>
      destruct v end; discriminate.
Qed.
End RowLoop.

(* ================================================================== *)
(** ** Further properties of the time parser *)

(** X1: the guard [len(parts) < 2] of [parse_time_components] never fires:
    a text that survives the test for an empty range has a part, so no
    text and no date give the error "Unexpected time range". *)
Theorem unexpected_range_is_never_raised (rt : Runtime) (time_range text : str)
  (d : date) :
  parse_time_components time_range d
  <> Raise (ValueError (py "Unexpected time range: " ++ text)).
Proof.
  intros H.
  destruct (parse_time_components_cases time_range d)
    as [ (_ & E) | (Hne & [ (p & _ & E) | [ (Hp & _) | (a & b & more & _ & E) ] ]) ].
  - rewrite E in H. injection H as H. vm_compute in H. discriminate.
  - rewrite E in H. apply single_time_avoids_U in H. apply H. reflexivity.
  - exact (range_parts_not_nil time_range Hne Hp).
  - rewrite E in H. apply time_range_of_avoids_U in H. apply H. reflexivity.
Qed.

(** X2: a parsed range starts on the event date and ends on the event date
    or on the day after it; it lasts more than nothing and at most one
    day. *)
Theorem range_stays_within_a_day (rt : Runtime) (time_range : str) (d : date)
  (s e : datetime) :
  parse_time_components time_range d = Ok (s, e) ->
  dt_date s = d
  /\ (toordinal (dt_date e) = toordinal d \/ toordinal (dt_date e) = toordinal d + 1)
  /\ 0 < datetime_sub e s <= timedelta_days 1.
Proof. apply parse_time_components_days. Qed.

Lemma range_stays_within_a_day_witness :
  parse_time_components (py "9pm - 9pm") may_day
  = Ok (berlin 2024 5 1 21 0, berlin 2024 5 2 21 0)
  /\ datetime_sub (berlin 2024 5 2 21 0) (berlin 2024 5 1 21 0) = timedelta_days 1.
Proof.
  assert (H : parse_time_components (py "9pm - 9pm") may_day
              = Ok (berlin 2024 5 1 21 0, berlin 2024 5 2 21 0))
    by (vm_compute; reflexivity).
  split; [ exact H | ].
  pose proof (range_stays_within_a_day basic_latin _ _ _ _ H) as (_ & _ & Hd).
  vm_compute. reflexivity.
Defined.

(** X3: on a date of the calendar other than its last day, 9999-12-31,
    [parse_time_components] fails with a [ValueError] only, the exception
    the row loop handles. *)
Theorem time_parser_raises_ValueError (rt : Runtime) (time_range : str) (d : date)
  (e : exn) :
  valid_date d -> toordinal d <> MAXORDINAL ->
  parse_time_components time_range d = Raise e ->
  exists msg, e = ValueError msg.
Proof.
  intros Hd Hlast H. apply valid_date_ordinal in Hd.
  apply (parse_time_components_raises time_range d); [ lia | exact H ].
Qed.

Lemma time_parser_raises_ValueError_witness :
  exists msg, parse_time_components (py "10:75") may_day = Raise (ValueError msg).
Proof.
  destruct (parse_time_components (py "10:75") may_day) as [ p | e ] eqn:E;
    [ vm_compute in E; discriminate | ].
  destruct (time_parser_raises_ValueError basic_latin (py "10:75") may_day e)
    as (msg & ->).
  - unfold valid_date. vm_compute. repeat split; discriminate.
  - vm_compute. discriminate.
  - exact E.
  - exists msg. reflexivity.
Defined.

(** X4: [parse_time_fragment] returns an hour from 0 to 35 (the hours above
    23 are the "pm" readings of 12 to 23, which [assemble_datetime] wraps)
    and a minute from 0 to 99, or raises a [ValueError]. *)
Theorem parse_time_fragment_outcomes (rt : Runtime) (fragment : str)
  (default_meridiem : option meridiem) (prefer_12_hour : bool) :
  (exists h mi,
      parse_time_fragment fragment default_meridiem prefer_12_hour = Ok (h, mi)
      /\ 0 <= h <= 35 /\ 0 <= mi <= 99)
  \/ exists msg, parse_time_fragment fragment default_meridiem prefer_12_hour
                 = Raise (ValueError msg).
Proof. apply parse_time_fragment_outcome. Qed.

(* ================================================================== *)
(** ** Further properties of the date parser *)

(** X5: [parse_date] returns dates of the calendar only: the year from 1 to
    9999, the month from 1 to 12, the day within the month, and so the
    ordinal from 1 to that of 9999-12-31. *)
Theorem parse_date_returns_calendar_dates (rt : Runtime) (date_text : str)
  (current_month_name : option str) (current_year : Z) (d : date) :
  parse_date date_text current_month_name current_year = Ok d ->
  valid_date d /\ 1 <= toordinal d <= MAXORDINAL.
Proof.
  intros H. apply parse_date_valid in H. split; [ exact H | ].
  now apply valid_date_ordinal.
Qed.

Lemma parse_date_returns_calendar_dates_witness :
  parse_date (py "29") (Some (py "February")) 2024
  = Ok {| year := 2024; month := 2; day := 29 |}
  /\ valid_date {| year := 2024; month := 2; day := 29 |}.
Proof.
  assert (H : parse_date (py "29") (Some (py "February")) 2024
              = Ok {| year := 2024; month := 2; day := 29 |})
    by (vm_compute; reflexivity).
  split; [ exact H | ].
  exact (proj1 (parse_date_returns_calendar_dates basic_latin _ _ _ _ H)).
Defined.

(** X6: with a year of the calendar in the tracker, a failure of
    [parse_date] is a [ValueError], or an [OverflowError]; the second only
    when a month is known and the cleaned text is a number greater than
    the greatest C int. *)
Theorem parse_date_overflows_on_long_numbers_only (rt : Runtime) (date_text : str)
  (current_month_name : option str) (current_year : Z) (e : exn) :
  1 <= current_year <= 9999 ->
  parse_date date_text current_month_name current_year = Raise e ->
  (exists msg, e = ValueError msg)
  \/ (e = OverflowError
      /\ truthy current_month_name = true
      /\ str_isdigit (cleaned_date_text date_text) = true
      /\ exists n, py_int (cleaned_date_text date_text) = Ok n /\ INT_MAX < n).
Proof.
  intros Hy H. exact (parse_date_raises date_text current_month_name current_year Hy e H).
Qed.

Lemma parse_date_overflows_on_long_numbers_only_witness :
  parse_date (py "99999999999") (Some (py "May")) 2024 = Raise OverflowError
  /\ exists n, py_int (cleaned_date_text (py "99999999999")) = Ok n /\ INT_MAX < n.
Proof.
  assert (H : parse_date (py "99999999999") (Some (py "May")) 2024 = Raise OverflowError)
    by (vm_compute; reflexivity).
  split; [ exact H | ].
  destruct (parse_date_overflows_on_long_numbers_only basic_latin _ _ 2024 _
              ltac:(lia) H) as [ (msg & Hmsg) | (_ & _ & _ & Hn) ];
    [ discriminate | exact Hn ].
Defined.

(** X7: a date text of spaces, no-break spaces and commas is refused with
    the [ValueError] "Date text is empty", whatever the tracker holds. *)
Theorem blank_date_text_is_refused (rt : Runtime) (date_text : str)
  (current_month_name : option str) (current_year : Z) :
  isspace (ch " ") = true ->
  Forall (fun c => isspace c = true \/ In c [NBSP; ch ","]) date_text ->
  parse_date date_text current_month_name current_year
  = Raise (ValueError (py "Date text is empty")).
Proof.
  intros Hblank Htext. rewrite parse_date_unfold. unfold cleaned_date_text. cbv zeta.
  rewrite (strip_sub_blank _ _ Hblank Htext). reflexivity.
Qed.

Lemma blank_date_text_is_refused_witness :
  parse_date (py " , ,  ") (Some (py "May")) 2024
  = Raise (ValueError (py "Date text is empty")).
Proof.
  apply (blank_date_text_is_refused basic_latin).
  - reflexivity.
  - repeat constructor; first [ left; reflexivity | right; simpl; auto ].
Defined.

(* ================================================================== *)
(** ** Further properties of the tracker *)

(** X8: [extract_month_and_year] raises nothing: every heading text gives a
    month, which is [None] or one of the twelve English month names, and a
    year. *)
Theorem extract_month_and_year_always_returns (rt : Runtime) (text : str)
  (fallback_year : Z) :
  exists m y,
    extract_month_and_year text fallback_year = Ok (m, y) /\ month_or_none m.
Proof.
  destruct (extract_month_and_year_returns text fallback_year) as (m & y & H).
  exists m, y. split; [ exact H | ].
  eapply extract_month_and_year_month. exact H.
Qed.

(** X9: a heading text of spaces, dashes, commas and slashes names nothing:
    the month is [None] and the year is the fallback. *)
Theorem blank_heading_keeps_the_fallback (rt : Runtime) (text : str)
  (fallback_year : Z) :
  isspace (ch " ") = true ->
  Forall (fun c => isspace c = true \/ In c [EN_DASH; EM_DASH; ch ","; ch "/"]) text ->
  extract_month_and_year text fallback_year = Ok (None, fallback_year).
Proof.
  intros Hblank Htext. unfold extract_month_and_year. cbv zeta.
  rewrite (strip_sub_blank _ _ Hblank Htext). reflexivity.
Qed.

Lemma blank_heading_keeps_the_fallback_witness :
  extract_month_and_year [ch " "; EN_DASH; ch "/"; ch " "] 2024 = Ok (None, 2024).
Proof.
  apply (blank_heading_keeps_the_fallback basic_latin).
  - reflexivity.
  - repeat constructor; first [ left; reflexivity | right; simpl; auto ].
Defined.

(* ================================================================== *)
(** ** Further properties of the row loop *)

Section Loop.
Context {rt : Runtime}.

Lemma heading_texts_month (texts : list str) (st st' : loop_state) :
  month_or_none (current_month_name st) ->
  foldM heading_text st texts = Ok st' ->
  month_or_none (current_month_name st').
Proof.
  apply (foldM_invariant heading_text (fun s => month_or_none (current_month_name s))).
  intros s text s' _ Hs H.
  apply heading_text_Ok in H as (_ & _ & _ & m & Hextract & ->).
  destruct (truthy m); [ | exact Hs ].
  eapply extract_month_and_year_month. exact Hextract.
Qed.

(** A data row leaves the tracker as it found it. *)
Lemma data_row_keeps_tracker (st st' : loop_state) (r : row) :
  is_heading r = false -> process_row st r = Ok st' ->
  current_month_name st' = current_month_name st
  /\ current_year st' = current_year st.
Proof.
  intros Hh H.
  apply process_row_Ok in H
    as [ (Hh' & _) | (_ & [ -> | [ (reason & ->) | (ev & t & d & sp & v & l & -> & _) ] ]) ];
    [ congruence | split; reflexivity .. ].
Qed.

Lemma process_row_month (st st' : loop_state) (r : row) :
  month_or_none (current_month_name st) ->
  process_row st r = Ok st' ->
  month_or_none (current_month_name st').
Proof.
  intros Hs H. destruct (is_heading r) eqn:Hh.
  - apply process_row_Ok in H as [ (_ & H) | (Hh' & _) ]; [ | congruence ].
    eapply heading_texts_month; eassumption.
  - apply (data_row_keeps_tracker _ _ _ Hh) in H as (-> & _). exact Hs.
Qed.

(** A turn on a data row adds one event, or one skip at most. *)
Lemma process_row_counts (st st' : loop_state) (r : row) :
  process_row st r = Ok st' ->
  (List.length (cal_events st') + List.length (skipped_details st')
   <= List.length (cal_events st) + List.length (skipped_details st)
      + (if is_heading r then 0 else 1))%nat.
Proof.
  intros H.
  apply process_row_Ok in H
    as [ (Hh & H) | (Hh & [ -> | [ (reason & ->) | (ev & t & d & sp & v & l & -> & _) ] ]) ];
    rewrite Hh.
  - apply heading_texts_keep_events in H as (-> & _ & ->). lia.
  - lia.
  - cbn [skip cal_events skipped_details]. rewrite length_app. simpl. lia.
  - cbn [add_event cal_events skipped_details]. rewrite length_app. simpl. lia.
Qed.

Lemma rows_counts (rows : list row) (st st' : loop_state) :
  foldM process_row st rows = Ok st' ->
  (List.length (cal_events st') + List.length (skipped_details st')
   <= List.length (cal_events st) + List.length (skipped_details st)
      + List.length (data_rows rows))%nat.
Proof.
  revert st. induction rows as [ | r rows IH ]; intros st H; simpl in H.
  - injection H as <-. simpl. lia.
  - bind_inv H. apply IH in H. apply process_row_counts in Ha.
    unfold data_rows in *. cbn [filter].
    destruct (is_heading r); cbn [negb List.length] in *; lia.
Qed.

Lemma process_row_well_formed (st st' : loop_state) (r : row) :
  Forall event_well_formed (cal_events st) ->
  process_row st r = Ok st' ->
  Forall event_well_formed (cal_events st').
Proof.
  intros Hall H. pose proof H as H0.
  apply process_row_Ok in H
    as [ (_ & H) | (_ & [ -> | [ (reason & ->) | (ev & t & d & sp & v & l & -> & Hp & _) ] ]) ];
    try exact Hall.
  - apply heading_texts_keep_events in H as (-> & _). exact Hall.
  - cbn [add_event cal_events]. apply Forall_app. split; [ exact Hall | ].
    constructor; [ | constructor ].
    destruct (process_row_event st _ r ev H0 eq_refl) as (Hn & Hl & Hu).
    apply parse_time_components_after in Hp.
    unfold event_well_formed, datetime_lt. repeat split; try assumption.
    apply Z.ltb_lt. exact Hp.
Qed.

(** X10: the month of the tracker is never an arbitrary text: after any
    rows it is [None] or one of the twelve English month names. *)
Theorem tracker_month_is_a_month_name (now_year : Z) (rows : list row)
  (st : loop_state) :
  foldM process_row (initial_state now_year) rows = Ok st ->
  month_or_none (current_month_name st).
Proof.
  apply (foldM_invariant process_row (fun s => month_or_none (current_month_name s)));
    [ | exact I ].
  intros s r s' _. apply process_row_month.
Qed.

(** X11: a row is read for the tracker or for the calendar, not both: a
    heading row leaves the events, their count and the skips as they were;
    any other row leaves the month and the year of the tracker as they
    were. *)
Theorem row_touches_tracker_or_results (st st' : loop_state) (r : row) :
  process_row st r = Ok st' ->
  if is_heading r
  then cal_events st' = cal_events st
       /\ created_events st' = created_events st
       /\ skipped_details st' = skipped_details st
  else current_month_name st' = current_month_name st
       /\ current_year st' = current_year st.
Proof.
  intros H. destruct (is_heading r) eqn:Hh.
  - apply process_row_Ok in H as [ (_ & H) | (Hh' & _) ]; [ | congruence ].
    eapply heading_texts_keep_events. exact H.
  - eapply data_row_keeps_tracker; eassumption.
Qed.

(** X12: the handlers of the row loop (lines 327 to 410) let one kind of
    exception through: whatever the rows and the state the loop starts
    from, the date and time parsing of the rows ends the loop with an
    [OverflowError] or not at all; no [ValueError] and no [TypeError]
    leaves the loop. *)
Theorem row_loop_lets_only_overflow_through (st : loop_state) (rows : list row)
  (e : exn) :
  foldM process_row st rows = Raise e -> e = OverflowError.
Proof.
  intros H.
  exact (foldM_raises is_OverflowError process_row rows process_row_raises _ e H).
Qed.

(** X13: the line that ends a run states the number of events of the
    calendar that is written. *)
Theorem exported_line_counts_the_calendar (now_year : Z)
  (table : option (list row)) (rep : report) :
  main now_year table = Ok rep ->
  exported_line rep
  = py "Exported " ++ str_of_int (Z.of_nat (List.length (calendar rep)))
    ++ py " events to life_science_talks.ics".
Proof.
  destruct table as [ rows | ]; cbn [main]; [ | discriminate ].
  intros H. bind_inv H. injection H as <-.
  apply reported_count_is_number_of_events in Ha.
  cbn [report_of exported_line calendar]. cbv zeta. cbn [exported_line calendar].
  rewrite Ha. reflexivity.
Qed.

(** X14: every event and every skip comes from a data row of its own: the
    events and the skips of a run are together no more than the rows that
    are no headings. *)
Theorem events_and_skips_within_data_rows (now_year : Z) (rows : list row)
  (st : loop_state) :
  foldM process_row (initial_state now_year) rows = Ok st ->
  (List.length (cal_events st) + List.length (skipped_details st)
   <= List.length (data_rows rows))%nat.
Proof. intros H. apply rows_counts in H. simpl in H. exact H. Qed.

(** X15: every event of the calendar a run writes has a name that is not
    empty, a begin before its end, and a location and a URL that are absent
    or not empty. *)
Theorem calendar_events_are_well_formed (now_year : Z)
  (table : option (list row)) (rep : report) :
  main now_year table = Ok rep ->
  Forall event_well_formed (calendar rep).
Proof.
  destruct table as [ rows | ]; cbn [main]; [ | discriminate ].
  intros H. bind_inv H. injection H as <-. cbn [report_of calendar].
  revert Ha.
  apply (foldM_invariant process_row (fun s => Forall event_well_formed (cal_events s)));
    [ | constructor ].
  intros s r s' _. apply process_row_well_formed.
Qed.
End Loop.

Lemma tracker_month_is_a_month_name_witness :
  exists st,
    foldM process_row (initial_state 2024)
      [heading_row (py "Talks in May 2024"); talk_row (py "7") (py "14:00")] = Ok st
    /\ current_month_name st = Some (py "May")
    /\ month_or_none (current_month_name st).
Proof.
  eexists. split; [ vm_compute; reflexivity | ].
  split; [ reflexivity | ].
  apply (tracker_month_is_a_month_name 2024
           [heading_row (py "Talks in May 2024"); talk_row (py "7") (py "14:00")]).
  vm_compute. reflexivity.
Defined.

Lemma row_touches_tracker_or_results_witness :
  exists st',
    process_row (initial_state 2023) (heading_row (py "May 2024")) = Ok st'
    /\ current_year st' = 2024
    /\ cal_events st' = [] /\ created_events st' = 0 /\ skipped_details st' = [].
Proof.
  eexists. split; [ vm_compute; reflexivity | ].
  split; [ reflexivity | ].
  apply (row_touches_tracker_or_results (initial_state 2023) _
           (heading_row (py "May 2024"))).
  vm_compute. reflexivity.
Defined.

Lemma row_loop_lets_only_overflow_through_witness :
  exists e,
    foldM process_row (initial_state 2024)
      [heading_row (py "May 2024"); talk_row (py "99999999999") (py "15:00")]
    = Raise e
    /\ e = OverflowError.
Proof.
  destruct (foldM process_row (initial_state 2024)
              [heading_row (py "May 2024"); talk_row (py "99999999999") (py "15:00")])
    as [ st | e ] eqn:E; [ vm_compute in E; discriminate | ].
  exists e. split; [ reflexivity | ].
  exact (row_loop_lets_only_overflow_through (initial_state 2024) _ e E).
Defined.

Lemma exported_line_counts_the_calendar_witness :
  exists rep,
    main 2024 (Some [heading_row (py "May 2024"); talk_row (py "7") (py "14:00");
                     talk_row (py "45") (py "15:00")]) = Ok rep
    /\ exported_line rep = py "Exported 1 events to life_science_talks.ics"
    /\ exported_line rep
       = py "Exported " ++ str_of_int (Z.of_nat (List.length (calendar rep)))
         ++ py " events to life_science_talks.ics".
Proof.
  eexists. split; [ vm_compute; reflexivity | ].
  split; [ vm_compute; reflexivity | ].
  apply (exported_line_counts_the_calendar 2024
           (Some [heading_row (py "May 2024"); talk_row (py "7") (py "14:00");
                  talk_row (py "45") (py "15:00")])).
  vm_compute. reflexivity.
Defined.

Lemma events_and_skips_within_data_rows_witness :
  exists st,
    foldM process_row (initial_state 2024)
      [heading_row (py "May 2024"); talk_row (py "7") (py "14:00");
       talk_row (py "45") (py "15:00")] = Ok st
    /\ List.length (cal_events st) = 1%nat
    /\ List.length (skipped_details st) = 1%nat
    /\ (List.length (cal_events st) + List.length (skipped_details st)
        <= List.length
             (data_rows [heading_row (py "May 2024"); talk_row (py "7") (py "14:00");
                         talk_row (py "45") (py "15:00")]))%nat.
Proof.
  eexists. split; [ vm_compute; reflexivity | ].
  split; [ reflexivity | ]. split; [ reflexivity | ].
  apply (events_and_skips_within_data_rows 2024). vm_compute. reflexivity.
Defined.

Lemma calendar_events_are_well_formed_witness :
  exists rep,
    main 2024 (Some [heading_row (py "May 2024"); talk_row (py "7") (py "14:00")])
    = Ok rep
    /\ List.length (calendar rep) = 1%nat
    /\ Forall event_well_formed (calendar rep).
Proof.
  eexists. split; [ vm_compute; reflexivity | ].
  split; [ reflexivity | ].
  apply (calendar_events_are_well_formed 2024
           (Some [heading_row (py "May 2024"); talk_row (py "7") (py "14:00")])).
  vm_compute. reflexivity.
Defined.

(* ================================================================== *)
(** ** Further properties of the description and the duration *)

Lemma build_description_lines (speaker venue link duration_text : str) :
  build_description speaker venue link duration_text
  = join [NEWLINE] (description_lines speaker venue link duration_text).
Proof.
  unfold build_description, description_lines. cbv zeta.
  destruct (is_empty speaker), (is_empty venue), (is_empty link),
    (is_empty duration_text); reflexivity.
Qed.

Lemma split_on_cons_separator (c : char) (s : str) :
  split_on c (c :: s) = [] :: split_on c s.
Proof. simpl. rewrite N.eqb_refl. reflexivity. Qed.

Lemma split_on_app_line (c : char) (line rest : str) :
  Forall (fun x => x <> c) line ->
  split_on c (line ++ c :: rest) = line :: split_on c rest.
Proof.
  induction 1 as [ | x line Hx _ IH ]; [ apply split_on_cons_separator | ].
  cbn [app split_on]. apply N.eqb_neq in Hx. rewrite Hx, IH. reflexivity.
Qed.

(** Splitting undoes joining, for lines that hold no separator. *)
Lemma split_on_join (c : char) (ls : list str) :
  Forall (Forall (fun x => x <> c)) ls -> ls <> [] ->
  split_on c (join [c] ls) = ls.
Proof.
  induction 1 as [ | line ls Hline Hls IH ]; [ intros H; contradiction | intros _ ].
  destruct ls as [ | line' ls ].
  - apply split_on_no_separator. exact Hline.
  - change (join [c] (line :: line' :: ls)) with (line ++ c :: join [c] (line' :: ls)).
    rewrite split_on_app_line by exact Hline. rewrite IH by discriminate. reflexivity.
Qed.

Lemma description_lines_no_newline (speaker venue link duration_text : str) :
  no_newline speaker -> no_newline venue -> no_newline link ->
  no_newline duration_text ->
  Forall no_newline (description_lines speaker venue link duration_text).
Proof.
  intros Hs Hv Hl Hd. unfold description_lines.
  assert (L : forall label field : str, no_newline label -> no_newline field ->
                                        no_newline (label ++ field))
    by (intros; apply Forall_app; auto).
  assert (P : forall label : string,
             forallb (fun c => negb (N.eqb c NEWLINE)) (py label) = true ->
             no_newline (py label)).
  { intros label H. apply Forall_forall. intros c Hc ->.
    rewrite forallb_forall in H. specialize (H _ Hc).
    rewrite N.eqb_refl in H. discriminate. }
  apply Forall_app; split; [ | apply Forall_app; split; [ | apply Forall_app; split ] ];
    (match goal with |- Forall _ (if ?c then _ else _) => destruct c end;
    [ apply Forall_nil | apply Forall_cons; [ | apply Forall_nil ] ];
    apply L; [ apply P; reflexivity | assumption ]).
Qed.

(** X16: a description is read back line by line: when no field holds a
    line break, splitting the description at the line breaks gives the
    labelled lines of the fields that are not empty, in the order speaker,
    venue, link, duration. *)
Theorem description_splits_into_its_lines (speaker venue link duration_text : str) :
  no_newline speaker -> no_newline venue -> no_newline link ->
  no_newline duration_text ->
  description_lines speaker venue link duration_text <> [] ->
  split_on NEWLINE (build_description speaker venue link duration_text)
  = description_lines speaker venue link duration_text.
Proof.
  intros Hs Hv Hl Hd Hne. rewrite build_description_lines.
  apply split_on_join; [ | exact Hne ].
  now apply description_lines_no_newline.
Qed.

Lemma description_splits_into_its_lines_witness :
  split_on NEWLINE (build_description (py "Ada") [] (py "http://x") (py "1h"))
  = [py "Speaker: Ada"; py "Link: http://x"; py "Duration: 1h"].
Proof.
  apply (description_splits_into_its_lines (py "Ada") [] (py "http://x") (py "1h"));
    first [ repeat constructor; discriminate | vm_compute; discriminate ].
Defined.

(** X17: [format_duration] drops the seconds and nothing else: the text of
    a duration that is not negative states that duration rounded down to
    the minute. *)
Theorem format_duration_rounds_down_to_the_minute (delta : timedelta) :
  0 <= delta ->
  stated_duration (format_duration delta) = Some (delta - delta mod 60).
Proof.
  intros Hpos.
  assert (E : format_duration delta = format_duration (delta - delta mod 60)).
  { rewrite (format_duration_shape delta), (format_duration_shape (delta - delta mod 60)).
    cbv zeta.
    replace ((delta - delta mod 60) / 60) with (delta / 60)
      by (Z.div_mod_to_equations; lia).
    reflexivity. }
  rewrite E. apply stated_duration_format; Z.div_mod_to_equations; lia.
Qed.

Lemma format_duration_rounds_down_to_the_minute_witness :
  format_duration 5459 = py "1h 30m"
  /\ stated_duration (format_duration 5459) = Some 5400.
Proof.
  split; [ vm_compute; reflexivity | ].
  apply (format_duration_rounds_down_to_the_minute 5459). lia.
Defined.

(* ================================================================== *)

Lemma last_day_of_the_calendar (d : date) :
  valid_date d -> toordinal d = MAXORDINAL -> d = LAST_DAY.
Proof.
  intros (Hy & Hm & Hd) H. unfold toordinal, ymd2ord in H.
  pose proof (day_of_year_range (year d) (month d) (day d) Hm Hd) as Hday.
  pose proof (days_before_year_step (year d)) as Hstep.
  assert (Y : year d = 9999).
  { destruct (Z.eq_dec (year d) 9999) as [ E | E ]; [ exact E | exfalso ].
    assert (H1 : days_before_year (year d + 1) <= days_before_year 9999)
      by (unfold days_before_year; Z.div_mod_to_equations; lia).
    change (days_before_year 9999) with 3651694 in H1. unfold MAXORDINAL in H.
    destruct (is_leap (year d)); lia. }
  destruct d as [y m dd]. cbn [year month day] in *. subst y.
  change (days_before_year 9999) with 3651694 in H. unfold MAXORDINAL in H.
  unfold days_before_month, days_in_month in *.
  change (is_leap 9999) with false in *.
  assert (C : m = 1 \/ m = 2 \/ m = 3 \/ m = 4 \/ m = 5 \/ m = 6 \/ m = 7 \/ m = 8
              \/ m = 9 \/ m = 10 \/ m = 11 \/ m = 12) by lia.
  repeat (destruct C as [ -> | C ];
          [ exfalso; revert H Hd; table_value; cbn [andb orb]; lia | ]).
  subst m. revert H Hd. table_value. cbn [andb orb]. intros H Hd.
  unfold LAST_DAY. f_equal. lia.
Qed.

Lemma datetime_add_clock (dt dt' : datetime) (td : timedelta) :
  datetime_add dt td = Ok dt' ->
  0 <= hour dt' <= 23 /\ 0 <= minute dt' <= 59 /\ dt_tzinfo dt' = dt_tzinfo dt.
Proof.
  unfold datetime_add. destruct (_ && _); [ | discriminate ]. intros [= <-].
  cbn [hour minute dt_tzinfo]. repeat split; Z.div_mod_to_equations; lia.
Qed.

Lemma next_or_In {A} (p : A -> bool) (xs : list A) (d : A) :
  xs <> [] -> In (next_or p xs (nth 0 xs d)) xs.
Proof.
  intros Hne. destruct xs as [ | x xs ]; [ contradiction | ].
  cbn [nth]. clear Hne.
  assert (G : forall ys, In (next_or p ys x) ys \/ next_or p ys x = x).
  { induction ys as [ | y ys IH ]; simpl; [ right; reflexivity | ].
    destruct (p y); [ left; left; reflexivity | ].
    destruct IH as [ IH | IH ]; [ left; right; exact IH | right; exact IH ]. }
  destruct (G (x :: xs)) as [ H | -> ]; [ exact H | left; reflexivity ].
Qed.

Lemma foldM_Raise {S A} (step : S -> A -> result S) (xs : list A) (s : S) (e : exn) :
  foldM step s xs = Raise e ->
  exists before x s',
    (exists after, xs = before ++ x :: after)
    /\ foldM step s before = Ok s' /\ step s' x = Raise e.
Proof.
  revert s. induction xs as [ | x xs IH ]; intros s H; simpl in H; [ discriminate | ].
  apply bind_Raise in H as [ H | (s1 & Hs1 & H) ].
  - exists [], x, s. split; [ exists xs; reflexivity | ]. split; [ reflexivity | exact H ].
  - apply IH in H as (before & y & s' & (after & ->) & Hb & Hy).
    exists (x :: before), y, s'. split; [ exists after; reflexivity | ].
    split; [ simpl; rewrite Hs1; exact Hb | exact Hy ].
Qed.

Section Aborts.
Context {rt : Runtime}.

Lemma assemble_datetime_zone (d : date) (h mi : Z) (dt : datetime) :
  assemble_datetime d h mi = Ok dt -> dt_tzinfo dt = DEFAULT_TIMEZONE.
Proof.
  unfold assemble_datetime. intros H. bind_inv H. injection H as <-.
  unfold time_new in Ha. bind_inv Ha. bind_inv Ha.
  revert Ha. repeat head_if; try discriminate. intros [= <-].
  destruct DEFAULT_TIMEZONE; reflexivity.
Qed.

Lemma process_row_Raise (st : loop_state) (r : row) (e : exn) :
  process_row st r = Raise e ->
  exists date_token,
    In date_token (date_strings r)
    /\ (parse_date date_token (current_month_name st) (current_year st) = Raise e
        \/ exists event_date time_text,
             parse_date date_token (current_month_name st) (current_year st)
             = Ok event_date
             /\ parse_time_components time_text event_date = Raise e).
Proof.
  unfold process_row. fold (date_strings r).
  destruct (is_nil (cells r)); [ discriminate | ].
  destruct (_ && _).
  { intros H.
    destruct (foldM_raises no_exception heading_text (strong_texts r)
                heading_text_raises st e H). }
  cbv zeta.
  destruct (date_strings r) as [ | x xs ] eqn:Hds; [ discriminate | ].
  cbn [is_nil].
  head_if; [ discriminate | ].
  set (date_token := next_or any_digit (x :: xs) (nth 0 (x :: xs) [])).
  assert (Hin : In date_token (x :: xs)) by (apply next_or_In; discriminate).
  intros H. exists date_token. split; [ exact Hin | ].
  destruct (parse_date date_token _ _) as [ event_date | [ msg | | | msg ] ] eqn:Hd;
    cbn [attempt bind] in H; try discriminate;
    try (left; injection H as <-; reflexivity).
  right. revert H. head_if; [ discriminate | ].
  match goal with
  | |- context [parse_time_components ?t event_date] => set (time_text := t)
  end.
  intros H. exists event_date, time_text. split; [ reflexivity | ].
  destruct (parse_time_components time_text event_date)
    as [ [s en] | [ msg | | | msg ] ]; cbn [attempt bind] in H;
    try discriminate; injection H as <-; reflexivity.
Qed.

Lemma rows_year (now_year : Z) (rows : list row) (st : loop_state) :
  year_in_range now_year ->
  foldM process_row (initial_state now_year) rows = Ok st ->
  year_in_range (current_year st).
Proof.
  intros Hnow.
  apply (foldM_invariant process_row (fun s => year_in_range (current_year s)));
    [ | exact Hnow ].
  intros s r s' _. apply process_row_year.
Qed.

(** X18: both timestamps of a parsed range are clock times of whole
    minutes, the hour from 0 to 23 and the minute from 0 to 59, and they
    carry the same time zone. *)
Theorem parsed_range_is_on_the_minute (time_range : str) (d : date)
  (s e : datetime) :
  parse_time_components time_range d = Ok (s, e) ->
  on_the_minute s /\ on_the_minute e /\ dt_tzinfo e = dt_tzinfo s.
Proof.
  intros H. pose proof (parse_time_components_seconds _ _ _ _ H) as (Ss & Se).
  unfold on_the_minute.
  destruct (parse_time_components_cases time_range d)
    as [ (_ & E) | (_ & [ (p & _ & E) | [ (_ & E) | (a & b & more & _ & E) ] ]) ];
    rewrite E in H; try discriminate.
  - apply single_time_Ok in H as (h & m & _ & Hs & He).
    apply assemble_datetime_clock in Hs as (_ & Hh & Hm & _).
    apply datetime_add_clock in He as (Hh' & Hm' & Hz). tauto.
  - apply time_range_of_Ok in H as (sh & sm & eh & em & e0 & _ & _ & Hs & He0 & He).
    pose proof (assemble_datetime_zone _ _ _ _ Hs) as Zs.
    pose proof (assemble_datetime_zone _ _ _ _ He0) as Ze.
    apply assemble_datetime_clock in Hs as (_ & Hh & Hm & _).
    apply assemble_datetime_clock in He0 as (_ & Hh0 & Hm0 & _).
    destruct (datetime_le e0 s).
    + apply datetime_add_clock in He as (Hh' & Hm' & Hz).
      repeat split; try tauto. congruence.
    + subst e. repeat split; try tauto. congruence.
Qed.

(** X19: a heading row never fails: whatever its emphasized texts are, the
    turn of the loop returns. *)
Theorem heading_row_always_returns (st : loop_state) (r : row) :
  is_heading r = true -> exists st', process_row st r = Ok st'.
Proof.
  unfold is_heading, process_row. intros Hh.
  destruct (is_nil (cells r)); [ discriminate | ].
  cbn [negb andb] in Hh. rewrite Hh.
  destruct (foldM heading_text st (strong_texts r)) as [ st' | e ] eqn:E;
    [ exists st'; reflexivity | ].
  destruct (foldM_raises no_exception heading_text (strong_texts r)
              heading_text_raises st e E).
Qed.

(** X20: the two causes of an aborted row loop. When the year of the clock
    is one of the calendar and the loop over the rows (lines 327 to 410)
    ends with an exception, the rows before some row were read without one,
    and the first cell of that row holds a date text that, under the
    tracker the rows before left, either cleans to a number no C int holds,
    or is read as 9999-12-31, the day after which no timestamp exists. *)
Theorem aborted_loop_has_one_of_two_causes (now_year : Z) (rows : list row)
  (e : exn) :
  year_in_range now_year ->
  foldM process_row (initial_state now_year) rows = Raise e ->
  exists before r after date_token st,
    rows = before ++ r :: after
    /\ foldM process_row (initial_state now_year) before = Ok st
    /\ In date_token (date_strings r)
    /\ ((truthy (current_month_name st) = true /\ long_number date_token)
        \/ parse_date date_token (current_month_name st) (current_year st)
           = Ok LAST_DAY).
Proof.
  intros Hnow H.
  pose proof (foldM_raises is_OverflowError process_row rows process_row_raises _ e H)
    as He. unfold is_OverflowError in He. subst e.
  apply foldM_Raise in H as (before & r & st & (after & Hrows) & Hb & Hr).
  pose proof (rows_year now_year before st Hnow Hb) as Hy.
  apply process_row_Raise in Hr as (date_token & Hin & Hr).
  exists before, r, after, date_token, st.
  split; [ exact Hrows | ]. split; [ exact Hb | ]. split; [ exact Hin | ].
  destruct Hr as [ Hr | (event_date & time_text & Hd & Ht) ].
  - left. apply parse_date_raises in Hr as [ (msg & Hmsg) | (_ & Hm & Hdig & Hn) ];
      [ discriminate | | exact Hy ].
    split; [ exact Hm | split; [ exact Hdig | exact Hn ] ].
  - right. pose proof (parse_date_valid _ _ _ _ Hd) as Hv.
    pose proof (valid_date_ordinal _ Hv) as Ho.
    destruct (Z.eq_dec (toordinal event_date) MAXORDINAL) as [ Hlast | Hlast ].
    + rewrite <- (last_day_of_the_calendar _ Hv Hlast). exact Hd.
    + exfalso.
      destruct (parse_time_components_raises time_text event_date ltac:(lia) _ Ht)
        as (msg & Hmsg).
      discriminate.
Qed.
End Aborts.

Lemma parsed_range_is_on_the_minute_witness :
  parse_time_components (py "11:30pm") may_day
  = Ok (berlin 2024 5 1 23 30, berlin 2024 5 2 0 30)
  /\ on_the_minute (berlin 2024 5 2 0 30).
Proof.
  assert (H : parse_time_components (py "11:30pm") may_day
              = Ok (berlin 2024 5 1 23 30, berlin 2024 5 2 0 30))
    by (vm_compute; reflexivity).
  split; [ exact H | ].
  exact (proj1 (proj2 (parsed_range_is_on_the_minute _ _ _ _ H))).
Defined.

Lemma heading_row_always_returns_witness :
  exists st', process_row (initial_state 2024) (heading_row (py "99999999999")) = Ok st'.
Proof.
  apply (heading_row_always_returns (initial_state 2024) (heading_row (py "99999999999"))).
  reflexivity.
Defined.

Lemma aborted_loop_has_one_of_two_causes_witness :
  exists before r after date_token st,
    [heading_row (py "December 9999"); talk_row (py "31") (py "23:30")]
    = before ++ r :: after
    /\ foldM process_row (initial_state 2024) before = Ok st
    /\ In date_token (date_strings r)
    /\ ((truthy (current_month_name st) = true /\ long_number date_token)
        \/ parse_date date_token (current_month_name st) (current_year st)
           = Ok LAST_DAY).
Proof.
  apply (aborted_loop_has_one_of_two_causes 2024
           [heading_row (py "December 9999"); talk_row (py "31") (py "23:30")]
           OverflowError).
  - unfold year_in_range. vm_compute. split; discriminate.
  - vm_compute. reflexivity.
Defined.

(* ================================================================== *)
(** * The matcher and the texts it reads *)

Section Reach.
Context {rt : Runtime}.

Lemma reaches_refl (c : cursor) : reaches c c [].
Proof. split; [ reflexivity | simpl; lia ]. Qed.

Lemma reaches_trans (a b c : cursor) (u v : str) :
  reaches a b u -> reaches b c v -> reaches a c (u ++ v).
Proof.
  intros (R1 & P1) (R2 & P2). split.
  - rewrite R1, R2, app_assoc. reflexivity.
  - rewrite P2, P1, length_app. lia.
Qed.

Lemma advance_reaches (c c' : cursor) (y : char) :
  advance c = Some (y, c') ->
  reaches c c' [y] /\ groups c' = groups c /\ before c' = Some y.
Proof.
  unfold advance. destruct (rest c) as [ | x s ] eqn:E; [ discriminate | ].
  intros [= <- <-]. unfold reaches. cbn [rest pos groups before List.length app].
  repeat split; [ exact E | lia ].
Qed.

(** Whatever the continuation of a pattern accepts lies ahead in the text;
    a pattern without groups leaves the groups as they are. *)
Lemma run_reaches (r : regex) :
  forall (c : cursor) (k : cursor -> option cursor) (cf : cursor),
    run r c k = Some cf ->
    exists c' consumed,
      reaches c c' consumed /\ k c' = Some cf
      /\ (groupless r = true -> groups c' = groups c).
Proof.
  induction r as [ | x | x | p | a IHa b IHb | a IHa b IHb | a IHa | a IHa
                 | name a IHa | | p | p ]; intros c k cf.
  - cbn [run groupless]. intros H. exists c, []. split; [ apply reaches_refl | auto ].
  - cbn [run groupless].
    destruct (advance c) as [ [y c'] | ] eqn:E; [ | discriminate ].
    destruct (N.eqb x y); [ | discriminate ]. intros H.
    apply advance_reaches in E as (R & G & _). exists c', [y]. auto.
  - cbn [run groupless].
    destruct (advance c) as [ [y c'] | ] eqn:E; [ | discriminate ].
    destruct (ci_match x y); [ | discriminate ]. intros H.
    apply advance_reaches in E as (R & G & _). exists c', [y]. auto.
  - cbn [run groupless].
    destruct (advance c) as [ [y c'] | ] eqn:E; [ | discriminate ].
    destruct (p y); [ | discriminate ]. intros H.
    apply advance_reaches in E as (R & G & _). exists c', [y]. auto.
  - cbn [run groupless].
    intros H. apply IHa in H as (c1 & u & R1 & H & G1).
    apply IHb in H as (c2 & v & R2 & H & G2).
    exists c2, (u ++ v). split; [ eapply reaches_trans; eassumption | ].
    split; [ exact H | ].
    intros Hg. apply andb_true_iff in Hg as (Ha & Hb).
    rewrite (G2 Hb), (G1 Ha). reflexivity.
  - cbn [run groupless]. intros H.
    destruct (run a c k) as [ cf' | ] eqn:E; cbn [or_else] in H.
    + injection H as <-. apply IHa in E as (c1 & u & R1 & H & G1).
      exists c1, u. split; [ exact R1 | split; [ exact H | ] ].
      intros Hg. apply andb_true_iff in Hg as (Ha & _). auto.
    + apply IHb in H as (c1 & u & R1 & H & G1).
      exists c1, u. split; [ exact R1 | split; [ exact H | ] ].
      intros Hg. apply andb_true_iff in Hg as (_ & Hb). auto.
  - cbn [run groupless]. intros H.
    destruct (run a c k) as [ cf' | ] eqn:E; cbn [or_else] in H.
    + injection H as <-. apply IHa in E as (c1 & u & R1 & H & G1).
      exists c1, u. auto.
    + exists c, []. split; [ apply reaches_refl | auto ].
  - change (run (Plus a) c k)
      with (plus_run (run a) k (S (List.length (rest c))) c).
    cbn [groupless].
    generalize (S (List.length (rest c))). intros fuel. revert c.
    induction fuel as [ | fuel IH ]; intros c H; [ discriminate | ].
    cbn [plus_run] in H.
    apply IHa in H as (c1 & u & R1 & H & G1). cbv beta in H.
    destruct (pos c <? pos c1)%nat.
    + match type of H with
      | or_else ?o _ = _ => destruct o as [ cf' | ] eqn:E
      end; cbn [or_else] in H.
      * injection H as <-. apply IH in E as (c2 & v & R2 & H & G2).
        exists c2, (u ++ v). split; [ eapply reaches_trans; eassumption | ].
        split; [ exact H | ].
        intros Hg. rewrite (G2 Hg), (G1 Hg). reflexivity.
      * exists c1, u. auto.
    + exists c1, u. auto.
  - cbn [run groupless].
    intros H. apply IHa in H as (c1 & u & (R1 & P1) & H & _).
    exists (capture name c c1), u. split; [ split; assumption | ].
    split; [ exact H | discriminate ].
  - cbn [run groupless].
    destruct (xorb _ _); [ | discriminate ]. intros H.
    exists c, []. split; [ apply reaches_refl | auto ].
  - cbn [run groupless].
    destruct (holds p (before c)); [ | discriminate ]. intros H.
    exists c, []. split; [ apply reaches_refl | auto ].
  - cbn [run groupless].
    destruct (holds p (hd_error (rest c))); [ | discriminate ]. intros H.
    exists c, []. split; [ apply reaches_refl | auto ].
Qed.

(** The characters [p+] consumes. *)
Lemma run_Plus_Class_reaches (p : char -> bool) (c : cursor)
  (k : cursor -> option cursor) (cf : cursor) :
  run (Plus (Class p)) c k = Some cf ->
  exists c' gap,
    reaches c c' gap /\ k c' = Some cf /\ groups c' = groups c
    /\ gap <> [] /\ Forall (fun x => p x = true) gap.
Proof.
  change (run (Plus (Class p)) c k)
    with (plus_run (run (Class p)) k (S (List.length (rest c))) c).
  generalize (S (List.length (rest c))). intros fuel. revert c.
  induction fuel as [ | fuel IH ]; intros c H; [ discriminate | ].
  cbn [plus_run run] in H.
  destruct (advance c) as [ [y c1] | ] eqn:E; [ | discriminate ].
  destruct (p y) eqn:Hy; [ | discriminate ].
  apply advance_reaches in E as (R1 & G1 & _).
  destruct (pos c <? pos c1)%nat.
  - match type of H with
    | or_else ?o _ = _ => destruct o as [ cf' | ] eqn:E
    end; cbn [or_else] in H.
    + injection H as <-. apply IH in E as (c2 & gap & R2 & H & G2 & _ & Hgap).
      exists c2, ([y] ++ gap). split; [ eapply reaches_trans; eassumption | ].
      split; [ exact H | ]. split; [ congruence | ].
      split; [ discriminate | constructor; assumption ].
    + exists c1, [y]. repeat split; try assumption; try discriminate.
      * apply R1.
      * apply R1.
      * constructor; [ exact Hy | constructor ].
  - exists c1, [y]. repeat split; try assumption; try discriminate.
    + apply R1.
    + apply R1.
    + constructor; [ exact Hy | constructor ].
Qed.

Lemma groupless_seqs (rs : list regex) :
  forallb groupless rs = true -> groupless (seqs rs) = true.
Proof.
  induction rs as [ | r rs IH ]; [ reflexivity | ].
  cbn [forallb]. intros H. apply andb_true_iff in H as (Hr & Hrs).
  destruct rs as [ | r' rs ]; [ exact Hr | ].
  change (seqs (r :: r' :: rs)) with (Seq r (seqs (r' :: rs))).
  cbn [groupless]. rewrite Hr, (IH Hrs). reflexivity.
Qed.

Lemma groupless_alts (rs : list regex) :
  forallb groupless rs = true -> groupless (alts rs) = true.
Proof.
  induction rs as [ | r rs IH ]; [ reflexivity | ].
  cbn [forallb]. intros H. apply andb_true_iff in H as (Hr & Hrs).
  destruct rs as [ | r' rs ]; [ exact Hr | ].
  change (alts (r :: r' :: rs)) with (Alt r (alts (r' :: rs))).
  cbn [groupless]. rewrite Hr, (IH Hrs). reflexivity.
Qed.

Lemma groupless_words_i (ws : list str) : groupless (words_i ws) = true.
Proof.
  unfold words_i. apply groupless_alts. rewrite forallb_forall.
  intros r Hr. apply in_map_iff in Hr as (w & <- & _).
  unfold lit_i. apply groupless_seqs. rewrite forallb_forall.
  intros r Hr. apply in_map_iff in Hr as (x & <- & _).
  destruct (cased x); reflexivity.
Qed.
End Reach.

Lemma char_before_app (pre : str) (x : char) : char_before (pre ++ [x]) = Some x.
Proof. unfold char_before. rewrite rev_app_distr. reflexivity. Qed.

Section YearsOfHeadings.
Context {rt : Runtime}.

(** Where [search] finds its match. *)
Lemma search_from_position (r : regex) (s : str) :
  forall (pre : str) (prev : option char) (i : nat) (m : match_),
    prev = char_before pre ->
    search_from r prev i s = Some m ->
    exists skipped s',
      s = skipped ++ s'
      /\ match_here r (char_before (pre ++ skipped)) (i + List.length skipped) s'
         = Some m.
Proof.
  induction s as [ | x s IH ]; intros pre prev i m ->; cbn [search_from].
  - destruct (match_here r (char_before pre) i []) eqn:E;
      [ intros [= <-] | discriminate ].
    exists [], []. split; [ reflexivity | ].
    rewrite app_nil_r. cbn [List.length]. rewrite Nat.add_0_r. exact E.
  - destruct (match_here r (char_before pre) i (x :: s)) eqn:E.
    + intros [= <-]. exists [], (x :: s). split; [ reflexivity | ].
      rewrite app_nil_r. cbn [List.length]. rewrite Nat.add_0_r. exact E.
    + intros H.
      apply (IH (pre ++ [x]) (Some x) (S i) m) in H;
        [ | symmetry; apply char_before_app ].
      destruct H as (skipped & s' & -> & H).
      exists (x :: skipped), s'. split; [ reflexivity | ].
      rewrite <- app_assoc in H. cbn [app List.length] in *.
      replace (i + S (List.length skipped))%nat with (S (i + List.length skipped))
        by lia.
      exact H.
Qed.

(** The text a match of [YEAR_PATTERN] stands on. *)
Lemma match_here_YEAR_PATTERN_text (prev : option char) (i : nat) (s : str)
  (m : match_) :
  match_here YEAR_PATTERN prev i s = Some m ->
  exists a b tail,
    s = ch "2" :: ch "0" :: a :: b :: tail
    /\ isdecimal a = true /\ isdecimal b = true
    /\ group "1" (m_groups m) = Some [ch "2"; ch "0"; a; b]
    /\ word_boundary prev (Some (ch "2"))
    /\ word_boundary (Some b) (hd_error tail).
Proof.
  unfold match_here, YEAR_PATTERN, digit, word_boundary. cbn [seqs run].
  cbn [before rest pos groups].
  destruct (xorb (holds isword prev) (holds isword (hd_error s))) eqn:B1;
    [ | discriminate ].
  unfold advance at 1. cbn [before rest pos groups].
  destruct s as [ | x1 s ]; [ discriminate | ].
  destruct (N.eqb (ch "2") x1) eqn:E1; [ | discriminate ].
  unfold advance at 1. cbn [before rest pos groups].
  destruct s as [ | x2 s ]; [ discriminate | ].
  destruct (N.eqb (ch "0") x2) eqn:E2; [ | discriminate ].
  unfold advance at 1. cbn [before rest pos groups].
  destruct s as [ | a s ]; [ discriminate | ].
  destruct (isdecimal a) eqn:Ea; [ | discriminate ].
  unfold advance at 1. cbn [before rest pos groups].
  destruct s as [ | b s ]; [ discriminate | ].
  destruct (isdecimal b) eqn:Eb; [ | discriminate ].
  unfold capture. cbn [before rest pos groups].
  replace (S (S (S (S i))) - i)%nat with 4%nat by lia.
  destruct (xorb (holds isword (Some b)) (holds isword (hd_error s))) eqn:B2;
    [ | discriminate ].
  intros [= <-]. unfold m_groups, group.
  apply N.eqb_eq in E1, E2. subst x1 x2.
  exists a, b, s. cbn [hd_error] in B1. repeat split; auto.
Qed.

(** A year the pattern [\b(20\d{2})\b] finds is a year the text names. *)
Lemma year_match_names (text : str) (year_match : match_) (y : Z) :
  search YEAR_PATTERN (sanitized_heading text) = Some year_match ->
  int_group "1" year_match = Ok y ->
  names_year text y.
Proof.
  intros Hs Hy. unfold search in Hs.
  apply (search_from_position _ _ [] None O) in Hs; [ | reflexivity ].
  destruct Hs as (before & s' & Htext & Hs). cbn [app] in Hs.
  apply match_here_YEAR_PATTERN_text in Hs as (a & b & tail & -> & Ha & Hb & Hg & B1 & B2).
  unfold int_group in Hy. rewrite Hg in Hy.
  destruct (latin_digits (ch "2")) as (Hd2 & _); [ vm_compute; split; discriminate | ].
  destruct (latin_digits (ch "0")) as (Hd0 & _); [ vm_compute; split; discriminate | ].
  exists before, [ch "2"; ch "0"; a; b], tail.
  split; [ exact Htext | ]. split; [ reflexivity | ].
  split; [ repeat constructor; assumption | ].
  split; [ exact Hy | ].
  right. split; [ reflexivity | ]. split; [ exact B1 | exact B2 ].
Qed.

Lemma year_or_names (text : str) (fallback_year y : Z) :
  year_or (sanitized_heading text) fallback_year = Ok y ->
  y = fallback_year \/ names_year text y.
Proof.
  unfold year_or.
  destruct (search YEAR_PATTERN (sanitized_heading text)) as [ ym | ] eqn:Hs.
  - intros H. right. eapply year_match_names; eassumption.
  - intros [= <-]. left. reflexivity.
Qed.

Lemma month_of_tokens_names (text : str) (fallback_year : Z)
  (tokens : list str) (otherwise : result (option str * Z)) (m : option str) (y : Z) :
  (forall m' y', otherwise = Ok (m', y') ->
                 y' = fallback_year \/ names_year text y') ->
  month_of_tokens (sanitized_heading text) fallback_year tokens otherwise = Ok (m, y) ->
  y = fallback_year \/ names_year text y.
Proof.
  intros Ho. induction tokens as [ | token tokens IH ]; cbn [month_of_tokens];
    [ apply Ho | ].
  cbv zeta. destruct (is_empty _); [ exact IH | ].
  intros H.
  apply except_ValueError_Ok in H as [ H | (msg & H) ];
    [ | apply except_ValueError_Ok in H as [ H | (msg' & H) ] ];
    try (now apply IH);
    bind_inv H; bind_inv H; injection H as _ <-;
    eapply year_or_names; eassumption.
Qed.
End YearsOfHeadings.

Section MonthAndYear.
Context {rt : Runtime}.
Hypothesis space_is_space : isspace (ch " ") = true.
Hypothesis percent_is_no_space : isspace (ch "%") = false.

Lemma format_regex_month_year (d : ascii) (r : regex) :
  directive (ch d) = Some r ->
  format_regex (ch "%" :: ch d :: ch " " :: py "%Y") false
  = Some [r; spaces; Group "Y" (seqs [digit; digit; digit; digit])].
Proof.
  intros Hd. cbn [format_regex py list_ascii_of_string map].
  change (N_of_ascii "%") with (ch "%"). change (N_of_ascii "Y") with (ch "Y").
  rewrite percent_is_no_space, space_is_space, Hd.
  change (N.eqb (ch "%") (ch "%")) with true. cbv iota.
  change (directive (ch "Y")) with (Some (Group "Y" (seqs [digit; digit; digit; digit]))).
  reflexivity.
Qed.

Lemma advance_decimal (c c' : cursor) (y : char) :
  advance c = Some (y, c') ->
  rest c = y :: rest c' /\ pos c' = S (pos c) /\ groups c' = groups c.
Proof.
  intros H. apply advance_reaches in H as ((R & P) & G & _).
  cbn [app List.length] in *. repeat split; [ exact R | lia | exact G ].
Qed.

(** A text that is a name, white space and four digits, as the formats
    "%B %Y" and "%b %Y" read it. *)
Lemma re_match_name_year (g : string) (W : regex) (data : str) (found : match_) :
  groupless W = true ->
  re_match (seqs [Group g W; spaces; Group "Y" (seqs [digit; digit; digit; digit])]) data
  = Some found ->
  m_end found = List.length data ->
  exists name gap digits,
    data = name ++ gap ++ digits
    /\ gap <> [] /\ Forall (fun c => isspace c = true) gap
    /\ List.length digits = 4%nat /\ Forall (fun c => isdecimal c = true) digits
    /\ m_groups found = [("Y"%string, digits); (g, name)].
Proof.
  intros HW Hm Hend. unfold re_match, match_here in Hm.
  destruct (run _ _ Some) as [ cf | ] eqn:E; [ | discriminate ].
  injection Hm as <-. cbn [m_end m_groups] in *.
  cbn [seqs] in E. cbn [run] in E.
  apply run_reaches in E as (c1 & name & (R1 & P1) & E & G1). specialize (G1 HW).
  cbv beta in E. unfold spaces in E.
  apply run_Plus_Class_reaches in E as (c2 & gap & (R2 & P2) & E & G2 & Hgap & Hsp).
  cbv beta in E. unfold digit in E. cbn [run] in E.
  destruct (advance c2) as [ [x1 c3] | ] eqn:A1; [ | discriminate ].
  destruct (isdecimal x1) eqn:D1; [ | discriminate ].
  destruct (advance c3) as [ [x2 c4] | ] eqn:A2; [ | discriminate ].
  destruct (isdecimal x2) eqn:D2; [ | discriminate ].
  destruct (advance c4) as [ [x3 c5] | ] eqn:A3; [ | discriminate ].
  destruct (isdecimal x3) eqn:D3; [ | discriminate ].
  destruct (advance c5) as [ [x4 c6] | ] eqn:A4; [ | discriminate ].
  destruct (isdecimal x4) eqn:D4; [ | discriminate ].
  injection E as <-.
  apply advance_decimal in A1 as (T1 & Q1 & K1), A2 as (T2 & Q2 & K2),
    A3 as (T3 & Q3 & K3), A4 as (T4 & Q4 & K4).
  cbn [capture pos rest groups before] in *.
  assert (Hdata : data = name ++ gap ++ [x1; x2; x3; x4] ++ rest c6).
  { rewrite R1, R2, T1, T2, T3, T4. reflexivity. }
  assert (Hrest : rest c6 = []).
  { apply (f_equal (@List.length char)) in Hdata.
    rewrite !length_app in Hdata. cbn [List.length] in Hdata.
    destruct (rest c6); [ reflexivity | cbn [List.length] in Hdata; lia ]. }
  rewrite Hrest, app_nil_r in Hdata.
  exists name, gap, [x1; x2; x3; x4].
  split; [ exact Hdata | ]. split; [ exact Hgap | ]. split; [ exact Hsp | ].
  split; [ reflexivity | ]. split; [ repeat constructor; assumption | ].
  rewrite K4, K3, K2, K1, G2. cbn [groups]. rewrite G1.
  replace (pos c6 - pos c2)%nat with 4%nat by lia.
  replace (pos c1 - 0)%nat with (List.length name) by lia.
  rewrite T1, T2, T3, T4. cbn [firstn]. rewrite R1.
  rewrite firstn_app, Nat.sub_diag, firstn_all. cbn [firstn]. rewrite app_nil_r.
  reflexivity.
Qed.

Lemma index_result_In (x : str) (xs : list str) (i : Z) :
  index_result x xs = Ok i -> 0 <= i /\ nth_error xs (Z.to_nat i) = Some x.
Proof.
  unfold index_result.
  destruct (index_of x xs) as [ n | ] eqn:E; [ | discriminate ].
  intros [= <-]. split; [ lia | ]. rewrite Nat2Z.id.
  revert n E. induction xs as [ | z xs IH ]; intros n; cbn [index_of];
    [ discriminate | ].
  unfold str_eqb. destruct (list_eq_dec N.eq_dec z x) as [ -> | _ ].
  - intros [= <-]. reflexivity.
  - destruct (index_of x xs) as [ n' | ]; [ | discriminate ].
    intros [= <-]. cbn [nth_error]. apply IH. reflexivity.
Qed.

Lemma month_index_word (v : str) (names : list str) (i : Z) :
  index_result (lower v) ([] :: map lower names) = Ok i -> 1 <= i ->
  In (lower v) (map lower names).
Proof.
  intros H Hi. apply index_result_In in H as (_ & H).
  destruct (Z.to_nat i) as [ | n ] eqn:E; [ lia | ].
  cbn [nth_error] in H. eapply nth_error_In. exact H.
Qed.

(** What the formats "%B %Y" and "%b %Y" accept: a month name, white space
    and the four digits of the year. *)
Lemma strptime_month_year (data fmt : str) (parsed : datetime) :
  In fmt [py "%B %Y"; py "%b %Y"] ->
  strptime data fmt = Ok parsed ->
  exists name gap digits,
    data = name ++ gap ++ digits
    /\ month_word name
    /\ gap <> [] /\ Forall (fun c => isspace c = true) gap
    /\ List.length digits = 4%nat /\ Forall (fun c => isdecimal c = true) digits
    /\ py_int digits = Ok (year (dt_date parsed)).
Proof.
  intros [ <- | [ <- | [] ] ]; unfold strptime.
  - change (py "%B %Y") with (ch "%" :: ch "B" :: ch " " :: py "%Y").
    rewrite (format_regex_month_year "B"
               (Group "B" (words_i (map (nth_name f_month)
                                      [9; 2; 11; 12; 1; 10; 8; 3; 4; 6; 7; 5]%nat))))
      by reflexivity.
    destruct (re_match _ data) as [ found | ] eqn:Hm; [ | discriminate ].
    destruct (m_end found =? List.length data)%nat eqn:Hend; [ | discriminate ].
    cbn [negb]. apply Nat.eqb_eq in Hend.
    apply re_match_name_year in Hm
      as (name & gap & digits & Hdata & Hgap & Hsp & Hlen & Hdec & ->);
      [ | apply groupless_words_i | exact Hend ].
    intros H. cbv [field group String.eqb Ascii.eqb Bool.eqb] in H.
    cbn [bind] in H.
    apply bind_Ok in H as (y & Hy & H).
    apply bind_Ok in H as (m & Hmo & H). cbn [bind] in H.
    apply bind_Ok in H as (dd & Hdd & H). injection H as <-. cbn [dt_date].
    apply check_date_fields_valid in Hdd as ((_ & Hmonth & _) & -> & Em & _).
    exists name, gap, digits. repeat split; try assumption.
    left. apply (month_index_word name month_name m Hmo). lia.
  - change (py "%b %Y") with (ch "%" :: ch "b" :: ch " " :: py "%Y").
    rewrite (format_regex_month_year "b"
               (Group "b" (words_i (map (nth_name a_month)
                                      [1; 2; 3; 4; 5; 6; 7; 8; 9; 10; 11; 12]%nat))))
      by reflexivity.
    destruct (re_match _ data) as [ found | ] eqn:Hm; [ | discriminate ].
    destruct (m_end found =? List.length data)%nat eqn:Hend; [ | discriminate ].
    cbn [negb]. apply Nat.eqb_eq in Hend.
    apply re_match_name_year in Hm
      as (name & gap & digits & Hdata & Hgap & Hsp & Hlen & Hdec & ->);
      [ | apply groupless_words_i | exact Hend ].
    intros H. cbv [field group String.eqb Ascii.eqb Bool.eqb] in H.
    cbn [bind] in H.
    apply bind_Ok in H as (y & Hy & H).
    apply bind_Ok in H as (m & Hmo & H). cbn [bind] in H.
    apply bind_Ok in H as (dd & Hdd & H). injection H as <-. cbn [dt_date].
    apply check_date_fields_valid in Hdd as ((_ & Hmonth & _) & -> & Em & _).
    exists name, gap, digits. repeat split; try assumption.
    right. apply (month_index_word name month_abbr m Hmo). lia.
Qed.

(** The year [extract_month_and_year] returns is the fallback or a year
    the text names. *)
Lemma extract_month_and_year_names (text : str) (fallback_year : Z)
  (m : option str) (y : Z) :
  extract_month_and_year text fallback_year = Ok (m, y) ->
  y = fallback_year \/ names_year text y.
Proof.
  unfold extract_month_and_year. cbv zeta. fold (sanitized_heading text).
  destruct (is_empty _); [ intros [= _ <-]; left; reflexivity | ].
  intros H. apply first_format_Ok in H as [ (fmt & Hfmt & H) | H ].
  - bind_inv H. injection H as _ <-. right.
    apply (strptime_month_year _ _ _ Hfmt) in Ha
      as (name & gap & digits & Hdata & Hname & Hgap & Hsp & Hlen & Hdec & Hy).
    exists (name ++ gap), digits, [].
    rewrite app_nil_r, <- app_assoc.
    split; [ exact Hdata | ]. split; [ exact Hlen | ]. split; [ exact Hdec | ].
    split; [ exact Hy | ].
    left. split; [ reflexivity | ]. exists name, gap. auto.
  - eapply month_of_tokens_names; [ | exact H ].
    intros m' y'.
    destruct (search YEAR_PATTERN (sanitized_heading text)) as [ ym | ] eqn:Hs.
    + intros H'. bind_inv H'. injection H' as _ <-. right.
      eapply year_match_names; eassumption.
    + intros [= _ <-]. left. reflexivity.
Qed.
End MonthAndYear.

(* ================================================================== *)
(** * Ranges of two parts and more *)

Section TwoParts.
Context {rt : Runtime}.

(** A text with two parts or more is read from its first two parts. *)
Lemma parse_time_components_two_parts (time_range : str) (d : date)
  (a b : str) (more : list str) :
  range_parts (normalize_time_range time_range) = a :: b :: more ->
  parse_time_components time_range d = time_range_of a b d.
Proof.
  intros Hparts.
  destruct (parse_time_components_cases time_range d)
    as [ (Hn & _) | (_ & [ (p & Hp & _) | [ (Hp & _) | (a' & b' & more' & Hp & E) ] ]) ].
  - exfalso. destruct (normalize_time_range time_range); [ | discriminate ].
    rewrite range_parts_nil in Hparts. discriminate.
  - rewrite Hp in Hparts. discriminate.
  - rewrite Hp in Hparts. discriminate.
  - rewrite Hp in Hparts. injection Hparts as -> -> _. exact E.
Qed.

(** A day later the clock shows the same time. *)
Lemma datetime_add_day_clock (dt dt' : datetime) :
  datetime_add dt (timedelta_days 1) = Ok dt' ->
  0 <= hour dt <= 23 -> 0 <= minute dt <= 59 -> second dt = 0 ->
  hour dt' = hour dt /\ minute dt' = minute dt.
Proof.
  unfold datetime_add, timedelta_days.
  destruct (_ && _); [ | discriminate ]. intros [= <-] Hh Hm Hs.
  cbn [hour minute]. rewrite Hs. split; Z.div_mod_to_equations; lia.
Qed.

(** The hour a default meridiem gives a number up to 12. *)
Lemma convert_to_24_hour_clock (h : Z) (m : meridiem) :
  0 <= h <= 12 -> 0 <= convert_to_24_hour h (Some m) <= 23.
Proof.
  intros Hh. unfold convert_to_24_hour. rewrite Z.mod_small by lia.
  destruct m; destruct (h =? 12) eqn:E; try lia; apply Z.eqb_neq in E; lia.
Qed.

Lemma numeric_reading_hour (sanitized : str) (h mi : Z) :
  numeric_reading sanitized h mi -> 0 <= h.
Proof.
  intros (_ & _ & _ & m & _ & Hh & _). unfold int_group in Hh.
  destruct (group "hour" (m_groups m)); [ | discriminate ].
  now apply py_int_Ok in Hh.
Qed.

(** What a range reads when one of its sides alone has a marker: both
    sides are parsed with that marker as their default, under the 12-hour
    preference, and the clock times of the start and the end are the ones
    so read. *)
Lemma one_marker_times (a b : str) (d : date) (m : meridiem) (s e : datetime) :
  (extract_meridiem_label a = None /\ extract_meridiem_label b = Some m)
  \/ (extract_meridiem_label a = Some m /\ extract_meridiem_label b = None) ->
  time_range_of a b d = Ok (s, e) ->
  exists sh sm eh em,
    parse_time_fragment a (Some m) true = Ok (sh, sm)
    /\ parse_time_fragment b (Some m) true = Ok (eh, em)
    /\ dt_date s = d /\ hour s = sh mod 24 /\ minute s = sm
    /\ hour e = eh mod 24 /\ minute e = em.
Proof.
  intros Hside H.
  apply time_range_of_Ok in H as (sh & sm & eh & em & e0 & Hs & He & Has & Hae & Hroll).
  cbv zeta in Hs, He.
  assert (D : or_else (extract_meridiem_label a) (extract_meridiem_label b) = Some m
              /\ or_else (extract_meridiem_label b) (extract_meridiem_label a) = Some m)
    by (destruct Hside as [ (-> & ->) | (-> & ->) ]; split; reflexivity).
  destruct D as (D1 & D2). rewrite D1 in Hs, He. rewrite D2 in He.
  cbn [is_some] in Hs, He.
  apply assemble_datetime_Ok in Has as (Ds & Hhs & Hms & _ & _).
  apply assemble_datetime_Ok in Hae as (_ & Hhe & Hme & Rme & Se).
  exists sh, sm, eh, em.
  split; [ exact Hs | ]. split; [ exact He | ].
  split; [ exact Ds | ]. split; [ exact Hhs | ]. split; [ exact Hms | ].
  destruct (datetime_le e0 s).
  - apply datetime_add_day_clock in Hroll as (Eh & Em);
      [ | rewrite Hhe; Z.div_mod_to_equations; lia | exact Rme | exact Se ].
    rewrite Eh, Em. auto.
  - subst e. auto.
Qed.
End TwoParts.

(* ================================================================== *)
(** ** C2 *)

(** C2: in a range of two parts where one side alone carries a meridiem
    marker, both sides are parsed with that marker as their default, under
    the 12-hour preference, and the clock times of the start and of the end
    are the ones so read; the side without a marker, when it is a number up
    to 12, gets the hour that the marker of the other side gives it.
    "2 - 3pm" starts at 14:00. *)
Theorem marker_of_one_side_is_the_default (rt : Runtime) (time_range a b : str)
  (d : date) (m : meridiem) (s e : datetime) :
  range_parts (normalize_time_range time_range) = [a; b] ->
  (extract_meridiem_label a = None /\ extract_meridiem_label b = Some m)
  \/ (extract_meridiem_label a = Some m /\ extract_meridiem_label b = None) ->
  parse_time_components time_range d = Ok (s, e) ->
  (exists sh sm eh em,
      parse_time_fragment a (Some m) true = Ok (sh, sm)
      /\ parse_time_fragment b (Some m) true = Ok (eh, em)
      /\ dt_date s = d /\ hour s = sh mod 24 /\ minute s = sm
      /\ hour e = eh mod 24 /\ minute e = em)
  /\ (forall h mi,
        extract_meridiem_label a = None ->
        numeric_reading (sanitize_time_fragment a) h mi ->
        extract_meridiem_label (sanitize_time_fragment a) = None ->
        h <= 12 ->
        hour s = convert_to_24_hour h (Some m) /\ minute s = mi)
  /\ (forall h mi,
        extract_meridiem_label b = None ->
        numeric_reading (sanitize_time_fragment b) h mi ->
        extract_meridiem_label (sanitize_time_fragment b) = None ->
        h <= 12 ->
        hour e = convert_to_24_hour h (Some m) /\ minute e = mi).
Proof.
  intros Hparts Hside Hparse.
  rewrite (parse_time_components_two_parts _ _ _ _ _ Hparts) in Hparse.
  destruct (one_marker_times a b d m s e Hside Hparse)
    as (sh & sm & eh & em & Hs & He & Ds & Hhs & Hms & Hhe & Hme).
  split; [ exists sh, sm, eh, em; auto 10 | ].
  split; intros h mi _ Hnum Hown Hh;
    pose proof (numeric_reading_hour _ _ _ Hnum) as H0;
    pose proof (convert_to_24_hour_clock h m ltac:(lia)) as Hclock;
    pose proof (parse_time_fragment_numeric _ (Some m) true _ _ Hnum) as Hread;
    rewrite Hown in Hread;
    replace (h <=? 12) with true in Hread by (symmetry; apply Z.leb_le; exact Hh);
    cbn [andb] in Hread.
  - assert (E : sh = convert_to_24_hour h (Some m) /\ sm = mi)
      by (split; congruence).
    destruct E as (-> & ->). rewrite Hhs, Z.mod_small by lia. auto.
  - assert (E : eh = convert_to_24_hour h (Some m) /\ em = mi)
      by (split; congruence).
    destruct E as (-> & ->). rewrite Hhe, Z.mod_small by lia. auto.
Qed.

Lemma marker_of_one_side_is_the_default_witness :
  parse_time_components (py "2 - 3pm") may_day
  = Ok (berlin 2024 5 1 14 0, berlin 2024 5 1 15 0)
  /\ hour (berlin 2024 5 1 14 0) = convert_to_24_hour 2 (Some pm)
  /\ convert_to_24_hour 2 (Some pm) = 14
  /\ convert_to_24_hour 2 None = 2.
Proof.
  assert (H : parse_time_components (py "2 - 3pm") may_day
              = Ok (berlin 2024 5 1 14 0, berlin 2024 5 1 15 0))
    by (vm_compute; reflexivity).
  split; [ exact H | ].
  split; [ | split; reflexivity ].
  assert (Hparts : range_parts (normalize_time_range (py "2 - 3pm")) = [py "2"; py "3pm"])
    by (vm_compute; reflexivity).
  assert (Hside : (extract_meridiem_label (py "2") = None
                   /\ extract_meridiem_label (py "3pm") = Some pm)
                  \/ (extract_meridiem_label (py "2") = Some pm
                      /\ extract_meridiem_label (py "3pm") = None))
    by (left; split; vm_compute; reflexivity).
  destruct (marker_of_one_side_is_the_default basic_latin _ _ _ _ _ _ _ Hparts Hside H)
    as (_ & Hstart & _).
  apply (Hstart 2 0).
  - vm_compute. reflexivity.
  - split; [ vm_compute; reflexivity | ].
    split; [ vm_compute; reflexivity | ].
    split; [ vm_compute; reflexivity | ].
    eexists. split; [ vm_compute; reflexivity | ].
    split; vm_compute; reflexivity.
  - vm_compute. reflexivity.
  - lia.
Defined.

(* ================================================================== *)
(** ** C3 *)

(** C3, as stated, fails: "2-3-4" has three parts and is parsed, as 02:00
    to 03:00. *)
Lemma three_parts_are_parsed :
  range_parts (normalize_time_range (py "2-3-4")) = [py "2"; py "3"; py "4"]
  /\ parse_time_components (py "2-3-4") may_day
     = Ok (berlin 2024 5 1 2 0, berlin 2024 5 1 3 0).
Proof. split; vm_compute; reflexivity. Qed.

(** C3 (amended): a text with more than two parts does not fail with the
    unexpected-range error; its first two parts are parsed as the start and
    the end, and the parts after them are ignored: the result is the one of
    any text whose parts are the first two alone. *)
Theorem parts_after_the_second_are_ignored (rt : Runtime) (time_range : str)
  (d : date) :
  let parts := range_parts (normalize_time_range time_range) in
  (2 < List.length parts)%nat ->
  parse_time_components time_range d
  = time_range_of (nth 0 parts []) (nth 1 parts []) d
  /\ (forall text, parse_time_components time_range d
                   <> Raise (ValueError (py "Unexpected time range: " ++ text)))
  /\ (forall two_parts,
        range_parts (normalize_time_range two_parts)
        = [nth 0 parts []; nth 1 parts []] ->
        parse_time_components time_range d = parse_time_components two_parts d).
Proof.
  intros parts Hlen.
  destruct parts as [ | a [ | b more ] ] eqn:Hparts;
    try (simpl in Hlen; lia).
  subst parts. cbn [nth].
  pose proof (parse_time_components_two_parts _ d _ _ _ Hparts) as E.
  split; [ exact E | ]. split.
  - intros text H. rewrite E in H.
    apply time_range_of_avoids_U in H. apply H. reflexivity.
  - intros two_parts Htwo.
    rewrite E, (parse_time_components_two_parts _ d _ _ _ Htwo). reflexivity.
Qed.

Lemma parts_after_the_second_are_ignored_witness :
  parse_time_components (py "2-3-4") may_day
  = time_range_of (py "2") (py "3") may_day
  /\ parse_time_components (py "2-3-4") may_day
     = parse_time_components (py "2-3") may_day.
Proof.
  assert (Hlen : (2 < List.length (range_parts (normalize_time_range (py "2-3-4"))))%nat)
    by (vm_compute; lia).
  destruct (parts_after_the_second_are_ignored basic_latin (py "2-3-4") may_day Hlen)
    as (E & _ & Hsame).
  split; [ exact E | ].
  apply Hsame. vm_compute. reflexivity.
Defined.

(* ================================================================== *)
(** ** C7 *)

(** C7, as stated, fails: the heading "May 0123" leaves the year 123, which
    has three digits. *)
Lemma heading_can_set_year_123 :
  exists st,
    foldM process_row (initial_state 2024) [heading_row (py "May 0123")] = Ok st
    /\ current_year st = 123
    /\ ~ (1000 <= current_year st <= 9999).
Proof.
  eexists. split; [ vm_compute; reflexivity | ].
  split; [ reflexivity | ]. simpl. lia.
Qed.

Section TrackerYear.
Context {rt : Runtime}.
Hypothesis space_is_space : isspace (ch " ") = true.
Hypothesis percent_is_no_space : isspace (ch "%") = false.

(** A turn of the loop leaves the year it found, or one that a heading
    text of its row names. *)
Lemma process_row_names (rows : list row) (now_year : Z) (st st' : loop_state)
  (r : row) :
  In r rows ->
  current_year st = now_year \/ year_from_heading rows (current_year st) ->
  process_row st r = Ok st' ->
  current_year st' = now_year \/ year_from_heading rows (current_year st').
Proof.
  intros Hr Hinv H.
  apply process_row_Ok in H
    as [ (Hh & H) | (_ & [ -> | [ (reason & ->) | (ev & t & d & sp & v & l & -> & _) ] ]) ];
    try exact Hinv.
  revert H.
  apply (foldM_invariant heading_text
           (fun s => current_year s = now_year
                     \/ year_from_heading rows (current_year s)));
    [ | exact Hinv ].
  intros s text s' Htext Hs Hstep.
  apply heading_text_Ok in Hstep as (_ & _ & _ & m & Hextract & _).
  apply (extract_month_and_year_names space_is_space percent_is_no_space)
    in Hextract as [ E | Hn ].
  - rewrite E. exact Hs.
  - right. exists r, text. auto.
Qed.
End TrackerYear.

(** C7 (amended): after any number of rows the current year of the tracker
    is a year of the calendar, from 1 to 9999, provided the year of the clock
    is; and it is the year of the clock, with which the run starts, or a
    year written in the text of a heading row: four decimal digits of the
    text which end it after a month name, or which begin with 20 and stand
    between word boundaries.  (The runtime counts the space as white space
    and the percent sign not, as Python does.) *)
Theorem tracker_year_comes_from_headings (rt : Runtime) (now_year : Z)
  (rows : list row) (st : loop_state) :
  isspace (ch " ") = true -> isspace (ch "%") = false ->
  1 <= now_year <= 9999 ->
  foldM process_row (initial_state now_year) rows = Ok st ->
  1 <= current_year st <= 9999
  /\ (current_year st = now_year \/ year_from_heading rows (current_year st)).
Proof.
  intros Hspace Hpercent Hnow.
  apply (foldM_invariant process_row
           (fun s => year_in_range (current_year s)
                     /\ (current_year s = now_year
                         \/ year_from_heading rows (current_year s)))).
  - intros s r s' Hr (Hrange & Hinv) Hstep. split.
    + eapply process_row_year; eassumption.
    + eapply process_row_names; eassumption.
  - simpl. split; [ exact Hnow | left; reflexivity ].
Qed.

Lemma tracker_year_comes_from_headings_witness :
  exists st,
    foldM process_row (initial_state 2024)
      [heading_row (py "June 2031"); talk_row (py "7") (py "14:00")] = Ok st
    /\ current_year st = 2031
    /\ 1 <= current_year st <= 9999
    /\ (current_year st = 2024
        \/ year_from_heading
             [heading_row (py "June 2031"); talk_row (py "7") (py "14:00")]
             (current_year st)).
Proof.
  eexists. split; [ vm_compute; reflexivity | ].
  split; [ reflexivity | ].
  apply (tracker_year_comes_from_headings basic_latin 2024
           [heading_row (py "June 2031"); talk_row (py "7") (py "14:00")]).
  - reflexivity.
  - reflexivity.
  - lia.
  - vm_compute. reflexivity.
Defined.
